(** * product-image-scraper: the row processing pipeline of [app.py]

    A shallow embedding of the functions of [src/app.py] that carry the
    logic of the tool: [is_domain_allowed], [search_product_images],
    [process_dataframe] and the summary part of [create_excel_output].

    Modelling conventions.
    - A Python [str] is a [string]: a sequence of 8-bit characters.  The
      case and whitespace functions below are exact on ASCII text; the
      non-ASCII literals of the source appear in UTF-8.
    - [None] against a value is [option]; Python truthiness ([if x:]) is
      written out by the [truthy_*] functions.
    - An operation that may raise returns [py A]; a [try]/[except] is a
      [match] on it.
    - The browser, the clock and the search engine are oracles: functions
      that give, for each call, what the outside world answered. *)

From Stdlib Require Import List String Ascii Bool Arith ZArith Lia.
From Stdlib Require Import DecimalString Permutation Sorted.
Import ListNotations.
Local Open Scope string_scope.
Local Open Scope list_scope.
Local Open Scope nat_scope.

(** ** Python values *)

Inductive py (A : Type) : Type :=
| Ret (a : A)
| Raise (e : string).
Arguments Ret {A} a.
Arguments Raise {A} e.

Definition py_bind {A B : Type} (m : py A) (k : A -> py B) : py B :=
  match m with
  | Ret a => k a
  | Raise e => Raise e
  end.

Notation "x <- m ;; k" := (py_bind m (fun x => k))
  (at level 61, m at next level, right associativity).

(** [if s:] on a string, [if l:] on an optional list. *)
Definition truthy_str (s : string) : bool :=
  match s with
  | EmptyString => false
  | String _ _ => true
  end.

Definition truthy_list {A : Type} (l : option (list A)) : bool :=
  match l with
  | Some (_ :: _) => true
  | _ => false
  end.

(** What a [for x in l] visits when [l] passed its truthiness test. *)
Definition entries {A : Type} (l : option (list A)) : list A :=
  match l with
  | Some xs => xs
  | None => []
  end.

(** ** Strings *)

Module Str.

Definition lower_char (c : ascii) : ascii :=
  let n := nat_of_ascii c in
  if (65 <=? n) && (n <=? 90) then ascii_of_nat (n + 32) else c.

(** [s.lower()] *)
Fixpoint lower (s : string) : string :=
  match s with
  | EmptyString => EmptyString
  | String c s' => String (lower_char c) (lower s')
  end.

(** [c.isspace()] on ASCII: tab, newline, vertical tab, form feed,
    carriage return, the four separators 28..31 and the space. *)
Definition is_space (c : ascii) : bool :=
  let n := nat_of_ascii c in
  ((9 <=? n) && (n <=? 13)) || ((28 <=? n) && (n <=? 31)) || (n =? 32).

Fixpoint lstrip (s : string) : string :=
  match s with
  | EmptyString => EmptyString
  | String c s' => if is_space c then lstrip s' else s
  end.

(** Drops the trailing whitespace: a character is kept when something
    that is kept follows it, or when it is not a space. *)
Fixpoint rstrip (s : string) : string :=
  match s with
  | EmptyString => EmptyString
  | String c s' =>
      match rstrip s' with
      | EmptyString => if is_space c then EmptyString else String c EmptyString
      | r => String c r
      end
  end.

(** [s.strip()] *)
Definition strip (s : string) : string := rstrip (lstrip s).

Fixpoint starts_with (p s : string) : bool :=
  match p, s with
  | EmptyString, _ => true
  | String a p', String b s' => Ascii.eqb a b && starts_with p' s'
  | String _ _, EmptyString => false
  end.

(** [needle in hay] *)
Fixpoint contains (needle hay : string) : bool :=
  starts_with needle hay ||
  match hay with
  | EmptyString => false
  | String _ hay' => contains needle hay'
  end.

(** [sep.join(parts)] *)
Fixpoint join (sep : string) (parts : list string) : string :=
  match parts with
  | [] => EmptyString
  | [p] => p
  | p :: rest => p ++ sep ++ join sep rest
  end.

(** [s[:n]] *)
Fixpoint take (n : nat) (s : string) : string :=
  match n, s with
  | S n', String c s' => String c (take n' s')
  | _, _ => EmptyString
  end.

(** [str(n)] for a count. *)
Definition of_nat (n : nat) : string := NilEmpty.string_of_uint (Nat.to_uint n).

(** The substring relation that [contains] decides. *)
Definition substring_of (needle hay : string) : Prop :=
  exists pre post : string, hay = (pre ++ needle ++ post)%string.

End Str.

(** ** Domain filter: [is_domain_allowed] *)

Section App.

(** [urlparse(url).netloc]: the host part of [url], or the [ValueError]
    that [urlparse] raises on a URL it refuses. *)
Variable urlparse_netloc : string -> py string.

(** Lines 46-48: the loop over the blacklist; [true] when it reaches
    [return False]. *)
Fixpoint blocked_by (domain : string) (blacklist : list string) : bool :=
  match blacklist with
  | [] => false
  | blocked :: rest =>
      if Str.contains (Str.lower blocked) domain then true
      else blocked_by domain rest
  end.

(** Lines 42-54: the body of the [try]. *)
Definition is_domain_allowed_body (url : string)
    (whitelist blacklist : option (list string)) : py bool :=
  netloc <- urlparse_netloc url ;;
  let domain := Str.lower netloc in
  if truthy_list blacklist && blocked_by domain (entries blacklist) then Ret false
  else if truthy_list whitelist then
    Ret (existsb (fun allowed => Str.contains (Str.lower allowed) domain)
                 (entries whitelist))
  else Ret true.

(** Lines 36-56. *)
Definition is_domain_allowed (url : string)
    (whitelist blacklist : option (list string)) : bool :=
  if negb (truthy_str url) then false
  else
    match is_domain_allowed_body url whitelist blacklist with
    | Ret b => b
    | Raise _ => false
    end.

(** The words of the specification of the filter. *)

(** "host contains the entry as a case-insensitive substring" *)
Definition ci_substring (entry host : string) : Prop :=
  Str.substring_of (Str.lower entry) (Str.lower host).

(** A list is present when it is given and has an entry. *)
Definition present (l : option (list string)) : Prop :=
  exists x xs, l = Some (x :: xs).

Definition matches_some (l : option (list string)) (host : string) : Prop :=
  exists e, In e (entries l) /\ ci_substring e host.

(** ** Image search: [search_product_images] *)

(** The decoded [m] attribute of one result: the keys the code reads.  A
    key that is missing or [null] is [None]. *)
Record payload : Type := {
  purl : option string;
  murl : option string;
  turl : option string
}.

(** One [a.iusc] element, as lines 99-101 see it. *)
Inductive container : Type :=
| NoAttr                    (* [get_attribute('m')] is [None] or empty *)
| Undecodable (e : string)  (* [get_attribute] or [json.loads] raised *)
| Decoded (data : payload).

(** What the browser does at one attempt (lines 88-92). *)
Inductive attempt_outcome : Type :=
| GetFails (e : string)     (* [driver.get] raised *)
| FindFails (e : string)    (* [driver.find_elements] raised *)
| Found (image_containers : list container).

(** What the function does to the world, in order. *)
Inductive event : Type :=
| EvGet (search_string : string)  (* [driver.get] of the search page *)
| EvPause                         (* [time.sleep(2 + random.uniform(0, 1))] *)
| EvBackoff (seconds : nat)       (* [time.sleep(3)] *)
| EvWarning (retry_count : nat) (e : string).

(** [d.get(k, '')] and [x or y] on optional strings. *)
Definition get_or_empty (v : option string) : string :=
  match v with
  | Some s => s
  | None => EmptyString
  end.

Definition py_or (x y : option string) : option string :=
  match x with
  | Some (String _ _) => x
  | _ => y
  end.

(** Lines 71-81. *)
Definition build_search_string (description supplier brand : string) : string :=
  let search_parts := [] in
  let search_parts :=
    if truthy_str brand && truthy_str (Str.strip brand)
    then search_parts ++ [Str.strip brand] else search_parts in
  let search_parts :=
    if truthy_str supplier && truthy_str (Str.strip supplier)
    then search_parts ++ [Str.strip supplier] else search_parts in
  let search_parts :=
    if truthy_str description && truthy_str (Str.strip description)
    then search_parts ++ [Str.strip description] else search_parts in
  let search_parts := search_parts ++ ["product"%string] in
  Str.join " " search_parts.

(** The state of the search: [(image_urls, source_page_url)]. *)
Definition found : Type := (list string * string)%type.

(** Lines 98-120: the body of the loop over the containers. *)
Definition scan_one (whitelist blacklist : option (list string))
    (c : container) (st : found) : found :=
  let '(image_urls, source_page_url) := st in
  match c with
  | NoAttr => st
  | Undecodable _ => st
  | Decoded data =>
      let page_url := get_or_empty (purl data) in
      if negb (is_domain_allowed page_url whitelist blacklist) then st
      else
        match py_or (murl data) (turl data) with
        | Some image_url =>
            if truthy_str image_url && (20 <? String.length image_url)
            then (image_urls ++ [image_url],
                  if negb (truthy_str source_page_url) && truthy_str page_url
                  then page_url else source_page_url)
            else st
        | None => st
        end
  end.

(** Lines 94-120: the loop, with its [break]. *)
Fixpoint scan (max_results : nat) (whitelist blacklist : option (list string))
    (cs : list container) (st : found) : found :=
  match cs with
  | [] => st
  | c :: rest =>
      if max_results <=? List.length (fst st) then st
      else scan max_results whitelist blacklist rest
             (scan_one whitelist blacklist c st)
  end.

(** Lines 83-130: the attempts still to run, the state and the log. *)
Fixpoint attempts (driver : nat -> attempt_outcome) (search_string : string)
    (max_results retry_count : nat) (whitelist blacklist : option (list string))
    (todo : list nat) (st : found) (log : list event) : found * list event :=
  match todo with
  | [] => (st, log)
  | attempt :: rest =>
      let continue st' log' :=
        attempts driver search_string max_results retry_count
                 whitelist blacklist rest st' log' in
      let on_error e log' :=
        if attempt <? retry_count - 1
        then continue st (log' ++ [EvBackoff 3])
        else continue st (log' ++ [EvWarning retry_count e]) in
      match driver attempt with
      | GetFails e => on_error e (log ++ [EvGet search_string])
      | FindFails e => on_error e (log ++ [EvGet search_string; EvPause])
      | Found image_containers =>
          let st' := scan max_results whitelist blacklist
                          (firstn (max_results * 3) image_containers) st in
          let log' := log ++ [EvGet search_string; EvPause] in
          match fst st' with
          | _ :: _ => (st', log')
          | [] => continue st' log'
          end
      end
  end.

(** Lines 58-132.  [driver] is what [get_driver()] returned. *)
Definition search_product_images_log (driver : option (nat -> attempt_outcome))
    (description supplier brand : string) (max_results retry_count : nat)
    (whitelist blacklist : option (list string))
    : (list string * string) * list event :=
  match driver with
  | None => (([], EmptyString), [])
  | Some d =>
      let search_string := build_search_string description supplier brand in
      let '((image_urls, source_page_url), log) :=
        attempts d search_string max_results retry_count whitelist blacklist
                 (seq 0 retry_count) ([], EmptyString) [] in
      ((firstn max_results image_urls, source_page_url), log)
  end.

Definition search_product_images (driver : option (nat -> attempt_outcome))
    (description supplier brand : string) (max_results retry_count : nat)
    (whitelist blacklist : option (list string)) : list string * string :=
  fst (search_product_images_log driver description supplier brand
         max_results retry_count whitelist blacklist).

(** ** The batch: [process_dataframe] *)

(** A cell of a frame: a value, or [NaN]. *)
Definition cell : Type := option string.

(** A row of the input frame: column name to cell. *)
Definition df_row : Type := string -> cell.

(** [df[col] = v] on one row. *)
Definition set_col (col : string) (v : cell) (r : df_row) : df_row :=
  fun c => if String.eqb c col then v else r c.

(** [df.head(n)] *)
Definition head {A : Type} (n : Z) (l : list A) : list A :=
  if (0 <=? n)%Z then firstn (Z.to_nat n) l
  else firstn (List.length l - Z.to_nat (- n)) l.

(** [str(x) if pd.notna(x) else ""] *)
Definition str_or_empty (c : cell) : string :=
  match c with
  | Some s => s
  | None => EmptyString
  end.

(** A row of [results_df]: the selected columns, then the three added
    ones.  [Image_URL_more] holds what a third and later url would put in
    columns [Image_URL_3], ... that [.at] would create. *)
Record result_row : Type := {
  selected : list (string * cell);
  Image_URL_1 : string;
  Image_URL_2 : string;
  Product_Page_URL : string;
  Image_URL_more : list string
}.

(** A row of [stats_df]. *)
Record stats_row : Type := {
  Product_ID : cell;
  Search_Query : string;
  Source_Domain : string;
  Images_Found : nat;
  Search_Status : string;
  Processed_DateTime : string
}.

(** [row[col]] *)
Fixpoint row_get (col : string) (r : list (string * cell)) : cell :=
  match r with
  | [] => None
  | (c, v) :: rest => if String.eqb c col then v else row_get col rest
  end.

Definition blank_result : result_row :=
  {| selected := []; Image_URL_1 := ""; Image_URL_2 := "";
     Product_Page_URL := ""; Image_URL_more := [] |}.

Definition blank_stats : stats_row :=
  {| Product_ID := None; Search_Query := ""; Source_Domain := "";
     Images_Found := 0; Search_Status := ""; Processed_DateTime := "" |}.

(** [frame.at[idx, col] = v] under the default index 0, 1, ...: the row
    at [idx] is changed; a label that is not there adds a row. *)
Fixpoint at_set {A : Type} (blank : A) (idx : nat) (f : A -> A) (l : list A)
    : list A :=
  match l, idx with
  | [], _ => [f blank]
  | x :: rest, 0 => f x :: rest
  | x :: rest, S i => x :: at_set blank i f rest
  end.

Definition set_image_url (i : nat) (url : string) (r : result_row) : result_row :=
  match i with
  | 1 => {| selected := selected r; Image_URL_1 := url;
            Image_URL_2 := Image_URL_2 r;
            Product_Page_URL := Product_Page_URL r;
            Image_URL_more := Image_URL_more r |}
  | 2 => {| selected := selected r; Image_URL_1 := Image_URL_1 r;
            Image_URL_2 := url;
            Product_Page_URL := Product_Page_URL r;
            Image_URL_more := Image_URL_more r |}
  | _ => {| selected := selected r; Image_URL_1 := Image_URL_1 r;
            Image_URL_2 := Image_URL_2 r;
            Product_Page_URL := Product_Page_URL r;
            Image_URL_more := Image_URL_more r ++ [url] |}
  end.

(** Lines 243-244: [for i, url in enumerate(image_urls, i)]. *)
Fixpoint set_image_urls (i : nat) (image_urls : list string) (r : result_row)
    : result_row :=
  match image_urls with
  | [] => r
  | url :: rest => set_image_urls (S i) rest (set_image_url i url r)
  end.

Definition set_product_page_url (url : string) (r : result_row) : result_row :=
  {| selected := selected r; Image_URL_1 := Image_URL_1 r;
     Image_URL_2 := Image_URL_2 r; Product_Page_URL := url;
     Image_URL_more := Image_URL_more r |}.

(** Lines 258-261. *)
Definition set_stats (search_query source_domain : string) (images_found : nat)
    (processed : string) (r : stats_row) : stats_row :=
  {| Product_ID := Product_ID r; Search_Query := search_query;
     Source_Domain := source_domain; Images_Found := images_found;
     Search_Status := Search_Status r; Processed_DateTime := processed |}.

Definition set_status (status : string) (r : stats_row) : stats_row :=
  {| Product_ID := Product_ID r; Search_Query := Search_Query r;
     Source_Domain := Source_Domain r; Images_Found := Images_Found r;
     Search_Status := status; Processed_DateTime := Processed_DateTime r |}.

(** What the loop reports besides the two frames. *)
Inductive row_event : Type :=
| Checkpoint (current_row : nat)
| Delay (widened : bool).

(** The variables the loop of lines 210-307 changes. *)
Record run_state : Type := {
  results_df : list result_row;
  stats_df : list stats_row;
  success_count : nat;
  failed_count : nat;
  filtered_count : nat;
  checkpoint_data : option (list result_row);
  last_processed_index : Z;
  trace : list row_event
}.

(** One call of [process_dataframe].  [search idx ...] is what the call
    of lines 232-240 gives for the row at [idx]: what it returned, or the
    exception that left it.  [now idx] is
    [datetime.now().strftime(...)] while that row is processed. *)
Record call : Type := {
  product_id_col : string;
  description_col : string;
  supplier_col : option string;
  brand_col : option string;
  whitelist : option (list string);
  blacklist : option (list string);
  search : nat -> string -> string -> string -> py (list string * string);
  now : nat -> string
}.

(** Lines 226-228: the query shown in the statistics. *)
Definition display_query (description supplier brand : string) : string :=
  Str.join " "
    (filter (fun p => truthy_str (Str.strip p)) [brand; supplier; description]).

(** Lines 250-255. *)
Definition source_domain_of (product_url : string) : string :=
  if truthy_str product_url then
    match urlparse_netloc product_url with
    | Ret netloc => netloc
    | Raise _ => EmptyString
    end
  else EmptyString.

Section Batch.

(** One call of [process_dataframe]: its arguments, and what the outside
    world answers while it runs. *)
Variable a : call.

(** Lines 160 and 168: [col and col != temp]. *)
Definition use_col (col : option string) (temp : string) : bool :=
  match col with
  | Some c => truthy_str c && negb (String.eqb c temp)
  | None => false
  end.

(** Lines 157-173: [selected_cols] after the two [append]s. *)
Definition selected_cols : list string :=
  [product_id_col a; description_col a]
  ++ (if use_col (supplier_col a) "_temp_supplier"
      then [str_or_empty (supplier_col a)] else [])
  ++ (if use_col (brand_col a) "_temp_brand"
      then [str_or_empty (brand_col a)] else []).

Definition supplier_col' : string :=
  if use_col (supplier_col a) "_temp_supplier" then str_or_empty (supplier_col a)
  else "_temp_supplier".

Definition brand_col' : string :=
  if use_col (brand_col a) "_temp_brand" then str_or_empty (brand_col a)
  else "_temp_brand".

(** Lines 154-173: one row of [df_to_process]. *)
Definition to_process (r : df_row) : df_row :=
  let r := if use_col (supplier_col a) "_temp_supplier" then r
           else set_col "_temp_supplier" (Some EmptyString) r in
  if use_col (brand_col a) "_temp_brand" then r
  else set_col "_temp_brand" (Some EmptyString) r.

(** Lines 176-181. *)
Definition initial_result (r : df_row) : result_row :=
  {| selected := map (fun c => (c, r c)) selected_cols;
     Image_URL_1 := ""; Image_URL_2 := ""; Product_Page_URL := "";
     Image_URL_more := [] |}.

(** Lines 184-190. *)
Definition initial_stats (r : df_row) : stats_row :=
  {| Product_ID := r (product_id_col a); Search_Query := "";
     Source_Domain := ""; Images_Found := 0; Search_Status := "";
     Processed_DateTime := "" |}.

Definition initial_state (df_to_process : list df_row) : run_state :=
  {| results_df := map initial_result df_to_process;
     stats_df := map initial_stats df_to_process;
     success_count := 0; failed_count := 0; filtered_count := 0;
     checkpoint_data := None; last_processed_index := (-1)%Z;
     trace := [] |}.

(** Lines 231-284: the [try] and its [except], on the two frames and the
    three counters. *)
Definition search_and_record (idx : nat)
    (description supplier brand search_query : string) (st : run_state)
    : run_state :=
  match search a idx description supplier brand with
  | Ret (image_urls, product_url) =>
      let results := at_set blank_result idx (set_image_urls 1 image_urls)
                            (results_df st) in
      let results :=
        if truthy_str product_url
        then at_set blank_result idx (set_product_page_url product_url) results
        else results in
      let source_domain := source_domain_of product_url in
      let stats := at_set blank_stats idx
                     (set_stats search_query source_domain
                                (List.length image_urls) (now a idx))
                     (stats_df st) in
      match image_urls with
      | _ :: _ =>
          {| results_df := results;
             stats_df := at_set blank_stats idx (set_status "Success") stats;
             success_count := success_count st + 1;
             failed_count := failed_count st;
             filtered_count := filtered_count st;
             checkpoint_data := checkpoint_data st;
             last_processed_index := last_processed_index st;
             trace := trace st |}
      | [] =>
          if truthy_list (whitelist a) || truthy_list (blacklist a) then
            {| results_df := results;
               stats_df := at_set blank_stats idx
                             (set_status "Filtered - No allowed domains") stats;
               success_count := success_count st;
               failed_count := failed_count st;
               filtered_count := filtered_count st + 1;
               checkpoint_data := checkpoint_data st;
               last_processed_index := last_processed_index st;
               trace := trace st |}
          else
            {| results_df := results;
               stats_df := at_set blank_stats idx
                             (set_status "Failed - No images found") stats;
               success_count := success_count st;
               failed_count := failed_count st + 1;
               filtered_count := filtered_count st;
               checkpoint_data := checkpoint_data st;
               last_processed_index := last_processed_index st;
               trace := trace st |}
      end
  | Raise e =>
      {| results_df := results_df st;
         stats_df := at_set blank_stats idx
                       (set_status ("Error: " ++ Str.take 50 e)) (stats_df st);
         success_count := success_count st;
         failed_count := failed_count st + 1;
         filtered_count := filtered_count st;
         checkpoint_data := checkpoint_data st;
         last_processed_index := last_processed_index st;
         trace := trace st |}
  end.

(** Lines 293-307: the checkpoint and the delay before the next row.  The
    test [failed_count > success_count * 0.3] is taken over the
    rationals: [10 * failed_count > 3 * success_count]. *)
Definition checkpoint_and_delay (idx : nat) (st : run_state) : run_state :=
  let current_row := idx + 1 in
  let checkpointed := current_row mod 10 =? 0 in
  let widened := 3 * success_count st <? 10 * failed_count st in
  {| results_df := results_df st;
     stats_df := stats_df st;
     success_count := success_count st;
     failed_count := failed_count st;
     filtered_count := filtered_count st;
     checkpoint_data :=
       if checkpointed then Some (results_df st) else checkpoint_data st;
     last_processed_index :=
       if checkpointed then Z.of_nat idx else last_processed_index st;
     trace := trace st
              ++ (if checkpointed then [Checkpoint current_row] else [])
              ++ [Delay widened] |}.

(** How often [col] is among the labels [cols]. *)
Definition count_in (col : string) (cols : list string) : nat :=
  List.length (filter (String.eqb col) cols).

(** How often a row of [results_df] has the label [col].  The added
    columns are made by assignment (lines 179-181), which overwrites a
    column of that name, so that only a label that is selected twice is
    there twice. *)
Definition label_count (col : string) (row : result_row) : nat :=
  count_in col (map fst (selected row)).

(** [row[col]] for a label that the row has once.  A selected column with
    the name of an added column is that column: its cell is the added
    one. *)
Definition row_cell (col : string) (row : result_row) : cell :=
  if String.eqb col "Image_URL_1" then Some (Image_URL_1 row)
  else if String.eqb col "Image_URL_2" then Some (Image_URL_2 row)
  else if String.eqb col "Product_Page_URL" then Some (Product_Page_URL row)
  else row_get col (selected row).

(** The message of the [ValueError] of pandas. *)
Definition ambiguous : string :=
  "The truth value of a Series is ambiguous. Use a.empty, a.bool(), a.item(), a.any() or a.all().".

(** Lines 217 and 218: [str(row[col]) if pd.notna(row[col]) else default].
    For a label that the row has twice, [row[col]] is a Series and the
    test of its [notna] raises. *)
Definition read_str (col default : string) (row : result_row) : py string :=
  if 2 <=? label_count col row then Raise ambiguous
  else Ret (match row_cell col row with
            | Some s => s
            | None => default
            end).

(** Lines 220-307: the body of the loop after the two reads. *)
Definition row_body (df_to_process : list df_row)
    (idx : nat) (description : string) (st : run_state) : run_state :=
  let at_idx := nth idx df_to_process (fun _ => None) in
  let supplier := str_or_empty (at_idx supplier_col') in
  let brand := str_or_empty (at_idx brand_col') in
  let search_query := display_query description supplier brand in
  checkpoint_and_delay idx
    (search_and_record idx description supplier brand search_query st).

(** Lines 210-307: the body of the loop, for the pair [(idx, row)] that
    [iterrows] gives.  The two reads are outside the [try]: what they
    raise leaves the function. *)
Definition process_row (df_to_process : list df_row)
    (idx : nat) (row : result_row) (st : run_state) : py run_state :=
  product_id <- read_str (product_id_col a) ("Row_" ++ Str.of_nat idx) row ;;
  description <- read_str (description_col a) EmptyString row ;;
  Ret (row_body df_to_process idx description st).

Fixpoint iterrows (df_to_process : list df_row)
    (rows : list (nat * result_row)) (st : run_state) : py run_state :=
  match rows with
  | [] => Ret st
  | (idx, row) :: rest =>
      st' <- process_row df_to_process idx row st ;;
      iterrows df_to_process rest st'
  end.

(** Lines 141-313; the result is the state at [return], of which
    [results_df] and [stats_df] are returned. *)
Definition process_dataframe_state (df : list df_row) (num_rows : Z)
    : py run_state :=
  let df_to_process := map to_process (head num_rows df) in
  let st := initial_state df_to_process in
  iterrows df_to_process
    (combine (seq 0 (List.length (results_df st))) (results_df st)) st.

Definition process_dataframe (df : list df_row) (num_rows : Z)
    : py (list result_row * list stats_row) :=
  st <- process_dataframe_state df num_rows ;;
  Ret (results_df st, stats_df st).

(** What the loop computes when no read raises: the turn for one row,
    the turns for the rows, and the state and the frames at the end.
    They say what a call that returns has returned. *)
Definition row_step (df_to_process : list df_row)
    (idx : nat) (row : result_row) (st : run_state) : run_state :=
  row_body df_to_process idx
    (str_or_empty (row_cell (description_col a) row)) st.

Fixpoint steps (df_to_process : list df_row)
    (rows : list (nat * result_row)) (st : run_state) : run_state :=
  match rows with
  | [] => st
  | (idx, row) :: rest =>
      steps df_to_process rest (row_step df_to_process idx row st)
  end.

Definition finished_state (df : list df_row) (num_rows : Z) : run_state :=
  let df_to_process := map to_process (head num_rows df) in
  let st := initial_state df_to_process in
  steps df_to_process
    (combine (seq 0 (List.length (results_df st))) (results_df st)) st.

Definition finished (df : list df_row) (num_rows : Z)
    : list result_row * list stats_row :=
  let st := finished_state df num_rows in
  (results_df st, stats_df st).

(** The labels of the product id and of the description are each
    selected once. *)
Definition labels_once : Prop :=
  count_in (product_id_col a) selected_cols < 2 /\
  count_in (description_col a) selected_cols < 2.

(** The row of [df_to_process] and the row that [iterrows] gives at
    [idx]. *)
Definition df_to_process (df : list df_row) (num_rows : Z) : list df_row :=
  map to_process (head num_rows df).

(** What the body of the loop reads for a row: lines 218-222. *)
Definition description_of (r : df_row) : string :=
  str_or_empty (row_cell (description_col a) (initial_result r)).

Definition supplier_of (r : df_row) : string := str_or_empty (r supplier_col').

Definition brand_of (r : df_row) : string := str_or_empty (r brand_col').

(** The answer of the search for the row [r] at [idx]. *)
Definition outcome_of (idx : nat) (r : df_row) : py (list string * string) :=
  search a idx (description_of r) (supplier_of r) (brand_of r).

End Batch.

(** The call as [process_dataframe] makes it: [search_product_images]
    with [max_results=2] and [retry_count=2], on the browser that
    [get_driver()] gave; [driver idx attempt] is what the browser does at
    that attempt for that row. *)
Definition search_call (driver : option (nat -> nat -> attempt_outcome))
    (whitelist blacklist : option (list string))
    (idx : nat) (description supplier brand : string)
    : py (list string * string) :=
  Ret (search_product_images (option_map (fun d => d idx) driver)
         description supplier brand 2 2 whitelist blacklist).

Definition run_call (driver : option (nat -> nat -> attempt_outcome))
    (now : nat -> string)
    (product_id_col description_col : string)
    (supplier_col brand_col : option string)
    (whitelist blacklist : option (list string)) : call :=
  {| product_id_col := product_id_col; description_col := description_col;
     supplier_col := supplier_col; brand_col := brand_col;
     whitelist := whitelist; blacklist := blacklist;
     search := search_call driver whitelist blacklist; now := now |}.

Definition run (driver : option (nat -> nat -> attempt_outcome))
    (now : nat -> string)
    (product_id_col description_col : string)
    (supplier_col brand_col : option string)
    (whitelist blacklist : option (list string))
    (df : list df_row) (num_rows : Z)
    : py (list result_row * list stats_row) :=
  process_dataframe
    (run_call driver now product_id_col description_col supplier_col
              brand_col whitelist blacklist)
    df num_rows.

(** What a run that returns has returned. *)
Definition finished_run (driver : option (nat -> nat -> attempt_outcome))
    (now : nat -> string)
    (product_id_col description_col : string)
    (supplier_col brand_col : option string)
    (whitelist blacklist : option (list string))
    (df : list df_row) (num_rows : Z) : list result_row * list stats_row :=
  finished
    (run_call driver now product_id_col description_col supplier_col
              brand_col whitelist blacklist)
    df num_rows.

(** What the body of the loop does to the row of [results_df] and to the
    row of [stats_df] at its index, for an answer [out] of the search. *)
Definition record_result (out : py (list string * string)) (r : result_row)
    : result_row :=
  match out with
  | Ret (image_urls, product_url) =>
      let r := set_image_urls 1 image_urls r in
      if truthy_str product_url then set_product_page_url product_url r else r
  | Raise _ => r
  end.

Definition record_stats (a : call) (out : py (list string * string))
    (search_query processed : string) (r : stats_row) : stats_row :=
  match out with
  | Ret (image_urls, product_url) =>
      let r := set_stats search_query (source_domain_of product_url)
                         (List.length image_urls) processed r in
      match image_urls with
      | _ :: _ => set_status "Success" r
      | [] =>
          if truthy_list (whitelist a) || truthy_list (blacklist a)
          then set_status "Filtered - No allowed domains" r
          else set_status "Failed - No images found" r
      end
  | Raise e => set_status ("Error: " ++ Str.take 50 e) r
  end.

(** The words of the specification of the search. *)

(** A candidate is accepted when its page url passes the filter and it
    has an image url of more than 20 characters: [murl], or [turl] when
    [murl] is missing or empty. *)
Definition accepts (whitelist blacklist : option (list string))
    (c : container) (image_url page_url : string) : Prop :=
  exists data,
    c = Decoded data /\
    page_url = get_or_empty (purl data) /\
    is_domain_allowed page_url whitelist blacklist = true /\
    py_or (murl data) (turl data) = Some image_url /\
    20 < String.length image_url.

Definition rejects (whitelist blacklist : option (list string))
    (c : container) : Prop :=
  forall image_url page_url, ~ accepts whitelist blacklist c image_url page_url.

(** An attempt fails when the browser raises in it. *)
Definition fails (o : attempt_outcome) : Prop :=
  match o with
  | GetFails _ | FindFails _ => True
  | Found _ => False
  end.

Definition count_gets (log : list event) : nat :=
  List.length (filter (fun e => match e with EvGet _ => true | _ => false end) log).

Definition backoffs (log : list event) : list nat :=
  flat_map (fun e => match e with EvBackoff n => [n] | _ => [] end) log.

Definition warnings (log : list event) : list (nat * string) :=
  flat_map (fun e => match e with EvWarning n m => [(n, m)] | _ => [] end) log.

End App.

(** ** The summary sheet: [create_excel_output], lines 321-384 *)

Module Report.

(** A cell of the [Value] column.  The two cells that print a float keep
    the integers it is computed from. *)
Inductive value : Type :=
| VCount (n : nat)
| VText (s : string)
| VRate (part total : nat)     (* [f"{part / total * 100:.1f}%"], 0 for no rows *)
| VShare (count total : nat).  (* [f"{count} products ({count/total*100:.1f}%)"] *)

Record summary_data : Type := {
  Metric : list string;
  Value : list value
}.

Definition count_where (p : stats_row -> bool) (stats_df : list stats_row) : nat :=
  List.length (filter p stats_df).

Definition total_processed (stats_df : list stats_row) : nat :=
  List.length stats_df.

Definition total_success : list stats_row -> nat :=
  count_where (fun r => String.eqb (Search_Status r) "Success").

Definition total_failed : list stats_row -> nat :=
  count_where (fun r => Str.contains "Failed" (Search_Status r)).

Definition total_filtered : list stats_row -> nat :=
  count_where (fun r => Str.contains "Filtered" (Search_Status r)).

Definition total_errors : list stats_row -> nat :=
  count_where (fun r => Str.contains "Error" (Search_Status r)).

Definition mem (x : string) (l : list string) : bool :=
  existsb (String.eqb x) l.

(** The values of a column, each once, in order of first appearance. *)
Fixpoint distinct_from (seen l : list string) : list string :=
  match l with
  | [] => []
  | x :: rest =>
      if mem x seen then distinct_from seen rest
      else x :: distinct_from (x :: seen) rest
  end.

Definition distinct (l : list string) : list string := distinct_from [] l.

Definition occurrences (x : string) (l : list string) : nat :=
  List.length (filter (String.eqb x) l).

Fixpoint insert_by_count (e : string * nat) (l : list (string * nat))
    : list (string * nat) :=
  match l with
  | [] => [e]
  | e' :: rest =>
      if snd e' <? snd e then e :: l else e' :: insert_by_count e rest
  end.

(** [series.value_counts()]: most frequent first.  Among equal counts the
    order is that of the sort; here the value that appeared last comes
    first. *)
Definition value_counts (l : list string) : list (string * nat) :=
  fold_right insert_by_count []
    (map (fun x => (x, occurrences x l)) (distinct l)).

(** [series.nunique()] *)
Definition nunique (l : list string) : nat := List.length (distinct l).

(** Line 331. *)
Definition domain_counts (stats_df : list stats_row) : list (string * nat) :=
  value_counts
    (filter (fun d => negb (String.eqb d "")) (map Source_Domain stats_df)).

Definition extend (s : summary_data) (metric : list string) (val : list value)
    : summary_data :=
  {| Metric := Metric s ++ metric; Value := Value s ++ val |}.

(** Lines 359-361: [for i, (domain, count) in enumerate(top, i)]. *)
Fixpoint add_top_domains (i total : nat) (top : list (string * nat))
    (s : summary_data) : summary_data :=
  match top with
  | [] => s
  | (domain, count) :: rest =>
      add_top_domains (S i) total rest
        (extend s [("#" ++ Str.of_nat i ++ " - " ++ domain)%string]
                  [VShare count total])
  end.

Definition high_filter_rate : string := "⚠ High Filter Rate".
Definition high_failure_rate : string := "⚠ High Failure Rate".
Definition low_domain_diversity : string := "⚠ Low Domain Diversity".

(** Lines 322-382.  The two tests against a share of the total,
    [total_filtered > total_processed * 0.3] and
    [total_failed > total_processed * 0.2], are taken over the rationals,
    cleared of denominators; binary64 gives the same answer for every
    frame of fewer than 10^15 rows. *)
Definition summary (stats_df : list stats_row) : summary_data :=
  let processed := total_processed stats_df in
  let success := total_success stats_df in
  let failed := total_failed stats_df in
  let filtered := total_filtered stats_df in
  let errors := total_errors stats_df in
  let top_3_domains := firstn 3 (domain_counts stats_df) in
  let s :=
    {| Metric := ["Total Products Processed"; "Successful Searches";
                  "Failed Searches"; "Filtered (Domain Rules)"; "Errors";
                  "Success Rate (%)"; ""; "TOP 3 SOURCE DOMAINS"];
       Value := [VCount processed; VCount success; VCount failed;
                 VCount filtered; VCount errors; VRate success processed;
                 VText ""; VText ""] |} in
  let s := add_top_domains 1 processed top_3_domains s in
  let s := extend s [""; "NOTABLE FINDINGS"] [VText ""; VText ""] in
  let s :=
    if 3 * processed <? 10 * filtered
    then extend s [high_filter_rate]
           [VText (Str.of_nat filtered
                   ++ " products filtered - consider relaxing domain rules")]
    else s in
  let s :=
    if 2 * processed <? 10 * failed
    then extend s [high_failure_rate]
           [VText (Str.of_nat failed
                   ++ " products failed - check search query quality")]
    else s in
  let unique_domains := nunique (map Source_Domain stats_df) in
  let s := extend s ["Source Diversity"]
             [VText (Str.of_nat unique_domains ++ " unique domains found")] in
  if (unique_domains <? 5) && (10 <? success)
  then extend s [low_domain_diversity]
         [VText "Results concentrated in few sources - may indicate bias"]
  else s.

(** The rows of the Summary sheet. *)
Definition summary_lines (stats_df : list stats_row) : list (string * value) :=
  let s := summary stats_df in combine (Metric s) (Value s).

End Report.

(** ** A model of [urlparse] for the examples

    [urlparse(url).netloc] on an ASCII URL without control characters:
    the scheme is dropped, and what follows [//] up to the first [/], [?]
    or [#] is the host part.  A single bracket in it raises; an address
    in brackets is not validated. *)

Module Url.

Definition is_alpha (c : ascii) : bool :=
  let n := nat_of_ascii c in
  ((65 <=? n) && (n <=? 90)) || ((97 <=? n) && (n <=? 122)).

Definition is_scheme_char (c : ascii) : bool :=
  let n := nat_of_ascii c in
  is_alpha c || ((48 <=? n) && (n <=? 57))
  || (n =? 43) || (n =? 45) || (n =? 46).

(** [url[i+1:]] when [url[:i]] is a scheme, for the first [':'] at [i]. *)
Fixpoint after_scheme (s : string) : option string :=
  match s with
  | EmptyString => None
  | String c s' =>
      if Ascii.eqb c ":" then Some s'
      else if is_scheme_char c then after_scheme s' else None
  end.

Definition drop_scheme (url : string) : string :=
  match url with
  | String c _ =>
      if is_alpha c then
        match after_scheme url with
        | Some rest => rest
        | None => url
        end
      else url
  | EmptyString => url
  end.

Fixpoint until_delim (s : string) : string :=
  match s with
  | EmptyString => EmptyString
  | String c s' =>
      if Ascii.eqb c "/" || Ascii.eqb c "?" || Ascii.eqb c "#"
      then EmptyString else String c (until_delim s')
  end.

Definition netloc (url : string) : py string :=
  match drop_scheme url with
  | String "/" (String "/" rest) =>
      let host := until_delim rest in
      if xorb (Str.contains "[" host) (Str.contains "]" host)
      then Raise "Invalid IPv6 URL"
      else Ret host
  | _ => Ret EmptyString
  end.

End Url.

(** ** Excel links: [create_hyperlink_formula], lines 134-139 *)

(** The double quote. *)
Definition dquote : string := String (ascii_of_nat 34) EmptyString.

Definition create_hyperlink_formula (url display_text : string) : string :=
  if negb (truthy_str url) || String.eqb url EmptyString then EmptyString
  else ("=HYPERLINK(" ++ dquote ++ url ++ dquote ++ "," ++ dquote
        ++ display_text ++ dquote ++ ")")%string.

(** ** The filter lists of the form, lines 471-492 *)

(** [s.split(sep)] for a separator of one character. *)
Fixpoint split_on (sep : ascii) (s : string) : list string :=
  match s with
  | EmptyString => [EmptyString]
  | String c s' =>
      if Ascii.eqb c sep then EmptyString :: split_on sep s'
      else
        match split_on sep s' with
        | piece :: rest => String c piece :: rest
        | [] => [String c EmptyString]
        end
  end.

Definition newline : ascii := ascii_of_nat 10.

(** Lines 478 and 490:
    [[d.strip() for d in text.split('\n') if d.strip()]]. *)
Definition parse_domains (text : string) : list string :=
  map Str.strip
      (filter (fun d => truthy_str (Str.strip d)) (split_on newline text)).

(** Lines 471-492: the list, when its box is ticked. *)
Definition form_list (enabled : bool) (text : string) : option (list string) :=
  if enabled then Some (parse_domains text) else None.

(** Lines 532-533: the column of a select box with the entry [(None)]. *)
Definition form_column (choice : string) : option string :=
  if negb (String.eqb choice "(None)") then Some choice else None.

(** The words used about lists and strings below. *)

(** No character of [s] is [c]. *)
Fixpoint free_of (c : ascii) (s : string) : Prop :=
  match s with
  | EmptyString => True
  | String c' s' => c' <> c /\ free_of c s'
  end.

(** An entry as the form makes them: not empty, nothing to strip, on one
    line. *)
Definition clean_entry (e : string) : Prop :=
  e <> EmptyString /\ Str.strip e = e /\ free_of newline e.

(** A result page that holds no accepted candidate among those the loop
    looks at. *)
Definition barren (urlparse_netloc : string -> py string)
    (whitelist blacklist : option (list string)) (max_results : nat)
    (o : attempt_outcome) : Prop :=
  exists cs, o = Found cs /\
    Forall (rejects urlparse_netloc whitelist blacklist)
           (firstn (max_results * 3) cs).

(** Two browsers that show the same first [n] results at every attempt
    and fail alike. *)
Definition same_top (n : nat) (o1 o2 : attempt_outcome) : Prop :=
  match o1, o2 with
  | GetFails e1, GetFails e2 => e1 = e2
  | FindFails e1, FindFails e2 => e1 = e2
  | Found cs1, Found cs2 => firstn n cs1 = firstn n cs2
  | _, _ => False
  end.

(** How the answer of the search counts in the three counters. *)
Definition counts_success (out : py (list string * string)) : bool :=
  match out with
  | Ret (_ :: _, _) => true
  | _ => false
  end.

Definition counts_filtered (a : call) (out : py (list string * string)) : bool :=
  match out with
  | Ret ([], _) => truthy_list (whitelist a) || truthy_list (blacklist a)
  | _ => false
  end.

Definition counts_failed (a : call) (out : py (list string * string)) : bool :=
  match out with
  | Ret ([], _) => negb (truthy_list (whitelist a) || truthy_list (blacklist a))
  | Ret (_ :: _, _) => false
  | Raise _ => true
  end.

Definition count_checkpoints (t : list row_event) : nat :=
  List.length (filter (fun e => match e with Checkpoint _ => true | _ => false end) t).

Definition delays (t : list row_event) : list bool :=
  flat_map (fun e => match e with Delay w => [w] | _ => [] end) t.

(** The rows that lines 359-361 add for the domains [top], numbered from
    [i]. *)
Fixpoint top_lines (i total : nat) (top : list (string * nat))
    : list (string * Report.value) :=
  match top with
  | [] => []
  | (domain, count) :: rest =>
      (("#" ++ Str.of_nat i ++ " - " ++ domain)%string,
       Report.VShare count total) :: top_lines (S i) total rest
  end.

(** Counts in falling order. *)
Definition falling (e1 e2 : string * nat) : Prop := snd e2 <= snd e1.

(** ** Example inputs *)

Module Examples.

(** A row of a frame with the columns [id], [desc] and [brand]. *)
Definition row (id desc brand : string) : df_row :=
  fun c =>
    if String.eqb c "id" then Some id
    else if String.eqb c "desc" then Some desc
    else if String.eqb c "brand" then Some brand
    else None.

Definition frame : list df_row :=
  [row "P1" "widget" "Acme"; row "P2" "gadget" ""].

Definition clock (idx : nat) : string := "2024-01-01 00:00:00".

Definition args (wl bl : option (list string))
    (search : nat -> string -> string -> string -> py (list string * string))
    : call :=
  {| product_id_col := "id"; description_col := "desc";
     supplier_col := None; brand_col := Some "brand"%string;
     whitelist := wl; blacklist := bl; search := search; now := clock |}.

(** The call that the form starts with: the first column chosen as the
    product id and as the description. *)
Definition same_label
    (search : nat -> string -> string -> string -> py (list string * string))
    : call :=
  {| product_id_col := "id"; description_col := "id";
     supplier_col := None; brand_col := None;
     whitelist := None; blacklist := None; search := search; now := clock |}.

(** A search that raises, and one that finds nothing. *)
Definition raising (idx : nat) (description supplier brand : string)
    : py (list string * string) := Raise "boom".

Definition finding_nothing (idx : nat) (description supplier brand : string)
    : py (list string * string) := Ret ([], EmptyString).

(** A result page: a pin, a result with a short image url, and two
    results of shops. *)
Definition page : list container :=
  [ Decoded {| purl := Some "https://www.pinterest.com/pin/1"%string;
               murl := Some "https://i.pinimg.com/originals/a.jpg"%string;
               turl := None |};
    Undecodable "Expecting value";
    Decoded {| purl := Some "https://shop.example.com/item/1"%string;
               murl := Some "http://x.io/a.png"%string;
               turl := Some "https://shop.example.com/thumbs/1.jpg"%string |};
    Decoded {| purl := Some "https://shop.example.com/item/2"%string;
               murl := None;
               turl := Some "https://shop.example.com/thumbs/2.jpg"%string |};
    Decoded {| purl := Some "https://store.example.org/p/3"%string;
               murl := Some "https://cdn.example.org/images/3.jpg"%string;
               turl := None |} ].

(** A browser that fails at the first attempt of each row and shows
    [page] at the second. *)
Definition browser (idx attempt : nat) : attempt_outcome :=
  match attempt with
  | 0 => GetFails "timeout"
  | _ => Found page
  end.

(** Statistics of three rows: a success, a filtered row and an error. *)
Definition stats : list stats_row :=
  [ {| Product_ID := Some "P1"%string; Search_Query := "Acme widget";
       Source_Domain := "shop.example.com"; Images_Found := 2;
       Search_Status := "Success";
       Processed_DateTime := "2024-01-01 00:00:00" |};
    {| Product_ID := Some "P2"%string; Search_Query := "gadget";
       Source_Domain := ""; Images_Found := 0;
       Search_Status := "Filtered - No allowed domains";
       Processed_DateTime := "2024-01-01 00:00:04" |};
    {| Product_ID := Some "P3"%string; Search_Query := "";
       Source_Domain := ""; Images_Found := 0;
       Search_Status := "Error: boom";
       Processed_DateTime := "" |} ].

End Examples.

(** * Properties *)

(** ** Strings *)

Lemma starts_with_spec (p s : string) :
  Str.starts_with p s = true <-> exists post : string, s = (p ++ post)%string.
Proof.
  revert s. induction p as [|a p IH]; intros s; simpl.
  - split; [intros _; now exists s | reflexivity].
  - destruct s as [|b s].
    + split; [discriminate | intros [post H]; discriminate].
    + rewrite andb_true_iff, Ascii.eqb_eq, IH. split.
      * intros [-> [post ->]]. now exists post.
      * intros [post H]. injection H as -> ->. split; [reflexivity | now exists post].
Qed.

Lemma contains_spec (needle hay : string) :
  Str.contains needle hay = true <-> Str.substring_of needle hay.
Proof.
  unfold Str.substring_of. induction hay as [|c hay IH].
  - simpl. rewrite orb_false_r, starts_with_spec. split.
    + intros [post H]. exists EmptyString, post. exact H.
    + intros [pre [post H]]. destruct pre; [now exists post | discriminate].
  - cbn [Str.contains]. rewrite orb_true_iff, starts_with_spec, IH. split.
    + intros [[post H] | [pre [post H]]].
      * exists EmptyString, post. exact H.
      * exists (String c pre), post. simpl. now rewrite H.
    + intros [pre [post H]]. destruct pre as [|a pre].
      * left. now exists post.
      * right. simpl in H. injection H as _ H. now exists pre, post.
Qed.

Lemma contains_false_spec (needle hay : string) :
  Str.contains needle hay = false <-> ~ Str.substring_of needle hay.
Proof.
  rewrite <- contains_spec.
  destruct (Str.contains needle hay); intuition congruence.
Qed.

Example strip_example : Str.strip "  Acme  Tools  " = "Acme  Tools"%string.
Proof. reflexivity. Qed.

Example lower_example : Str.lower "WWW.Example.COM" = "www.example.com"%string.
Proof. reflexivity. Qed.

Example netloc_example :
  Url.netloc "https://Shop.Example.com:8080/item/1?x=2#top" =
    Ret "Shop.Example.com:8080"%string /\
  Url.netloc "no scheme here" = Ret EmptyString /\
  Url.netloc "http://[::1" = Raise "Invalid IPv6 URL".
Proof. repeat split; reflexivity. Qed.

(** ** The domain filter *)

Lemma blocked_by_spec (domain : string) (l : list string) :
  blocked_by domain l = true <->
  exists b, In b l /\ Str.contains (Str.lower b) domain = true.
Proof.
  induction l as [|b l IH]; simpl.
  - split; [discriminate | intros [b [[] _]]].
  - destruct (Str.contains (Str.lower b) domain) eqn:E.
    + split; [intros _; exists b; auto | reflexivity].
    + rewrite IH. split.
      * intros [b' [Hin Hc]]. exists b'. auto.
      * intros [b' [[<- | Hin] Hc]]; [congruence | exists b'; auto].
Qed.

Lemma blocked_by_matches (host : string) (bl : option (list string)) :
  blocked_by (Str.lower host) (entries bl) = true <-> matches_some bl host.
Proof.
  rewrite blocked_by_spec. unfold matches_some, ci_substring.
  split; intros [b [Hin H]]; exists b; split; auto; now apply contains_spec.
Qed.

Lemma allowed_by_matches (host : string) (wl : option (list string)) :
  existsb (fun allowed => Str.contains (Str.lower allowed) (Str.lower host))
          (entries wl) = true <-> matches_some wl host.
Proof.
  rewrite existsb_exists. unfold matches_some, ci_substring.
  split; intros [b [Hin H]]; exists b; split; auto; now apply contains_spec.
Qed.

Lemma truthy_list_present (l : option (list string)) :
  truthy_list l = true <-> present l.
Proof.
  unfold present. destruct l as [[|x xs]|]; simpl; split; try discriminate.
  - intros [x [xs H]]; discriminate.
  - intros _. now exists x, xs.
  - reflexivity.
  - intros [x [xs H]]; discriminate.
Qed.

Lemma truthy_str_nonempty (s : string) : truthy_str s = true <-> s <> EmptyString.
Proof. destruct s; simpl; split; congruence. Qed.

(** What the filter answers once the host is known. *)
Lemma is_domain_allowed_host (netloc : string -> py string)
    (url host : string) (wl bl : option (list string)) :
  url <> EmptyString -> netloc url = Ret host ->
  is_domain_allowed netloc url wl bl =
    if truthy_list bl && blocked_by (Str.lower host) (entries bl) then false
    else if truthy_list wl then
      existsb (fun allowed => Str.contains (Str.lower allowed) (Str.lower host))
              (entries wl)
    else true.
Proof.
  intros Hne Hn. unfold is_domain_allowed, is_domain_allowed_body.
  apply truthy_str_nonempty in Hne. rewrite Hne, Hn. simpl.
  destruct (truthy_list bl && blocked_by (Str.lower host) (entries bl)); [reflexivity|].
  destruct (truthy_list wl); reflexivity.
Qed.

(** C2.  [is_domain_allowed] follows the decision procedure of the
    specification, for every [urlparse]: the empty url is rejected, and so
    is a url that [urlparse] refuses (the function returns; it never
    raises); for a url with host [host], a present blacklist with an entry
    that [host] contains case-insensitively rejects whatever the whitelist
    is; otherwise a present whitelist accepts exactly the hosts that
    contain one of its entries; otherwise the url is accepted.  A list is
    present when it is given and has at least one entry. *)
Theorem is_domain_allowed_decision (netloc : string -> py string)
    (url : string) (wl bl : option (list string)) :
  (url = EmptyString -> is_domain_allowed netloc url wl bl = false) /\
  (forall e, netloc url = Raise e -> is_domain_allowed netloc url wl bl = false) /\
  (forall host, url <> EmptyString -> netloc url = Ret host ->
     (present bl /\ matches_some bl host ->
        is_domain_allowed netloc url wl bl = false) /\
     (~ (present bl /\ matches_some bl host) -> present wl ->
        (is_domain_allowed netloc url wl bl = true <-> matches_some wl host)) /\
     (~ (present bl /\ matches_some bl host) -> ~ present wl ->
        is_domain_allowed netloc url wl bl = true)).
Proof.
  split; [|split].
  - intros ->. reflexivity.
  - intros e He. unfold is_domain_allowed, is_domain_allowed_body.
    rewrite He. simpl. now destruct (negb (truthy_str url)).
  - intros host Hne Hn. rewrite (is_domain_allowed_host netloc url host wl bl Hne Hn).
    assert (Hb : truthy_list bl && blocked_by (Str.lower host) (entries bl) = true
                 <-> present bl /\ matches_some bl host).
    { rewrite andb_true_iff, truthy_list_present, blocked_by_matches. tauto. }
    destruct (truthy_list bl && blocked_by (Str.lower host) (entries bl)) eqn:E.
    + split; [reflexivity|]. split; intros Hnot; elim Hnot; now apply Hb.
    + split; [|split].
      * intros H. apply Hb in H. discriminate.
      * intros _ Hp. apply truthy_list_present in Hp. rewrite Hp.
        apply allowed_by_matches.
      * intros _ Hp. destruct (truthy_list wl) eqn:Ew; [|reflexivity].
        elim Hp. now apply truthy_list_present.
Qed.

Lemma is_domain_allowed_decision_witness :
  is_domain_allowed Url.netloc "https://shop.example.com/item/1"
    (Some ["Example.com"%string]) (Some ["pinterest"%string]) = true.
Proof.
  destruct (is_domain_allowed_decision Url.netloc
              "https://shop.example.com/item/1"
              (Some ["Example.com"%string]) (Some ["pinterest"%string]))
    as [_ [_ H]].
  destruct (H "shop.example.com"%string) as [_ [H2 _]];
    [discriminate | reflexivity |].
  apply H2.
  - intros [_ [e [[<- | []] Hs]]]. revert Hs. unfold ci_substring.
    apply contains_false_spec. reflexivity.
  - exists "Example.com"%string, []. reflexivity.
  - exists "Example.com"%string. split; [left; reflexivity|].
    unfold ci_substring. apply contains_spec. reflexivity.
Defined.

(** C9.  An empty whitelist restricts nothing: a url that is not empty,
    that [urlparse] accepts and whose host contains no blacklist entry is
    accepted under the whitelist [[]], which answers as the absent
    whitelist does. *)
Theorem empty_whitelist_accepts (netloc : string -> py string)
    (url host : string) (bl : option (list string)) :
  url <> EmptyString -> netloc url = Ret host -> ~ matches_some bl host ->
  is_domain_allowed netloc url (Some []) bl = true /\
  is_domain_allowed netloc url (Some []) bl = is_domain_allowed netloc url None bl.
Proof.
  intros Hne Hn Hb.
  rewrite !(is_domain_allowed_host netloc url host _ bl Hne Hn).
  assert (E : blocked_by (Str.lower host) (entries bl) = false).
  { destruct (blocked_by (Str.lower host) (entries bl)) eqn:E; [|reflexivity].
    elim Hb. now apply blocked_by_matches. }
  rewrite E, andb_false_r. simpl. split; reflexivity.
Qed.

Lemma empty_whitelist_accepts_witness :
  is_domain_allowed Url.netloc "https://www.example.org/p?id=7" (Some [])
    (Some ["pinterest"%string; "facebook"%string]) = true.
Proof.
  apply (empty_whitelist_accepts Url.netloc "https://www.example.org/p?id=7"
           "www.example.org"
           (Some ["pinterest"%string; "facebook"%string])).
  - discriminate.
  - reflexivity.
  - intros [e [[<- | [<- | []]] Hs]]; revert Hs; unfold ci_substring;
      apply contains_false_spec; reflexivity.
Defined.

(** ** The search string *)

Lemma strip_truthy (s : string) :
  truthy_str s && truthy_str (Str.strip s) = truthy_str (Str.strip s).
Proof. destruct s; reflexivity. Qed.

Lemma append_nonempty_r (a b : string) :
  b <> EmptyString -> (a ++ b)%string <> EmptyString.
Proof. destruct a; simpl; [auto | discriminate]. Qed.

Lemma join_snoc_nonempty (sep : string) (l : list string) (x : string) :
  x <> EmptyString -> Str.join sep (l ++ [x]) <> EmptyString.
Proof.
  intros Hx. induction l as [|p l IH]; simpl; [exact Hx|].
  destruct (l ++ [x]) eqn:E.
  - destruct l; discriminate.
  - apply append_nonempty_r, append_nonempty_r. exact IH.
Qed.

(** C6.  The query that [search_product_images] composes is the fields
    brand, supplier, description, in this order, each stripped and kept
    when what is left is not empty, then the token [product], joined by
    single spaces; the two examples of the specification hold, and the
    query is never the empty string. *)
Theorem build_search_string_composes (description supplier brand : string) :
  build_search_string description supplier brand =
    Str.join " "
      (filter truthy_str (map Str.strip [brand; supplier; description])
       ++ ["product"%string]) /\
  build_search_string "widget" "" "Acme" = "Acme widget product"%string /\
  build_search_string "" "" "" = "product"%string /\
  build_search_string description supplier brand <> EmptyString.
Proof.
  assert (E : build_search_string description supplier brand =
    Str.join " "
      (filter truthy_str (map Str.strip [brand; supplier; description])
       ++ ["product"%string])).
  { unfold build_search_string. rewrite !strip_truthy. simpl.
    destruct (truthy_str (Str.strip brand));
      destruct (truthy_str (Str.strip supplier));
      destruct (truthy_str (Str.strip description)); reflexivity. }
  split; [exact E|]. split; [reflexivity|]. split; [reflexivity|].
  rewrite E. apply join_snoc_nonempty. discriminate.
Qed.

(** ** The search *)

Section SearchProps.

Variable netloc : string -> py string.
Variables wl bl : option (list string).

Lemma is_domain_allowed_truthy (url : string) :
  is_domain_allowed netloc url wl bl = true -> truthy_str url = true.
Proof. unfold is_domain_allowed. destruct (truthy_str url); [reflexivity | discriminate]. Qed.

(** One container either is accepted and adds its image url, or is
    rejected and leaves the state as it was. *)
Lemma scan_one_cases (c : container) (urls : list string) (src : string) :
  (exists u p, accepts netloc wl bl c u p /\
     scan_one netloc wl bl c (urls, src) =
       (urls ++ [u], if truthy_str src then src else p)) \/
  (rejects netloc wl bl c /\ scan_one netloc wl bl c (urls, src) = (urls, src)).
Proof.
  destruct c as [|e|data]; simpl.
  - right. split; [|reflexivity]. intros u p [d [E _]]. discriminate.
  - right. split; [|reflexivity]. intros u p [d [E _]]. discriminate.
  - destruct (is_domain_allowed netloc (get_or_empty (purl data)) wl bl) eqn:Ea; simpl.
    + destruct (py_or (murl data) (turl data)) as [image_url|] eqn:Ei.
      * destruct (20 <? String.length image_url) eqn:El.
        -- apply Nat.ltb_lt in El.
           assert (Ht : truthy_str image_url = true)
             by (destruct image_url; [simpl in El; lia | reflexivity]).
           rewrite Ht. simpl. left.
           exists image_url, (get_or_empty (purl data)). split.
           ++ exists data. repeat split; auto.
           ++ rewrite (is_domain_allowed_truthy _ Ea).
              destruct (truthy_str src); reflexivity.
        -- rewrite andb_false_r. right. split; [|reflexivity].
           intros u p [d [E [_ [_ [Hi Hl]]]]]. injection E as <-.
           rewrite Ei in Hi. injection Hi as <-.
           apply Nat.ltb_ge in El. lia.
      * right. split; [|reflexivity].
        intros u p [d [E [_ [_ [Hi _]]]]]. injection E as <-. congruence.
    + right. split; [|reflexivity].
      intros u p [d [E [Hp [Hd _]]]]. injection E as <-. subst p. congruence.
Qed.

(** What the loop over the containers adds to the state: the accepted
    candidates, in order, until [max_results] urls are held. *)
Lemma scan_spec (max_results : nat) (cs : list container) :
  forall (urls : list string) (src : string),
  exists added : list (string * string),
    scan netloc max_results wl bl cs (urls, src) =
      (urls ++ map fst added,
       if truthy_str src then src else hd EmptyString (map snd added)) /\
    (forall u p, In (u, p) added ->
       truthy_str p = true /\ exists c, In c cs /\ accepts netloc wl bl c u p) /\
    (List.length urls <= max_results ->
       List.length (urls ++ map fst added) <= max_results) /\
    match added with
    | [] => True
    | (u, p) :: _ =>
        exists pre c post, cs = pre ++ c :: post /\
          Forall (rejects netloc wl bl) pre /\ accepts netloc wl bl c u p
    end.
Proof.
  induction cs as [|c rest IH]; intros urls src.
  - exists []. simpl. rewrite app_nil_r.
    split; [destruct src; reflexivity|].
    split; [intros ? ? []|]. split; [auto | exact I].
  - cbn [scan fst]. destruct (max_results <=? List.length urls) eqn:Em.
    + exists []. simpl. rewrite app_nil_r.
      split; [destruct src; reflexivity|].
      split; [intros ? ? []|]. split; [auto | exact I].
    + apply Nat.leb_gt in Em.
      destruct (scan_one_cases c urls src) as [[u [p [Hacc ->]]] | [Hrej ->]].
      * destruct (IH (urls ++ [u]) (if truthy_str src then src else p))
          as [added [E [Hin [Hlen Hfirst]]]].
        assert (Hp : truthy_str p = true).
        { destruct Hacc as [d [_ [-> [Hd _]]]]. exact (is_domain_allowed_truthy _ Hd). }
        exists ((u, p) :: added). rewrite E. simpl. rewrite <- app_assoc. simpl.
        split; [|split; [|split]].
        -- f_equal. destruct (truthy_str src) eqn:Es; [now rewrite Es | now rewrite Hp].
        -- intros u' p' [H | H].
           ++ injection H as <- <-. split; [exact Hp|]. exists c. split; [now left | exact Hacc].
           ++ destruct (Hin u' p' H) as [Ht [c' [Hc' Ha']]].
              split; [exact Ht|]. exists c'. split; [now right | exact Ha'].
        -- intros Hl. rewrite <- app_assoc in Hlen. simpl in Hlen. apply Hlen.
           rewrite length_app. simpl. lia.
        -- exists [], c, rest. repeat split; auto.
      * destruct (IH urls src) as [added [E [Hin [Hlen Hfirst]]]].
        exists added. rewrite E. split; [reflexivity|]. split; [|split].
        -- intros u p H. destruct (Hin u p H) as [Ht [c' [Hc' Ha']]].
           split; [exact Ht|]. exists c'. split; [now right | exact Ha'].
        -- exact Hlen.
        -- destruct added as [|[u p] added']; [exact I|].
           destruct Hfirst as [pre [c' [post [-> [Hpre Ha']]]]].
           exists (c :: pre), c', post. repeat split; auto.
Qed.

(** A scan from the empty state that holds no url holds no page url
    either. *)
Lemma scan_empty (max_results : nat) (cs : list container) :
  fst (scan netloc max_results wl bl cs ([], EmptyString)) = [] ->
  scan netloc max_results wl bl cs ([], EmptyString) = ([], EmptyString).
Proof.
  destruct (scan_spec max_results cs [] EmptyString) as [added [E _]].
  rewrite E. simpl. destruct added; [reflexivity | discriminate].
Qed.

Variable driver : nat -> attempt_outcome.
Variable search_string : string.
Variables max_results retry_count : nat.

Local Abbreviation attempts_from todo log :=
  (attempts netloc driver search_string max_results retry_count wl bl
            todo ([], EmptyString) log).

(** The state after the attempts: empty, or the scan of the first
    attempt that found an accepted candidate. *)
Lemma attempts_spec (todo : list nat) :
  forall log : list event,
  fst (attempts_from todo log) = ([], EmptyString) \/
  exists attempt cs,
    In attempt todo /\ driver attempt = Found cs /\
    fst (attempts_from todo log) =
      scan netloc max_results wl bl (firstn (max_results * 3) cs)
           ([], EmptyString) /\
    fst (fst (attempts_from todo log)) <> [].
Proof.
  induction todo as [|attempt rest IH]; intros log; [now left|].
  assert (Hrest : forall log',
    fst (attempts_from rest log') = ([], EmptyString) \/
    exists attempt0 cs,
      In attempt0 (attempt :: rest) /\ driver attempt0 = Found cs /\
      fst (attempts_from rest log') =
        scan netloc max_results wl bl (firstn (max_results * 3) cs)
             ([], EmptyString) /\
      fst (fst (attempts_from rest log')) <> []).
  { intros log'. destruct (IH log') as [H | [a0 [cs [Hin H]]]]; [now left|].
    right. exists a0, cs. split; [now right | exact H]. }
  cbn [attempts]. destruct (driver attempt) as [e|e|cs] eqn:Ed.
  - destruct (attempt <? retry_count - 1); apply Hrest.
  - destruct (attempt <? retry_count - 1); apply Hrest.
  - destruct (fst (scan netloc max_results wl bl (firstn (max_results * 3) cs)
                        ([], EmptyString))) as [|u us] eqn:Es.
    + rewrite (scan_empty _ _ Es). apply Hrest.
    + right. exists attempt, cs. split; [now left|]. split; [exact Ed|].
      split; [reflexivity|]. simpl. rewrite Es. discriminate.
Qed.

Lemma count_gets_app (l1 l2 : list event) :
  count_gets (l1 ++ l2) = count_gets l1 + count_gets l2.
Proof. unfold count_gets. now rewrite filter_app, length_app. Qed.

Lemma backoffs_app (l1 l2 : list event) :
  backoffs (l1 ++ l2) = backoffs l1 ++ backoffs l2.
Proof. apply flat_map_app. Qed.

Lemma warnings_app (l1 l2 : list event) :
  warnings (l1 ++ l2) = warnings l1 ++ warnings l2.
Proof. apply flat_map_app. Qed.

(** What the attempts add to the log: at most one [driver.get] for each,
    and no wait between attempts but the one of three seconds. *)
Lemma attempts_log (todo : list nat) :
  forall (st : found) (log : list event),
  exists new,
    snd (attempts netloc driver search_string max_results retry_count wl bl
                  todo st log) = log ++ new /\
    count_gets new <= List.length todo /\
    (forall n, In n (backoffs new) -> n = 3).
Proof.
  induction todo as [|attempt rest IH]; intros st log.
  - exists []. simpl. rewrite app_nil_r. repeat split; auto. intros n [].
  - assert (Hstep : forall st' (ev : list event),
      count_gets ev <= 1 -> (forall n, In n (backoffs ev) -> n = 3) ->
      exists new,
        snd (attempts netloc driver search_string max_results retry_count
                      wl bl rest st' (log ++ ev)) = log ++ new /\
        count_gets new <= List.length (attempt :: rest) /\
        (forall n, In n (backoffs new) -> n = 3)).
    { intros st' ev Hc Hb. destruct (IH st' (log ++ ev)) as [new [E [Hn Hb']]].
      exists (ev ++ new). rewrite E, app_assoc. split; [reflexivity|].
      rewrite count_gets_app, backoffs_app. simpl. split; [lia|].
      intros n Hin. apply in_app_or in Hin. destruct Hin; auto. }
    cbn [attempts]. destruct (driver attempt) as [e|e|cs].
    + destruct (attempt <? retry_count - 1); rewrite <- app_assoc;
        apply Hstep; simpl; auto; intros n Hn; simpl in Hn; intuition lia.
    + destruct (attempt <? retry_count - 1); rewrite <- app_assoc;
        apply Hstep; simpl; auto; intros n Hn; simpl in Hn; intuition lia.
    + destruct (fst (scan netloc max_results wl bl
                          (firstn (max_results * 3) cs) st)) eqn:Es.
      * apply Hstep; simpl; auto; intros n Hn; simpl in Hn; contradiction.
      * exists [EvGet search_string; EvPause]. simpl.
        split; [reflexivity|]. split; [unfold count_gets; simpl; lia|].
        intros n Hn; simpl in Hn; contradiction.
Qed.

(** When every attempt fails, the state is left as it was; the log holds
    one [driver.get] for each attempt, a wait of three seconds after each
    but the last, and one warning. *)
Lemma attempts_all_fail (n : nat) :
  forall (k : nat) (st : found) (log : list event),
  k + n = retry_count ->
  (forall attempt, k <= attempt < k + n -> fails (driver attempt)) ->
  exists new,
    attempts netloc driver search_string max_results retry_count wl bl
             (seq k n) st log = (st, log ++ new) /\
    count_gets new = n /\
    backoffs new = repeat 3 (n - 1) /\
    List.length (warnings new) = Nat.min n 1.
Proof.
  induction n as [|n IH]; intros k st log Hk Hfail.
  - exists []. simpl. now rewrite app_nil_r.
  - assert (Hnext : forall ev : list event,
      exists new,
        attempts netloc driver search_string max_results retry_count wl bl
                 (seq (S k) n) st (log ++ ev) = (st, log ++ ev ++ new) /\
        count_gets new = n /\ backoffs new = repeat 3 (n - 1) /\
        List.length (warnings new) = Nat.min n 1).
    { intros ev. destruct (IH (S k) st (log ++ ev)) as [new [E H]];
        [lia | intros attempt Ha; apply Hfail; lia |].
      exists new. rewrite E, app_assoc. auto. }
    assert (Hlast : (k <? retry_count - 1) = negb (n =? 0)).
    { destruct n; simpl.
      - apply Nat.ltb_ge. lia.
      - apply Nat.ltb_lt. lia. }
    pose proof (Hfail k ltac:(lia)) as Hf.
    cbn [seq attempts]. rewrite Hlast.
    destruct (driver k) as [e|e|cs]; [| |contradiction];
      destruct n as [|n']; simpl negb; cbv iota; rewrite <- app_assoc;
      match goal with
      | |- context [attempts _ _ _ _ _ _ _ _ _ (log ++ ?ev)] =>
          destruct (Hnext ev) as [new [E [Hc [Hb Hw]]]];
          exists (ev ++ new); rewrite E; split; [reflexivity|];
          rewrite count_gets_app, backoffs_app, warnings_app, length_app,
            Hc, Hb, Hw; simpl; rewrite ?Nat.sub_0_r, ?Nat.min_0_r; auto
      end.
Qed.

End SearchProps.

(** What [search_product_images] returns: nothing, or the accepted
    candidates of one attempt, in their order, with the page url of the
    first. *)
Lemma search_product_images_spec (netloc : string -> py string)
    (driver : option (nat -> attempt_outcome))
    (description supplier brand : string) (max_results retry_count : nat)
    (wl bl : option (list string)) :
  search_product_images netloc driver description supplier brand
    max_results retry_count wl bl = ([], EmptyString) \/
  exists d attempt cs u p added,
    driver = Some d /\ attempt < retry_count /\ d attempt = Found cs /\
    search_product_images netloc driver description supplier brand
      max_results retry_count wl bl = (u :: map fst added, p) /\
    S (List.length added) <= max_results /\
    (forall u' p', In (u', p') ((u, p) :: added) ->
       exists c, In c (firstn (max_results * 3) cs) /\
                 accepts netloc wl bl c u' p') /\
    exists pre c post,
      firstn (max_results * 3) cs = pre ++ c :: post /\
      Forall (rejects netloc wl bl) pre /\ accepts netloc wl bl c u p.
Proof.
  unfold search_product_images, search_product_images_log.
  destruct driver as [d|]; [|now left].
  destruct (attempts_spec netloc wl bl d
              (build_search_string description supplier brand)
              max_results retry_count (seq 0 retry_count) [])
    as [E | [attempt [cs [Hin [Hd [E Hne]]]]]].
  - destruct (attempts _ _ _ _ _ _ _ _ _ _) as [[urls src] log].
    simpl in E. injection E as -> ->. left. now destruct max_results.
  - right. destruct (attempts _ _ _ _ _ _ _ _ _ _) as [[urls src] log].
    simpl in E, Hne. simpl fst.
    destruct (scan_spec netloc wl bl max_results
                (firstn (max_results * 3) cs) [] EmptyString)
      as [added [Es [Hacc [Hlen Hfirst]]]].
    rewrite Es in E. simpl in E. injection E as -> ->.
    destruct added as [|[u p] added]; [now elim Hne|].
    simpl in Hlen. specialize (Hlen (Nat.le_0_l _)).
    exists d, attempt, cs, u, p, added.
    split; [reflexivity|]. split; [apply in_seq in Hin; lia|].
    split; [exact Hd|]. split.
    { simpl. rewrite firstn_all2; [reflexivity|]. simpl. exact Hlen. }
    split; [now rewrite length_map in Hlen|].
    split; [intros u' p' H; apply (Hacc u' p' H) | exact Hfirst].
Qed.

(** C4.  [search_product_images] returns to its caller whatever the
    browser does: every point where the browser may raise is inside the
    [try] of the attempt.  It opens the search page at most [retry_count]
    times, and the only wait between attempts is the one of three
    seconds.  When every attempt fails it opens the page [retry_count]
    times, waits three seconds after each attempt but the last, warns
    once and returns the empty url list and the empty page url.  Without
    a browser it returns the same at once.  The call that
    [process_dataframe] makes therefore always returns. *)
Theorem search_product_images_retries (netloc : string -> py string)
    (driver : option (nat -> attempt_outcome))
    (description supplier brand : string) (max_results retry_count : nat)
    (wl bl : option (list string)) :
  let out := search_product_images_log netloc driver description supplier
               brand max_results retry_count wl bl in
  count_gets (snd out) <= retry_count /\
  (forall n, In n (backoffs (snd out)) -> n = 3) /\
  (forall d, driver = Some d ->
     (forall attempt, attempt < retry_count -> fails (d attempt)) ->
     fst out = ([], EmptyString) /\
     count_gets (snd out) = retry_count /\
     backoffs (snd out) = repeat 3 (retry_count - 1) /\
     List.length (warnings (snd out)) = Nat.min retry_count 1) /\
  (driver = None -> out = (([], EmptyString), [])) /\
  (forall rows idx, exists r,
     search_call netloc rows wl bl idx description supplier brand = Ret r).
Proof.
  cbv zeta. unfold search_product_images_log.
  destruct driver as [d|].
  - destruct (attempts_log netloc wl bl d
                (build_search_string description supplier brand)
                max_results retry_count (seq 0 retry_count)
                ([], EmptyString) []) as [new [E [Hc Hb]]].
    rewrite length_seq in Hc. simpl in E.
    split; [|split; [|split; [|split]]].
    + destruct (attempts _ _ _ _ _ _ _ _ _ _) as [[urls src] log].
      simpl in *. now subst log.
    + destruct (attempts _ _ _ _ _ _ _ _ _ _) as [[urls src] log].
      simpl in *. now subst log.
    + intros d' Hd Hfail. injection Hd as <-.
      destruct (attempts_all_fail netloc wl bl d
                  (build_search_string description supplier brand)
                  max_results retry_count retry_count 0 ([], EmptyString) [])
        as [new' [E' [Hc' [Hb' Hw']]]]; [reflexivity | |].
      { intros attempt Ha. apply Hfail. lia. }
      rewrite E'. simpl. split; [now destruct max_results | auto].
    + discriminate.
    + intros rows idx. unfold search_call. eauto.
  - simpl. split; [unfold count_gets; simpl; lia|].
    split; [intros n []|]. split; [discriminate|]. split; [reflexivity|].
    intros rows idx. unfold search_call. eauto.
Qed.

Lemma search_product_images_retries_witness :
  search_product_images_log Url.netloc
    (Some (fun _ => GetFails "timeout")) "widget" "" "Acme" 2 2 None None =
  (([], EmptyString),
   [EvGet "Acme widget product"; EvBackoff 3;
    EvGet "Acme widget product"; EvWarning 2 "timeout"]) /\
  fst (search_product_images_log Url.netloc
         (Some (fun _ => GetFails "timeout")) "widget" "" "Acme" 2 2 None None)
  = ([], EmptyString).
Proof.
  split; [reflexivity|].
  destruct (search_product_images_retries Url.netloc
              (Some (fun _ => GetFails "timeout")) "widget" "" "Acme" 2 2
              None None) as [_ [_ [H _]]].
  destruct (H (fun _ => GetFails "timeout") eq_refl) as [E _].
  - intros attempt _. exact I.
  - exact E.
Defined.

(** ** Frames updated by index *)

Section AtSet.

Context {A : Type}.
Variable blank : A.

Lemma at_set_length (idx : nat) (f : A -> A) (l : list A) :
  idx < List.length l -> List.length (at_set blank idx f l) = List.length l.
Proof.
  revert idx. induction l as [|x l IH]; intros idx H; simpl in *; [lia|].
  destruct idx; simpl; [reflexivity|]. rewrite IH; [reflexivity | lia].
Qed.

Lemma at_set_nth_error (idx j : nat) (f : A -> A) (l : list A) :
  idx < List.length l ->
  nth_error (at_set blank idx f l) j =
    if j =? idx then option_map f (nth_error l j) else nth_error l j.
Proof.
  revert idx j. induction l as [|x l IH]; intros idx j H; simpl in *; [lia|].
  destruct idx, j; simpl; try reflexivity. apply IH. lia.
Qed.

Lemma at_set_at_set (idx : nat) (f g : A -> A) (l : list A) :
  idx < List.length l ->
  at_set blank idx g (at_set blank idx f l) =
    at_set blank idx (fun x => g (f x)) l.
Proof.
  revert idx. induction l as [|x l IH]; intros idx H; simpl in *; [lia|].
  destruct idx; simpl; [reflexivity|]. rewrite IH; [reflexivity | lia].
Qed.

Lemma at_set_ext (idx : nat) (f g : A -> A) (l : list A) :
  (forall x, f x = g x) -> at_set blank idx f l = at_set blank idx g l.
Proof.
  intros H. revert idx.
  induction l as [|x l IH]; intros idx; destruct idx; simpl;
    rewrite ?H, ?IH; reflexivity.
Qed.

Lemma at_set_id (idx : nat) (l : list A) :
  idx < List.length l -> at_set blank idx (fun x => x) l = l.
Proof.
  revert idx. induction l as [|x l IH]; intros idx H; simpl in *; [lia|].
  destruct idx; simpl; [reflexivity|]. rewrite IH; [reflexivity | lia].
Qed.

End AtSet.

Lemma combine_seq {A : Type} (d : A) (l : list A) (k : nat) :
  combine (seq k (List.length l)) l =
    map (fun i => (i, nth (i - k) l d)) (seq k (List.length l)).
Proof.
  revert k. induction l as [|x l IH]; intros k; simpl; [reflexivity|].
  rewrite Nat.sub_diag. f_equal. rewrite IH. apply map_ext_in.
  intros i Hi. apply in_seq in Hi. f_equal.
  replace (i - k) with (S (i - S k)) by lia. reflexivity.
Qed.

(** ** The batch *)

Section BatchProps.

Variable netloc : string -> py string.
Variable a : call.

(** The body of the loop changes the two rows at its index, and nothing
    else in the two frames. *)
Lemma process_row_frames (dfp : list df_row) (idx : nat) (row : result_row)
    (st : run_state) :
  idx < List.length (results_df st) -> idx < List.length (stats_df st) ->
  let description := str_or_empty (row_cell (description_col a) row) in
  let supplier := str_or_empty (nth idx dfp (fun _ => None) (supplier_col' a)) in
  let brand := str_or_empty (nth idx dfp (fun _ => None) (brand_col' a)) in
  let out := search a idx description supplier brand in
  results_df (row_step netloc a dfp idx row st) =
    at_set blank_result idx (record_result out) (results_df st) /\
  stats_df (row_step netloc a dfp idx row st) =
    at_set blank_stats idx
      (record_stats netloc a out (display_query description supplier brand)
                    (now a idx))
      (stats_df st).
Proof.
  intros Hr Hs. cbv zeta. unfold row_step, row_body, search_and_record.
  destruct (search a idx _ _ _) as [[image_urls product_url]|e].
  - assert (Er : (if truthy_str product_url
                  then at_set blank_result idx (set_product_page_url product_url)
                         (at_set blank_result idx (set_image_urls 1 image_urls)
                                 (results_df st))
                  else at_set blank_result idx (set_image_urls 1 image_urls)
                         (results_df st)) =
                 at_set blank_result idx
                   (record_result (Ret (image_urls, product_url)))
                   (results_df st)).
    { destruct (truthy_str product_url) eqn:Et.
      - rewrite at_set_at_set by exact Hr. apply at_set_ext. intros x.
        simpl. now rewrite Et.
      - apply at_set_ext. intros x. simpl. now rewrite Et. }
    destruct image_urls as [|u us];
      [destruct (truthy_list (whitelist a) || truthy_list (blacklist a)) eqn:Ef|];
      simpl; (split; [exact Er|]);
      rewrite at_set_at_set by exact Hs; apply at_set_ext; intros x; simpl;
      rewrite ?Ef; reflexivity.
  - simpl. split; [|reflexivity]. symmetry.
    rewrite <- (at_set_id blank_result idx (results_df st) Hr) at 2.
    apply at_set_ext. reflexivity.
Qed.

Local Abbreviation out_at dfp g j :=
  (search a j%nat
     (str_or_empty (row_cell (description_col a) (g j%nat)))
     (str_or_empty (nth j%nat dfp (fun _ => None) (supplier_col' a)))
     (str_or_empty (nth j%nat dfp (fun _ => None) (brand_col' a)))).

Local Abbreviation query_at dfp g j :=
  (display_query
     (str_or_empty (row_cell (description_col a) (g j%nat)))
     (str_or_empty (nth j%nat dfp (fun _ => None) (supplier_col' a)))
     (str_or_empty (nth j%nat dfp (fun _ => None) (brand_col' a)))).

(** The loop keeps the length of the two frames; the rows at the indices
    it visits are changed once each, the others not at all. *)
Lemma iterrows_frames (dfp : list df_row) (g : nat -> result_row)
    (idxs : list nat) :
  forall st : run_state,
  NoDup idxs ->
  (forall i, In i idxs ->
     i < List.length (results_df st) /\ i < List.length (stats_df st)) ->
  let st' := steps netloc a dfp (map (fun i => (i, g i)) idxs) st in
  List.length (results_df st') = List.length (results_df st) /\
  List.length (stats_df st') = List.length (stats_df st) /\
  forall j,
    nth_error (results_df st') j =
      (if existsb (Nat.eqb j) idxs
       then option_map (record_result (out_at dfp g j))
                       (nth_error (results_df st) j)
       else nth_error (results_df st) j) /\
    nth_error (stats_df st') j =
      (if existsb (Nat.eqb j) idxs
       then option_map (record_stats netloc a (out_at dfp g j)
                          (query_at dfp g j) (now a j))
                       (nth_error (stats_df st) j)
       else nth_error (stats_df st) j).
Proof.
  induction idxs as [|i rest IH]; intros st Hnd Hlt; cbv zeta.
  - simpl. auto.
  - cbn [map steps].
    destruct (Hlt i (or_introl eq_refl)) as [Hr Hs].
    destruct (process_row_frames dfp i (g i) st Hr Hs) as [Er Es].
    cbv zeta in Er, Es.
    set (st1 := row_step netloc a dfp i (g i) st) in *.
    assert (Lr : List.length (results_df st1) = List.length (results_df st))
      by (rewrite Er; now apply at_set_length).
    assert (Ls : List.length (stats_df st1) = List.length (stats_df st))
      by (rewrite Es; now apply at_set_length).
    inversion Hnd as [|? ? Hni Hnd']; subst.
    destruct (IH st1 Hnd') as [Lr' [Ls' Hj]].
    { intros i' Hi'. rewrite Lr, Ls. apply Hlt. now right. }
    cbv zeta in Lr', Ls', Hj.
    split; [congruence|]. split; [congruence|].
    intros j. destruct (Hj j) as [Hjr Hjs]. rewrite Hjr, Hjs, Er, Es.
    rewrite !at_set_nth_error by assumption. cbn [existsb].
    destruct (Nat.eqb_spec j i) as [->|Hne]; simpl.
    + assert (E : existsb (Nat.eqb i) rest = false).
      { destruct (existsb (Nat.eqb i) rest) eqn:E; [|reflexivity].
        apply existsb_exists in E. destruct E as [x [Hx Hxe]].
        apply Nat.eqb_eq in Hxe. subst x. contradiction. }
      rewrite E. auto.
    + destruct (existsb (Nat.eqb j) rest); auto.
Qed.

Lemma existsb_seq (j n : nat) : existsb (Nat.eqb j) (seq 0 n) = (j <? n).
Proof.
  destruct (j <? n) eqn:E.
  - apply Nat.ltb_lt in E. apply existsb_exists. exists j.
    split; [apply in_seq; lia | apply Nat.eqb_refl].
  - apply Nat.ltb_ge in E.
    destruct (existsb (Nat.eqb j) (seq 0 n)) eqn:E'; [|reflexivity].
    apply existsb_exists in E'. destruct E' as [x [Hx Hxe]].
    apply Nat.eqb_eq in Hxe. apply in_seq in Hx. lia.
Qed.

(** Every row of the two frames that [process_dataframe] returns is the
    row made before the loop, changed once by the body of the loop for
    its own index. *)
Lemma process_dataframe_rows (df : list df_row) (num_rows : Z) :
  let dfp := df_to_process a df num_rows in
  List.length (fst (finished netloc a df num_rows)) = List.length dfp /\
  List.length (snd (finished netloc a df num_rows)) = List.length dfp /\
  forall i r, nth_error dfp i = Some r ->
    nth_error (fst (finished netloc a df num_rows)) i =
      Some (record_result (outcome_of a i r) (initial_result a r)) /\
    nth_error (snd (finished netloc a df num_rows)) i =
      Some (record_stats netloc a (outcome_of a i r)
              (display_query (description_of a r) (supplier_of a r)
                             (brand_of a r))
              (now a i) (initial_stats a r)).
Proof.
  cbv zeta. unfold finished, finished_state, df_to_process.
  set (dfp := map (to_process a) (head num_rows df)).
  cbn [fst snd initial_state results_df stats_df].
  pose (g := fun i => nth (i - 0) (map (initial_result a) dfp) blank_result).
  assert (Ec : combine (seq 0 (List.length (map (initial_result a) dfp)))
                       (map (initial_result a) dfp) =
               map (fun i => (i, g i)) (seq 0 (List.length dfp))).
  { rewrite (combine_seq blank_result), length_map. reflexivity. }
  rewrite Ec. clear Ec.
  destruct (iterrows_frames dfp g (seq 0 (List.length dfp))
              (initial_state a dfp)) as [Lr [Ls Hj]].
  { apply seq_NoDup. }
  { intros i Hi. apply in_seq in Hi. simpl. rewrite !length_map. lia. }
  cbv zeta in Lr, Ls, Hj.
  cbn [initial_state results_df stats_df] in Lr, Ls.
  rewrite length_map in Lr, Ls.
  split; [exact Lr|]. split; [exact Ls|].
  intros i r Hi. destruct (Hj i) as [Hjr Hjs]. rewrite Hjr, Hjs.
  assert (Hlt : i < List.length dfp) by (apply nth_error_Some; congruence).
  rewrite existsb_seq. apply Nat.ltb_lt in Hlt. rewrite Hlt.
  cbn [initial_state results_df stats_df]. rewrite !nth_error_map, Hi. simpl.
  assert (Hn : nth i dfp (fun _ => None) = r) by (now apply nth_error_nth).
  assert (Hg : g i = initial_result a r).
  { unfold g. rewrite Nat.sub_0_r.
    apply nth_error_nth. now rewrite nth_error_map, Hi. }
  unfold outcome_of, description_of, supplier_of, brand_of.
  rewrite Hn, Hg. auto.
Qed.

End BatchProps.

(** ** Calls that return and calls that raise *)

Section Returns.

Variable netloc : string -> py string.
Variable a : call.

Lemma initial_result_labels (col : string) (r : df_row) :
  label_count col (initial_result a r) = count_in col (selected_cols a).
Proof.
  unfold label_count. cbn [initial_result selected].
  now rewrite map_map, map_id.
Qed.

(** With both labels once in the row, the turn of the loop is the one
    that [row_step] computes. *)
Lemma process_row_once (dfp : list df_row) (idx : nat) (row : result_row)
    (st : run_state) :
  label_count (product_id_col a) row < 2 ->
  label_count (description_col a) row < 2 ->
  process_row netloc a dfp idx row st = Ret (row_step netloc a dfp idx row st).
Proof.
  intros Hp Hd. unfold process_row, read_str.
  apply Nat.leb_gt in Hp. apply Nat.leb_gt in Hd. rewrite Hp, Hd.
  cbn [py_bind]. unfold row_step, str_or_empty. reflexivity.
Qed.

(** With a label twice in the row, the turn of the loop raises. *)
Lemma process_row_twice (dfp : list df_row) (idx : nat) (row : result_row)
    (st : run_state) :
  2 <= label_count (product_id_col a) row \/
  2 <= label_count (description_col a) row ->
  process_row netloc a dfp idx row st = Raise ambiguous.
Proof.
  intros H. unfold process_row, read_str.
  destruct (Nat.leb_spec 2 (label_count (product_id_col a) row)) as [Hp|Hp];
    [reflexivity|].
  destruct H as [H|H]; [lia|]. apply Nat.leb_le in H. rewrite H. reflexivity.
Qed.

Lemma iterrows_once (dfp : list df_row) (rows : list (nat * result_row)) :
  (forall idx row, In (idx, row) rows ->
     label_count (product_id_col a) row < 2 /\
     label_count (description_col a) row < 2) ->
  forall st, iterrows netloc a dfp rows st = Ret (steps netloc a dfp rows st).
Proof.
  induction rows as [|[idx row] rows IH]; intros H st; [reflexivity|].
  cbn [iterrows steps].
  destruct (H idx row (or_introl eq_refl)) as [Hp Hd].
  rewrite (process_row_once dfp idx row st Hp Hd). cbn [py_bind].
  apply IH. intros idx' row' Hin. apply (H idx' row'). now right.
Qed.

Lemma in_combine_initial (dfp : list df_row) (idx : nat) (row : result_row) :
  In (idx, row)
     (combine (seq 0 (List.length (map (initial_result a) dfp)))
              (map (initial_result a) dfp)) ->
  exists r, row = initial_result a r.
Proof.
  intros H. apply in_combine_r in H. apply in_map_iff in H.
  destruct H as [r [E _]]. now exists r.
Qed.

(** A call in which both labels are selected once returns, and returns
    the state that the turns of the loop make. *)
Lemma process_dataframe_state_once (df : list df_row) (num_rows : Z) :
  labels_once a ->
  process_dataframe_state netloc a df num_rows
    = Ret (finished_state netloc a df num_rows).
Proof.
  intros [Hp Hd]. unfold process_dataframe_state, finished_state.
  cbn [initial_state results_df]. apply iterrows_once.
  intros idx row Hin. destruct (in_combine_initial _ idx row Hin) as [r ->].
  now rewrite !initial_result_labels.
Qed.

Lemma process_dataframe_once (df : list df_row) (num_rows : Z) :
  labels_once a ->
  process_dataframe netloc a df num_rows = Ret (finished netloc a df num_rows).
Proof.
  intros H. unfold process_dataframe.
  now rewrite (process_dataframe_state_once df num_rows H).
Qed.

(** A call in which a label is selected twice raises at the first row. *)
Lemma process_dataframe_state_twice (df : list df_row) (num_rows : Z) :
  2 <= count_in (product_id_col a) (selected_cols a) \/
  2 <= count_in (description_col a) (selected_cols a) ->
  head num_rows df <> [] ->
  process_dataframe_state netloc a df num_rows = Raise ambiguous.
Proof.
  intros H Hne. unfold process_dataframe_state.
  destruct (head num_rows df) as [|r rows]; [now elim Hne|].
  cbn [map initial_state results_df List.length seq combine iterrows].
  rewrite process_row_twice; [reflexivity|].
  now rewrite !initial_result_labels.
Qed.

End Returns.

Lemma run_once (netloc : string -> py string)
    (driver : option (nat -> nat -> attempt_outcome)) (now : nat -> string)
    (pid dcol : string) (scol bcol : option string)
    (wl bl : option (list string)) (df : list df_row) (num_rows : Z) :
  labels_once (run_call netloc driver now pid dcol scol bcol wl bl) ->
  run netloc driver now pid dcol scol bcol wl bl df num_rows
    = Ret (finished_run netloc driver now pid dcol scol bcol wl bl df num_rows).
Proof. apply process_dataframe_once. Qed.





(** C1.  The code does not do for every call what the claim says.  When
    the label of the product id or of the description is selected twice,
    as when one column is chosen for both (the choice that the form
    starts with), and at least one row is selected, the read of lines
    217-218, which is outside the [try], raises [ValueError] at the first
    row: [process_dataframe] returns no frame, where the claim has two
    frames of [L] rows. *)
Theorem process_dataframe_same_label_raises (netloc : string -> py string)
    (a : call) (df : list df_row) (num_rows : Z) :
  2 <= count_in (product_id_col a) (selected_cols a) \/
  2 <= count_in (description_col a) (selected_cols a) ->
  head num_rows df <> [] ->
  process_dataframe netloc a df num_rows = Raise ambiguous.
Proof.
  intros H Hne. unfold process_dataframe.
  now rewrite (process_dataframe_state_twice netloc a df num_rows H Hne).
Qed.

Lemma process_dataframe_same_label_raises_witness :
  selected_cols (Examples.same_label Examples.finding_nothing)
    = ["id"%string; "id"%string] /\
  process_dataframe Url.netloc (Examples.same_label Examples.finding_nothing)
    Examples.frame 2 = Raise ambiguous.
Proof.
  split; [reflexivity|].
  apply (process_dataframe_same_label_raises Url.netloc
           (Examples.same_label Examples.finding_nothing) Examples.frame 2).
  - left. vm_compute. lia.
  - discriminate.
Defined.





(** C3, as the code has it.  When the labels of the product id and of
    the description are each selected once, the call returns, and for
    every processed row the status is, in this order: when the search call raised, [Error: ] (the word, a
    colon and one space) followed by the first 50 characters of the
    message; else [Success] when the url list is not empty; else
    [Filtered - No allowed domains] when a whitelist or a blacklist is
    configured (given, with at least one entry); else
    [Failed - No images found].  When two urls are returned, the two url
    slots hold them in return order. *)
Theorem search_status_classification (netloc : string -> py string) (a : call)
    (df : list df_row) (num_rows : Z) (i : nat) (r : df_row) :
  labels_once a ->
  nth_error (df_to_process a df num_rows) i = Some r ->
  exists out res stat,
    process_dataframe netloc a df num_rows = Ret out /\
    nth_error (fst out) i = Some res /\
    nth_error (snd out) i = Some stat /\
    (forall e, outcome_of a i r = Raise e ->
       Search_Status stat = ("Error: " ++ Str.take 50 e)%string) /\
    (forall urls page, outcome_of a i r = Ret (urls, page) -> urls <> [] ->
       Search_Status stat = "Success"%string) /\
    (forall page, outcome_of a i r = Ret ([], page) ->
       present (whitelist a) \/ present (blacklist a) ->
       Search_Status stat = "Filtered - No allowed domains"%string) /\
    (forall page, outcome_of a i r = Ret ([], page) ->
       ~ (present (whitelist a) \/ present (blacklist a)) ->
       Search_Status stat = "Failed - No images found"%string) /\
    (forall u1 u2 page, outcome_of a i r = Ret ([u1; u2], page) ->
       Image_URL_1 res = u1 /\ Image_URL_2 res = u2).
Proof.
  intros Hl Hi.
  destruct (process_dataframe_rows netloc a df num_rows) as [_ [_ Hrows]].
  destruct (Hrows i r Hi) as [Hres Hstat].
  exists (finished netloc a df num_rows). eexists. eexists.
  split; [now apply process_dataframe_once|].
  split; [exact Hres|]. split; [exact Hstat|].
  assert (Hconf : truthy_list (whitelist a) || truthy_list (blacklist a) = true
                  <-> present (whitelist a) \/ present (blacklist a)).
  { rewrite orb_true_iff, !truthy_list_present. tauto. }
  split; [|split; [|split; [|split]]].
  - intros e ->. reflexivity.
  - intros urls page -> Hne. destruct urls; [now elim Hne | reflexivity].
  - intros page -> Hp. apply Hconf in Hp. simpl. now rewrite Hp.
  - intros page -> Hp. simpl.
    destruct (truthy_list (whitelist a) || truthy_list (blacklist a)) eqn:E;
      [|reflexivity].
    elim Hp. now apply Hconf.
  - intros u1 u2 page ->. simpl.
    destruct (truthy_str page); simpl; split; reflexivity.
Qed.

Lemma search_status_classification_witness :
  exists out res stat,
    process_dataframe Url.netloc
      (Examples.args None (Some ["pinterest"%string]) Examples.finding_nothing)
      Examples.frame 2 = Ret out /\
    nth_error (fst out) 0 = Some res /\
    nth_error (snd out) 0 = Some stat /\
    Search_Status stat = "Filtered - No allowed domains"%string.
Proof.
  destruct (search_status_classification Url.netloc
              (Examples.args None (Some ["pinterest"%string])
                             Examples.finding_nothing)
              Examples.frame 2 0 _
              ltac:(split; vm_compute; lia) eq_refl)
    as [out [res [stat [Hret [Hres [Hstat [_ [_ [Hf _]]]]]]]]].
  exists out, res, stat.
  split; [exact Hret|]. split; [exact Hres|]. split; [exact Hstat|].
  apply (Hf EmptyString); [reflexivity|].
  right. exists "pinterest"%string, []. reflexivity.
Defined.

(** C3 as it is worded: the status of a row whose search raised [boom] is
    not [Error:] directly followed by the message. *)
Lemma error_status_counterexample :
  ~ (forall out stat,
       process_dataframe Url.netloc
         (Examples.args None None Examples.raising) Examples.frame 2 = Ret out ->
       nth_error (snd out) 0 = Some stat ->
       Search_Status stat = ("Error:" ++ Str.take 50 "boom")%string).
Proof.
  intros H. specialize (H _ _ eq_refl eq_refl). discriminate H.
Qed.

(** C5, as the code has it.  When the labels of the product id and of
    the description are each selected once, the call returns, and for
    every processed row whose search call returned, the [Search_Query] of its statistics row is the fields
    brand, supplier, description, in this order and as they were read,
    without those that are blank, joined by single spaces; the token
    [product] is not part of it.  When the search call raised,
    [Search_Query] stays empty. *)
Theorem search_query_is_display_query (netloc : string -> py string) (a : call)
    (df : list df_row) (num_rows : Z) (i : nat) (r : df_row) :
  labels_once a ->
  nth_error (df_to_process a df num_rows) i = Some r ->
  exists out stat,
    process_dataframe netloc a df num_rows = Ret out /\
    nth_error (snd out) i = Some stat /\
    (forall urls page, outcome_of a i r = Ret (urls, page) ->
       Search_Query stat =
         Str.join " "
           (filter (fun p => truthy_str (Str.strip p))
                   [brand_of a r; supplier_of a r; description_of a r])) /\
    (forall e, outcome_of a i r = Raise e -> Search_Query stat = EmptyString).
Proof.
  intros Hl Hi.
  destruct (process_dataframe_rows netloc a df num_rows) as [_ [_ Hrows]].
  destruct (Hrows i r Hi) as [_ Hstat].
  exists (finished netloc a df num_rows). eexists.
  split; [now apply process_dataframe_once|].
  split; [exact Hstat|]. split.
  - intros urls page ->. simpl.
    destruct urls; [destruct (truthy_list (whitelist a) || truthy_list (blacklist a))|];
      reflexivity.
  - intros e ->. reflexivity.
Qed.

Lemma search_query_is_display_query_witness :
  exists out stat,
    process_dataframe Url.netloc
      (Examples.args None None Examples.finding_nothing) Examples.frame 2
      = Ret out /\
    nth_error (snd out) 0 = Some stat /\
    Search_Query stat = "Acme widget"%string.
Proof.
  destruct (search_query_is_display_query Url.netloc
              (Examples.args None None Examples.finding_nothing)
              Examples.frame 2 0 _
              ltac:(split; vm_compute; lia) eq_refl)
    as [out [stat [Hret [Hstat [Hq _]]]]].
  exists out, stat. split; [exact Hret|]. split; [exact Hstat|].
  exact (Hq [] EmptyString eq_refl).
Defined.

(** C5 as it is worded: the [Search_Query] of the row with brand [Acme]
    and description [widget] is not the composed query
    [Acme widget product], neither when the search returned nor when it
    raised. *)
Lemma search_query_counterexample :
  build_search_string "widget" "" "Acme" = "Acme widget product"%string /\
  ~ (forall out stat,
       process_dataframe Url.netloc
         (Examples.args None None Examples.finding_nothing) Examples.frame 2
         = Ret out ->
       nth_error (snd out) 0 = Some stat ->
       Search_Query stat = build_search_string "widget" "" "Acme") /\
  ~ (forall out stat,
       process_dataframe Url.netloc
         (Examples.args None None Examples.raising) Examples.frame 2 = Ret out ->
       nth_error (snd out) 0 = Some stat ->
       Search_Query stat = build_search_string "widget" "" "Acme").
Proof.
  split; [reflexivity|].
  split; intros H; specialize (H _ _ eq_refl eq_refl); discriminate H.
Qed.

(** ** The search and the result row *)

Lemma in_firstn {A : Type} (n : nat) (l : list A) (x : A) :
  In x (firstn n l) -> In x l.
Proof.
  intros H. rewrite <- (firstn_skipn n l). apply in_or_app. now left.
Qed.

Lemma record_result_slots (urls : list string) (page : string) (r : result_row) :
  List.length urls <= 2 ->
  Image_URL_1 r = EmptyString -> Image_URL_2 r = EmptyString ->
  Product_Page_URL r = EmptyString -> Image_URL_more r = [] ->
  Image_URL_1 (record_result (Ret (urls, page)) r) = nth 0 urls EmptyString /\
  Image_URL_2 (record_result (Ret (urls, page)) r) = nth 1 urls EmptyString /\
  Image_URL_more (record_result (Ret (urls, page)) r) = [] /\
  Product_Page_URL (record_result (Ret (urls, page)) r) = page.
Proof.
  intros Hl H1 H2 Hp Hm.
  destruct urls as [|u1 [|u2 [|u3 rest]]]; [| | |simpl in Hl; lia];
    destruct page; simpl; auto.
Qed.

(** In a run, the row at [i] of [results_df] holds what the search for
    that row returned. *)
Lemma run_row_slots (netloc : string -> py string)
    (driver : option (nat -> nat -> attempt_outcome)) (now : nat -> string)
    (pid dcol : string) (scol bcol : option string)
    (wl bl : option (list string)) (df : list df_row) (num_rows : Z)
    (i : nat) (r : df_row) :
  let a := run_call netloc driver now pid dcol scol bcol wl bl in
  let out := search_product_images netloc (option_map (fun d => d i) driver)
               (description_of a r) (supplier_of a r) (brand_of a r)
               2 2 wl bl in
  nth_error (df_to_process a df num_rows) i = Some r ->
  exists res,
    nth_error (fst (finished_run netloc driver now pid dcol scol bcol wl bl df num_rows)) i
      = Some res /\
    Image_URL_1 res = nth 0 (fst out) EmptyString /\
    Image_URL_2 res = nth 1 (fst out) EmptyString /\
    Image_URL_more res = [] /\
    Product_Page_URL res = snd out.
Proof.
  cbv zeta. intros Hi. unfold finished_run.
  destruct (process_dataframe_rows netloc
              (run_call netloc driver now pid dcol scol bcol wl bl) df num_rows)
    as [_ [_ Hrows]].
  destruct (Hrows i r Hi) as [Hres _].
  eexists. split; [exact Hres|].
  unfold outcome_of. cbn [search run_call]. unfold search_call.
  match goal with
  | |- context [Ret ?o] => destruct o as [urls page] eqn:Eo
  end.
  cbn [fst snd]. apply record_result_slots; try reflexivity.
  assert (Hlen : List.length (fst (urls, page)) <= 2).
  { rewrite <- Eo.
    match goal with
    | |- context [search_product_images ?n ?d ?x ?y ?z ?m ?k ?w ?b] =>
        destruct (search_product_images_spec n d x y z m k w b)
          as [E | [d0 [att [cs [u [p [added [_ [_ [_ [E [Hl _]]]]]]]]]]]];
          rewrite E; simpl; [lia | rewrite length_map; lia]
    end. }
  exact Hlen.
Qed.

(** The urls of a search are image urls of accepted candidates. *)
Lemma search_urls_long (netloc : string -> py string)
    (driver : option (nat -> attempt_outcome))
    (description supplier brand : string) (max_results retry_count : nat)
    (wl bl : option (list string)) :
  search_product_images netloc driver description supplier brand
    max_results retry_count wl bl = ([], EmptyString) \/
  Forall (fun u => 20 < String.length u)
         (fst (search_product_images netloc driver description supplier brand
                 max_results retry_count wl bl)).
Proof.
  destruct (search_product_images_spec netloc driver description supplier
              brand max_results retry_count wl bl)
    as [E | [d [attempt [cs [u [p [added [_ [_ [_ [E [_ [Hacc _]]]]]]]]]]]]];
    [now left | right].
  rewrite E. cbn [fst]. apply Forall_forall. intros u' Hu'.
  assert (Hp : exists p', In (u', p') ((u, p) :: added)).
  { destruct Hu' as [<- | Hin]; [exists p; now left|].
    apply in_map_iff in Hin. destruct Hin as [[u0 p0] [<- Hin]].
    exists p0. now right. }
  destruct Hp as [p' Hp].
  destruct (Hacc u' p' Hp) as [c [_ [data [_ [_ [_ [_ Hl]]]]]]]. exact Hl.
Qed.

(** C7.  Every search returns at most [max_results] image urls, each the
    image url of a candidate of the result page whose page url passed
    the domain filter; it returns no url and no page url, or the page url
    of the first accepted candidate together with that candidate's image
    url as the first url.  A run ([max_results] is 2) in which the labels
    of the product id and of the description are each selected once
    returns, and the urls fill [Image_URL_1] and [Image_URL_2] by position, a slot without a url
    stays empty, no further column is made, and [Product_Page_URL] is the
    page url that the search returned. *)
Theorem search_outcome_and_slots (netloc : string -> py string) :
  (forall driver description supplier brand max_results retry_count wl bl,
     let out := search_product_images netloc driver description supplier brand
                  max_results retry_count wl bl in
     List.length (fst out) <= max_results /\
     (forall u, In u (fst out) ->
        exists d attempt cs c p,
          driver = Some d /\ attempt < retry_count /\ d attempt = Found cs /\
          In c cs /\ accepts netloc wl bl c u p) /\
     (out = ([], EmptyString) \/
      exists d attempt cs pre c post u rest,
        driver = Some d /\ attempt < retry_count /\ d attempt = Found cs /\
        firstn (max_results * 3) cs = pre ++ c :: post /\
        Forall (rejects netloc wl bl) pre /\
        accepts netloc wl bl c u (snd out) /\ fst out = u :: rest)) /\
  (forall driver now pid dcol scol bcol wl bl df num_rows i r,
     let a := run_call netloc driver now pid dcol scol bcol wl bl in
     let out := search_product_images netloc (option_map (fun d => d i) driver)
                  (description_of a r) (supplier_of a r) (brand_of a r)
                  2 2 wl bl in
     labels_once a ->
     nth_error (df_to_process a df num_rows) i = Some r ->
     exists frames res,
       run netloc driver now pid dcol scol bcol wl bl df num_rows
         = Ret frames /\
       nth_error (fst frames) i = Some res /\
       Image_URL_1 res = nth 0 (fst out) EmptyString /\
       Image_URL_2 res = nth 1 (fst out) EmptyString /\
       Image_URL_more res = [] /\
       Product_Page_URL res = snd out).
Proof.
  split.
  2:{ intros driver now pid dcol scol bcol wl bl df num_rows i r a out Hl Hi.
      destruct (run_row_slots netloc driver now pid dcol scol bcol wl bl
                  df num_rows i r Hi) as [res H].
      exists (finished_run netloc driver now pid dcol scol bcol wl bl df num_rows),
             res.
      split; [now apply run_once | exact H]. }
  intros driver description supplier brand max_results retry_count wl bl.
  cbv zeta.
  destruct (search_product_images_spec netloc driver description supplier
              brand max_results retry_count wl bl)
    as [E | [d [attempt [cs [u [p [added [Hd [Ha [Hf [E [Hl [Hacc Hfirst]]]]]]]]]]]]];
    rewrite E; cbn [fst snd].
  - split; [simpl; lia|]. split; [intros u []|]. now left.
  - split; [simpl; rewrite length_map; lia|]. split.
    + intros u' Hu'.
      assert (Hp : exists p', In (u', p') ((u, p) :: added)).
      { destruct Hu' as [<- | Hin]; [exists p; now left|].
        apply in_map_iff in Hin. destruct Hin as [[u0 p0] [<- Hin]].
        exists p0. now right. }
      destruct Hp as [p' Hp]. destruct (Hacc u' p' Hp) as [c [Hc Hc']].
      exists d, attempt, cs, c, p'. repeat split; auto.
      exact (in_firstn _ _ _ Hc).
    + right. destruct Hfirst as [pre [c [post [Hs [Hpre Hc]]]]].
      exists d, attempt, cs, pre, c, post, u, (map fst added).
      repeat split; auto.
Qed.

Lemma search_outcome_and_slots_witness :
  search_product_images Url.netloc (Some (Examples.browser 0))
    "widget" "" "Acme" 2 2 None (Some ["pinterest"%string]) =
    (["https://shop.example.com/thumbs/2.jpg"%string;
      "https://cdn.example.org/images/3.jpg"%string],
     "https://shop.example.com/item/2"%string) /\
  exists frames res,
    run Url.netloc (Some Examples.browser) Examples.clock
      "id" "desc" None (Some "brand"%string)
      None (Some ["pinterest"%string]) Examples.frame 2 = Ret frames /\
    nth_error (fst frames) 0 = Some res /\
    Image_URL_1 res = "https://shop.example.com/thumbs/2.jpg"%string /\
    Image_URL_2 res = "https://cdn.example.org/images/3.jpg"%string /\
    Product_Page_URL res = "https://shop.example.com/item/2"%string.
Proof.
  split; [reflexivity|].
  destruct (search_outcome_and_slots Url.netloc) as [_ H].
  destruct (H (Some Examples.browser) Examples.clock "id"%string "desc"%string
              None (Some "brand"%string) None (Some ["pinterest"%string])
              Examples.frame 2%Z 0 _
              ltac:(split; vm_compute; lia) eq_refl)
    as [frames [res [Hret [Hres [H1 [H2 [_ Hp]]]]]]].
  exists frames, res. split; [exact Hret|]. split; [exact Hres|].
  split; [exact H1|]. split; [exact H2 | exact Hp].
Defined.

(** C10.  Every image url that a search returns has more than 20
    characters; so has, in a run (which returns when the labels of the
    product id and of the description are each selected once), every
    [Image_URL_1] and [Image_URL_2] that is not empty.  A candidate without an image url, or with one of
    20 characters or fewer, leaves the state of the search as it was. *)
Theorem image_urls_longer_than_20 (netloc : string -> py string) :
  (forall driver description supplier brand max_results retry_count wl bl,
     Forall (fun u => 20 < String.length u)
            (fst (search_product_images netloc driver description supplier
                    brand max_results retry_count wl bl))) /\
  (forall driver now pid dcol scol bcol wl bl df num_rows i r,
     labels_once (run_call netloc driver now pid dcol scol bcol wl bl) ->
     nth_error (df_to_process
                  (run_call netloc driver now pid dcol scol bcol wl bl)
                  df num_rows) i = Some r ->
     exists frames res,
       run netloc driver now pid dcol scol bcol wl bl df num_rows
         = Ret frames /\
       nth_error (fst frames) i = Some res /\
       (Image_URL_1 res <> EmptyString -> 20 < String.length (Image_URL_1 res)) /\
       (Image_URL_2 res <> EmptyString -> 20 < String.length (Image_URL_2 res))) /\
  (forall wl bl data st,
     (forall u, py_or (murl data) (turl data) = Some u -> String.length u <= 20) ->
     scan_one netloc wl bl (Decoded data) st = st).
Proof.
  assert (Hsearch : forall driver description supplier brand max_results
                           retry_count wl bl,
     Forall (fun u => 20 < String.length u)
            (fst (search_product_images netloc driver description supplier
                    brand max_results retry_count wl bl))).
  { intros driver description supplier brand max_results retry_count wl bl.
    destruct (search_urls_long netloc driver description supplier
                brand max_results retry_count wl bl) as [E | H].
    - rewrite E. constructor.
    - exact H. }
  split; [exact Hsearch|]. split.
  - intros driver now pid dcol scol bcol wl bl df num_rows i r Hl Hi.
    destruct (run_row_slots netloc driver now pid dcol scol bcol wl bl
                df num_rows i r Hi) as [res [Hres [H1 [H2 _]]]].
    exists (finished_run netloc driver now pid dcol scol bcol wl bl df num_rows),
           res.
    split; [now apply run_once|]. split; [exact Hres|].
    match type of H1 with
    | _ = nth 0 (fst ?o) _ => set (out := o) in *
    end.
    assert (Hall : Forall (fun u => 20 < String.length u) (fst out))
      by apply Hsearch.
    rewrite H1, H2. rewrite Forall_forall in Hall.
    split; intros Hne; apply Hall;
      [destruct (nth_in_or_default 0 (fst out) EmptyString)
      |destruct (nth_in_or_default 1 (fst out) EmptyString)];
      auto; congruence.
  - intros wl bl data [urls src] Hshort.
    destruct (scan_one_cases netloc wl bl (Decoded data) urls src)
      as [[u [p [[d [E [_ [_ [Hi Hl]]]]] _]]] | [_ E]]; [|exact E].
    injection E as <-. specialize (Hshort u Hi). lia.
Qed.

Lemma image_urls_longer_than_20_witness :
  scan_one Url.netloc None None
    (Decoded {| purl := Some "https://shop.example.com/item/1"%string;
                murl := Some "http://x.io/a.png"%string;
                turl := Some "https://shop.example.com/thumbs/1.jpg"%string |})
    ([], EmptyString) = ([], EmptyString) /\
  exists frames res,
    run Url.netloc (Some Examples.browser) Examples.clock
      "id" "desc" None (Some "brand"%string) None None Examples.frame 2
      = Ret frames /\
    nth_error (fst frames) 1 = Some res /\
    20 < String.length (Image_URL_1 res).
Proof.
  destruct (image_urls_longer_than_20 Url.netloc) as [_ [Hrun Hskip]].
  split.
  - apply Hskip. intros u Hu. injection Hu as <-. simpl. lia.
  - destruct (Hrun (Some Examples.browser) Examples.clock "id"%string
                "desc"%string None (Some "brand"%string) None None
                Examples.frame 2%Z 1 _
                ltac:(split; vm_compute; lia) eq_refl)
      as [frames [res [Hret [Hres [H1 _]]]]].
    exists frames, res. split; [exact Hret|]. split; [exact Hres|]. apply H1.
    assert (Ef : frames = finished_run Url.netloc (Some Examples.browser)
                            Examples.clock "id" "desc" None
                            (Some "brand"%string) None None Examples.frame 2).
    { assert (E : Ret frames = Ret (finished_run Url.netloc
                            (Some Examples.browser)
                            Examples.clock "id" "desc" None
                            (Some "brand"%string) None None Examples.frame 2)).
      { rewrite <- Hret. apply run_once. split; vm_compute; lia. }
      now injection E. }
    replace (Image_URL_1 res)
      with (Image_URL_1 (nth 1 (fst frames) blank_result)).
    + rewrite Ef. discriminate.
    + f_equal. apply nth_error_nth. exact Hres.
Defined.

(** ** The summary sheet *)

Lemma combine_app_same {A B : Type} (a1 a2 : list A) (b1 b2 : list B) :
  List.length a1 = List.length b1 ->
  combine (a1 ++ a2) (b1 ++ b2) = combine a1 b1 ++ combine a2 b2.
Proof.
  revert b1. induction a1 as [|x a1 IH]; intros [|y b1] H; simpl in *;
    try discriminate; [reflexivity|].
  rewrite IH; [reflexivity | congruence].
Qed.

Section SummaryProps.

Import Report.

(** The two columns of a summary have the same length. *)
Local Abbreviation aligned s := (List.length (Metric s) = List.length (Value s)).
Local Abbreviation lines_of s := (combine (Metric s) (Value s)).

Lemma extend_lines (s : summary_data) (m : list string) (v : list value) :
  aligned s -> List.length m = List.length v ->
  lines_of (extend s m v) = lines_of s ++ combine m v /\
  aligned (extend s m v).
Proof.
  intros Hs Hm. simpl. split.
  - now apply combine_app_same.
  - rewrite !length_app. congruence.
Qed.

Lemma extend_if_lines (c : bool) (s : summary_data) (m : string) (v : value) :
  aligned s ->
  lines_of (if c then extend s [m] [v] else s) =
    lines_of s ++ (if c then [(m, v)] else []) /\
  aligned (if c then extend s [m] [v] else s).
Proof.
  intros Hs. destruct c.
  - now apply extend_lines.
  - now rewrite app_nil_r.
Qed.

Lemma add_top_domains_lines (top : list (string * nat)) :
  forall (i total : nat) (s : summary_data),
  aligned s ->
  exists tl,
    lines_of (add_top_domains i total top s) = lines_of s ++ tl /\
    aligned (add_top_domains i total top s) /\
    forall m v, In (m, v) tl -> exists rest, m = String "#" rest.
Proof.
  induction top as [|[domain count] top IH]; intros i total s Hs;
    cbn [add_top_domains].
  - exists []. rewrite app_nil_r. repeat split; auto. intros m v [].
  - destruct (extend_lines s
                [("#" ++ Str.of_nat i ++ " - " ++ domain)%string]
                [VShare count total] Hs eq_refl) as [El Ha].
    destruct (IH (S i) total _ Ha) as [tl [E [Ha' Hin]]].
    eexists. rewrite E, El, <- app_assoc. split; [reflexivity|].
    split; [exact Ha'|]. intros m v [H | H]; [|exact (Hin m v H)].
    injection H as <- _. eexists. reflexivity.
Qed.

(** The rows of the summary, in order. *)
Lemma summary_lines_shape (stats_df : list stats_row) :
  exists tl,
    (forall m v, In (m, v) tl -> exists rest, m = String "#" rest) /\
    summary_lines stats_df =
      [("Total Products Processed"%string, VCount (total_processed stats_df));
       ("Successful Searches"%string, VCount (total_success stats_df));
       ("Failed Searches"%string, VCount (total_failed stats_df));
       ("Filtered (Domain Rules)"%string, VCount (total_filtered stats_df));
       ("Errors"%string, VCount (total_errors stats_df));
       ("Success Rate (%)"%string,
        VRate (total_success stats_df) (total_processed stats_df));
       (EmptyString, VText ""); ("TOP 3 SOURCE DOMAINS"%string, VText "")]
      ++ tl
      ++ [(EmptyString, VText ""); ("NOTABLE FINDINGS"%string, VText "")]
      ++ (if 3 * total_processed stats_df <? 10 * total_filtered stats_df
          then [(high_filter_rate,
                 VText (Str.of_nat (total_filtered stats_df)
                        ++ " products filtered - consider relaxing domain rules"))]
          else [])
      ++ (if 2 * total_processed stats_df <? 10 * total_failed stats_df
          then [(high_failure_rate,
                 VText (Str.of_nat (total_failed stats_df)
                        ++ " products failed - check search query quality"))]
          else [])
      ++ [("Source Diversity"%string,
           VText (Str.of_nat (nunique (map Source_Domain stats_df))
                  ++ " unique domains found"))]
      ++ (if (nunique (map Source_Domain stats_df) <? 5)
             && (10 <? total_success stats_df)
          then [(low_domain_diversity,
                 VText "Results concentrated in few sources - may indicate bias")]
          else []).
Proof.
  unfold summary_lines, summary. cbv zeta.
  match goal with
  | |- context [add_top_domains 1 ?t ?top ?s0] =>
      destruct (add_top_domains_lines top 1 t s0 eq_refl) as [tl [E0 [A0 Htl]]];
      set (s1 := add_top_domains 1 t top s0) in *
  end.
  exists tl. split; [exact Htl|].
  destruct (extend_lines s1 [EmptyString; "NOTABLE FINDINGS"%string]
              [VText ""; VText ""] A0 eq_refl) as [E1 A1].
  set (s2 := extend s1 _ _) in *.
  match goal with
  | |- context [if ?c then extend s2 [?m] [?v] else s2] =>
      destruct (extend_if_lines c s2 m v A1) as [E2 A2];
      set (s3 := if c then extend s2 [m] [v] else s2) in *
  end.
  match goal with
  | |- context [if ?c then extend s3 [?m] [?v] else s3] =>
      destruct (extend_if_lines c s3 m v A2) as [E3 A3];
      set (s4 := if c then extend s3 [m] [v] else s3) in *
  end.
  match goal with
  | |- context [extend s4 [?m] [?v]] =>
      destruct (extend_lines s4 [m] [v] A3 eq_refl) as [E4 A4];
      set (s5 := extend s4 [m] [v]) in *
  end.
  match goal with
  | |- context [if ?c then extend s5 [?m] [?v] else s5] =>
      destruct (extend_if_lines c s5 m v A4) as [E5 _]
  end.
  rewrite E5, E4, E3, E2, E1, E0. simpl combine.
  rewrite <- !app_assoc. reflexivity.
Qed.

End SummaryProps.

Ltac line_cases H :=
  repeat match type of H with
  | In _ (_ ++ _) => apply in_app_or in H; destruct H as [H|H]
  | In _ (if ?c then _ else _) => destruct c eqn:?
  | In _ (_ :: _) => destruct H as [H|H]
  | In _ [] => destruct H
  end.

Ltac other_line Htl H :=
  match type of H with
  | In (?m, ?v) _ => destruct (Htl m v H) as [? ?]; discriminate
  | _ = _ => discriminate H
  end.

(** C8.  The summary holds the high-filter-rate line exactly when the
    filtered count is more than 30% of the rows, the high-failure-rate
    line exactly when the failed count is more than 20% of the rows, and
    the low-domain-diversity line exactly when the [Source_Domain] column
    has fewer than 5 distinct values while more than 10 rows have the
    status [Success].  The counts are those of the summary: the rows
    whose status contains [Filtered], contains [Failed], and is
    [Success]. *)
Theorem summary_advisory_lines (stats_df : list stats_row) :
  ((exists v, In (Report.high_filter_rate, v) (Report.summary_lines stats_df))
   <-> 3 * Report.total_processed stats_df < 10 * Report.total_filtered stats_df) /\
  ((exists v, In (Report.high_failure_rate, v) (Report.summary_lines stats_df))
   <-> 2 * Report.total_processed stats_df < 10 * Report.total_failed stats_df) /\
  ((exists v, In (Report.low_domain_diversity, v) (Report.summary_lines stats_df))
   <-> Report.nunique (map Source_Domain stats_df) < 5 /\
       10 < Report.total_success stats_df).
Proof.
  destruct (summary_lines_shape stats_df) as [tl [Htl E]]. rewrite E. clear E.
  unfold Report.high_filter_rate, Report.high_failure_rate,
    Report.low_domain_diversity.
  split; [|split]; split.
  - intros [v H]. line_cases H; try other_line Htl H.
    all: match goal with
         | Hc : (_ <? _) = true |- _ < _ => apply Nat.ltb_lt; exact Hc
         end.
  - intros Hc. apply Nat.ltb_lt in Hc. rewrite Hc. eexists.
    rewrite !in_app_iff. do 3 right. left. left. reflexivity.
  - intros [v H]. line_cases H; try other_line Htl H.
    all: match goal with
         | Hc : (2 * _ <? _) = true |- _ < _ => apply Nat.ltb_lt; exact Hc
         end.
  - intros Hc. apply Nat.ltb_lt in Hc. rewrite Hc. eexists.
    rewrite !in_app_iff. do 4 right. left. left. reflexivity.
  - intros [v H]. line_cases H; try other_line Htl H.
    all: match goal with
         | Hc : (_ && _) = true |- _ =>
             apply andb_true_iff in Hc; destruct Hc as [H1 H2];
             apply Nat.ltb_lt in H1; apply Nat.ltb_lt in H2; split; assumption
         end.
  - intros [H1 H2]. apply Nat.ltb_lt in H1. apply Nat.ltb_lt in H2.
    rewrite H1, H2. eexists.
    rewrite !in_app_iff. do 6 right. left. reflexivity.
Qed.

Lemma summary_advisory_lines_witness :
  Report.total_processed Examples.stats = 3 /\
  Report.total_filtered Examples.stats = 1 /\
  (exists v, In (Report.high_filter_rate, v)
               (Report.summary_lines Examples.stats)) /\
  ~ (exists v, In (Report.high_failure_rate, v)
                 (Report.summary_lines Examples.stats)).
Proof.
  destruct (summary_advisory_lines Examples.stats) as [[_ Hf] [[Hg _] _]].
  split; [reflexivity|]. split; [reflexivity|]. split.
  - apply Hf. vm_compute. lia.
  - intros H. apply Hg in H. vm_compute in H. lia.
Defined.

(** * Further properties of the code *)

(** ** Excel links *)

Lemma append_inj_l (a x y : string) : (a ++ x)%string = (a ++ y)%string -> x = y.
Proof. induction a as [|c a IH]; simpl; intros H; [exact H | injection H as H; auto]. Qed.

Lemma length_append (a b : string) :
  String.length (a ++ b) = String.length a + String.length b.
Proof. induction a as [|c a IH]; simpl; [reflexivity | now rewrite IH]. Qed.

Lemma append_inj_r (t x y : string) : (x ++ t)%string = (y ++ t)%string -> x = y.
Proof.
  revert y. induction x as [|c x IH]; intros [|d y] H; simpl in H.
  - reflexivity.
  - apply (f_equal String.length) in H. simpl in H. rewrite length_append in H. lia.
  - apply (f_equal String.length) in H. simpl in H. rewrite length_append in H. lia.
  - injection H as -> H. f_equal. now apply IH.
Qed.

(** [create_hyperlink_formula] gives the empty string for the empty url
    and for no other; for one display text, two urls with the same
    formula are the same url. *)
Theorem create_hyperlink_formula_faithful (display_text : string) :
  (forall url, create_hyperlink_formula url display_text = EmptyString <->
               url = EmptyString) /\
  (forall url1 url2,
     create_hyperlink_formula url1 display_text =
       create_hyperlink_formula url2 display_text -> url1 = url2).
Proof.
  assert (Hempty : forall url,
    create_hyperlink_formula url display_text = EmptyString <-> url = EmptyString).
  { intros [|c url]; unfold create_hyperlink_formula; simpl;
      split; try reflexivity; discriminate. }
  split; [exact Hempty|].
  intros url1 url2 H.
  destruct url1 as [|c1 u1], url2 as [|c2 u2]; [reflexivity | | |].
  - symmetry in H. apply Hempty in H. discriminate.
  - apply Hempty in H. discriminate.
  - assert (E : forall c u,
      create_hyperlink_formula (String c u) display_text =
        ("=HYPERLINK(" ++ dquote ++ String c u ++ dquote ++ "," ++ dquote
         ++ display_text ++ dquote ++ ")")%string) by reflexivity.
    rewrite !E in H.
    apply append_inj_l, append_inj_l in H.
    set (t := (dquote ++ "," ++ dquote ++ display_text ++ dquote ++ ")")%string) in H.
    now apply (append_inj_r t).
Qed.

(** ** The filter lists of the form *)

Lemma lstrip_cases (s : string) :
  Str.lstrip s = EmptyString \/
  exists c t, Str.lstrip s = String c t /\ Str.is_space c = false.
Proof.
  induction s as [|c s IH]; simpl; [now left|].
  destruct (Str.is_space c) eqn:E; [exact IH|]. right. now exists c, s.
Qed.

Lemma rstrip_head (c : ascii) (t : string) :
  Str.is_space c = false -> exists t', Str.rstrip (String c t) = String c t'.
Proof.
  intros H. simpl. destruct (Str.rstrip t); [rewrite H|]; eauto.
Qed.

Lemma rstrip_idem (s : string) : Str.rstrip (Str.rstrip s) = Str.rstrip s.
Proof.
  induction s as [|c s IH]; [reflexivity|]. simpl.
  destruct (Str.rstrip s) as [|d r] eqn:E.
  - destruct (Str.is_space c) eqn:Ec; [reflexivity|]. simpl. now rewrite Ec.
  - change (Str.rstrip (String c (String d r)))
      with (match Str.rstrip (String d r) with
            | EmptyString =>
                if Str.is_space c then EmptyString else String c EmptyString
            | String a r0 => String c (String a r0)
            end).
    now rewrite IH.
Qed.

Lemma strip_idem (s : string) : Str.strip (Str.strip s) = Str.strip s.
Proof.
  unfold Str.strip.
  destruct (lstrip_cases s) as [-> | [c [t [-> Hc]]]]; [reflexivity|].
  destruct (rstrip_head c t Hc) as [t' E]. rewrite E.
  simpl Str.lstrip. rewrite Hc, <- E. apply rstrip_idem.
Qed.

Lemma free_of_lstrip (c : ascii) (s : string) :
  free_of c s -> free_of c (Str.lstrip s).
Proof.
  induction s as [|d s IH]; simpl; [auto|]. intros [H1 H2].
  destruct (Str.is_space d); [auto | simpl; auto].
Qed.

Lemma free_of_rstrip (c : ascii) (s : string) :
  free_of c s -> free_of c (Str.rstrip s).
Proof.
  induction s as [|d s IH]; simpl; [auto|]. intros [H1 H2].
  specialize (IH H2). destruct (Str.rstrip s).
  - destruct (Str.is_space d); simpl; auto.
  - simpl. auto.
Qed.

Lemma split_on_free (sep : ascii) (s : string) :
  Forall (free_of sep) (split_on sep s).
Proof.
  induction s as [|c s IH]; simpl; [repeat constructor|].
  destruct (Ascii.eqb_spec c sep) as [->|Hne].
  - constructor; [exact I | exact IH].
  - destruct (split_on sep s) as [|piece rest].
    + repeat constructor. exact Hne.
    + inversion IH; subst. constructor; [simpl; auto | assumption].
Qed.

(** What the form makes of the text of a list: every entry is not empty,
    has no white space at either end and no line break inside. *)
Theorem parse_domains_clean (text : string) :
  Forall clean_entry (parse_domains text).
Proof.
  unfold parse_domains. apply Forall_forall. intros e He.
  apply in_map_iff in He. destruct He as [d [<- Hd]].
  apply filter_In in Hd. destruct Hd as [Hin Ht].
  split; [|split].
  - now apply truthy_str_nonempty.
  - apply strip_idem.
  - unfold Str.strip. apply free_of_rstrip, free_of_lstrip.
    pose proof (split_on_free newline text) as Hf.
    rewrite Forall_forall in Hf. now apply Hf.
Qed.

Lemma split_on_one (sep : ascii) (p : string) :
  free_of sep p -> split_on sep p = [p].
Proof.
  induction p as [|c p IH]; simpl; [reflexivity|]. intros [Hc Hp].
  apply Ascii.eqb_neq in Hc. rewrite Hc, (IH Hp). reflexivity.
Qed.

Lemma split_on_append (sep : ascii) (p s : string) :
  free_of sep p ->
  split_on sep (p ++ String sep s) = p :: split_on sep s.
Proof.
  induction p as [|c p IH]; simpl.
  - intros _. now rewrite Ascii.eqb_refl.
  - intros [Hc Hp]. apply Ascii.eqb_neq in Hc. rewrite Hc, (IH Hp). reflexivity.
Qed.

Lemma split_on_join (sep : ascii) (l : list string) :
  l <> [] -> Forall (free_of sep) l ->
  split_on sep (Str.join (String sep EmptyString) l) = l.
Proof.
  induction l as [|p l IH]; intros Hne Hf; [now elim Hne|].
  inversion Hf as [|? ? Hp Hl]; subst.
  destruct l as [|q l].
  - simpl. now apply split_on_one.
  - change (Str.join (String sep EmptyString) (p :: q :: l))
      with (p ++ String sep (Str.join (String sep EmptyString) (q :: l)))%string.
    rewrite split_on_append by exact Hp. f_equal. apply IH; [discriminate | exact Hl].
Qed.

(** Round trip: entries as the form makes them, written one to a line,
    are read back as they are. *)
Theorem parse_domains_join (entries : list string) :
  Forall clean_entry entries ->
  parse_domains (Str.join (String newline EmptyString) entries) = entries.
Proof.
  intros Hc. unfold parse_domains.
  destruct entries as [|e entries]; [reflexivity|].
  rewrite split_on_join.
  - induction Hc as [|x l [Hx [Hs Hf]] Hl IH]; [reflexivity|].
    cbn [filter]. rewrite Hs.
    apply truthy_str_nonempty in Hx. rewrite Hx. cbn [map]. now rewrite Hs, IH.
  - discriminate.
  - eapply Forall_impl; [|exact Hc]. intros x [_ [_ Hf]]. exact Hf.
Qed.

Lemma parse_domains_join_witness :
  parse_domains
    (Str.join (String newline EmptyString)
       ["pinterest.com"%string; "facebook.com"%string]) =
    ["pinterest.com"%string; "facebook.com"%string].
Proof.
  apply parse_domains_join.
  repeat constructor; try discriminate; simpl; repeat split; discriminate.
Defined.

(** A ticked list whose text has only blank lines filters nothing: the
    list is empty, and the filter answers as it does without the list. *)
Theorem blank_list_filters_nothing (netloc : string -> py string)
    (text url : string) (other : option (list string)) :
  (forall d, In d (split_on newline text) -> Str.strip d = EmptyString) ->
  form_list true text = Some [] /\
  is_domain_allowed netloc url (form_list true text) other =
    is_domain_allowed netloc url None other /\
  is_domain_allowed netloc url other (form_list true text) =
    is_domain_allowed netloc url other None.
Proof.
  intros Hblank.
  assert (E : parse_domains text = []).
  { unfold parse_domains.
    induction (split_on newline text) as [|d l IH]; [reflexivity|].
    cbn [filter]. rewrite (Hblank d (or_introl eq_refl)). simpl.
    apply IH. intros d' Hd'. apply Hblank. now right. }
  unfold form_list. rewrite E. split; [reflexivity|].
  unfold is_domain_allowed, is_domain_allowed_body.
  split; destruct (negb (truthy_str url)); try reflexivity;
    destruct (netloc url); reflexivity.
Qed.

Lemma blank_list_filters_nothing_witness :
  form_list true ("  " ++ String newline " ") = Some [] /\
  is_domain_allowed Url.netloc "https://www.example.org/p"
    (form_list true ("  " ++ String newline " ")) None = true.
Proof.
  destruct (blank_list_filters_nothing Url.netloc ("  " ++ String newline " ")
              "https://www.example.org/p" None) as [E [H _]].
  - intros d [<- | [<- | []]]; reflexivity.
  - split; [exact E|]. rewrite H. reflexivity.
Defined.

(** ** More on the domain filter *)

(** When the filter accepts. *)
Lemma is_domain_allowed_true (netloc : string -> py string)
    (url : string) (wl bl : option (list string)) :
  is_domain_allowed netloc url wl bl = true <->
  url <> EmptyString /\
  exists host, netloc url = Ret host /\ ~ matches_some bl host /\
               (present wl -> matches_some wl host).
Proof.
  destruct url as [|c u]; [split; [discriminate | intros [H _]; now elim H]|].
  destruct (netloc (String c u)) as [host|e] eqn:En.
  - assert (Hne : String c u <> EmptyString) by discriminate.
    rewrite (is_domain_allowed_host netloc _ host wl bl Hne En).
    pose proof (blocked_by_matches host bl) as Hb.
    pose proof (allowed_by_matches host wl) as Hw.
    pose proof (truthy_list_present wl) as Hp.
    destruct (truthy_list bl) eqn:Etb; simpl.
    + destruct (blocked_by (Str.lower host) (entries bl)) eqn:Eb.
      * split; [discriminate|]. intros [_ [h [Eh [Hn _]]]].
        injection Eh as <-. elim Hn. now apply Hb.
      * assert (Hnb : ~ matches_some bl host)
          by (intros H; apply Hb in H; discriminate).
        destruct (truthy_list wl) eqn:Etw.
        -- split.
           ++ intros H. split; [discriminate|]. exists host.
              repeat split; auto. intros _. now apply Hw.
           ++ intros [_ [h [Eh [_ Hm]]]]. injection Eh as <-.
              apply Hw, Hm, Hp. reflexivity.
        -- split; [|reflexivity]. intros _. split; [discriminate|].
           exists host. repeat split; auto. intros H. apply Hp in H. discriminate.
    + assert (Hnb : ~ matches_some bl host).
      { intros [e [Hin _]]. destruct bl as [[|x xs]|]; simpl in *;
          try discriminate; contradiction. }
      destruct (truthy_list wl) eqn:Etw.
      * split.
        -- intros H. split; [discriminate|]. exists host.
           repeat split; auto. intros _. now apply Hw.
        -- intros [_ [h [Eh [_ Hm]]]]. injection Eh as <-.
           apply Hw, Hm, Hp. reflexivity.
      * split; [|reflexivity]. intros _. split; [discriminate|].
        exists host. repeat split; auto. intros H. apply Hp in H. discriminate.
  - split.
    + unfold is_domain_allowed, is_domain_allowed_body. rewrite En. discriminate.
    + intros [_ [h [Eh _]]]. discriminate.
Qed.

(** More blacklist entries never let a url through that was rejected,
    and more entries in a whitelist that has one never reject a url that
    was accepted. *)
Theorem filter_lists_monotone (netloc : string -> py string) (url : string) :
  (forall wl bl more,
     is_domain_allowed netloc url wl (Some (bl ++ more)) = true ->
     is_domain_allowed netloc url wl (Some bl) = true) /\
  (forall e wl more bl,
     is_domain_allowed netloc url (Some (e :: wl)) bl = true ->
     is_domain_allowed netloc url (Some ((e :: wl) ++ more)) bl = true).
Proof.
  split.
  - intros wl bl more H. apply is_domain_allowed_true in H.
    apply is_domain_allowed_true.
    destruct H as [Hne [host [En [Hb Hw]]]]. split; [exact Hne|].
    exists host. repeat split; auto.
    intros [x [Hin Hx]]. apply Hb. exists x. split; [|exact Hx].
    simpl in *. apply in_or_app. now left.
  - intros e wl more bl H. apply is_domain_allowed_true in H.
    apply is_domain_allowed_true.
    destruct H as [Hne [host [En [Hb Hw]]]]. split; [exact Hne|].
    exists host. repeat split; auto. intros _.
    destruct Hw as [x [Hin Hx]]; [now exists e, wl|].
    exists x. split; [|exact Hx]. simpl in *.
    destruct Hin as [<- | Hin]; [now left | right; apply in_or_app; now left].
Qed.

Lemma filter_lists_monotone_witness :
  is_domain_allowed Url.netloc "https://shop.example.com/item/1"
    None (Some ["pinterest"%string]) = true.
Proof.
  destruct (filter_lists_monotone Url.netloc "https://shop.example.com/item/1")
    as [H _].
  apply (H None ["pinterest"%string] ["facebook"%string]). reflexivity.
Defined.

Lemma contains_in_empty (e : string) :
  e <> EmptyString -> Str.contains (Str.lower e) EmptyString = false.
Proof. destruct e; [intros H; now elim H | reflexivity]. Qed.

(** A url in which [urlparse] finds no host, as a relative url, is not
    stopped by any blacklist and is not let through by any whitelist,
    when the entries are not empty (as those of the form are). *)
Theorem hostless_url (netloc : string -> py string) (url : string)
    (wl bl : option (list string)) :
  url <> EmptyString -> netloc url = Ret EmptyString ->
  Forall (fun e => e <> EmptyString) (entries wl) ->
  Forall (fun e => e <> EmptyString) (entries bl) ->
  is_domain_allowed netloc url wl bl = negb (truthy_list wl).
Proof.
  intros Hne En Hw Hb.
  rewrite (is_domain_allowed_host netloc url EmptyString wl bl Hne En).
  change (Str.lower EmptyString) with EmptyString.
  assert (Eb : blocked_by EmptyString (entries bl) = false).
  { induction Hb as [|e l He Hl IH]; [reflexivity|]. cbn [blocked_by].
    now rewrite (contains_in_empty e He). }
  assert (Ew : existsb (fun allowed => Str.contains (Str.lower allowed) EmptyString)
                       (entries wl) = false).
  { induction Hw as [|e l He Hl IH]; [reflexivity|]. cbn [existsb].
    now rewrite (contains_in_empty e He). }
  rewrite Eb, andb_false_r, Ew. now destruct (truthy_list wl).
Qed.

Lemma hostless_url_witness :
  is_domain_allowed Url.netloc "/images/item.jpg" None
    (Some ["pinterest.com"%string]) = true /\
  is_domain_allowed Url.netloc "/images/item.jpg"
    (Some ["example.com"%string]) None = false.
Proof.
  split.
  - apply (hostless_url Url.netloc "/images/item.jpg" None
             (Some ["pinterest.com"%string])).
    + discriminate.
    + reflexivity.
    + constructor.
    + repeat constructor. discriminate.
  - apply (hostless_url Url.netloc "/images/item.jpg"
             (Some ["example.com"%string]) None).
    + discriminate.
    + reflexivity.
    + repeat constructor. discriminate.
    + constructor.
Defined.

(** ** More on the search *)

Lemma scan_all_rejected (netloc : string -> py string)
    (wl bl : option (list string)) (max_results : nat) (cs : list container) :
  Forall (rejects netloc wl bl) cs ->
  forall st, scan netloc max_results wl bl cs st = st.
Proof.
  induction 1 as [|c cs Hc Hcs IH]; intros [urls src]; [reflexivity|].
  cbn [scan fst]. destruct (max_results <=? List.length urls); [reflexivity|].
  destruct (scan_one_cases netloc wl bl c urls src)
    as [[u [p [Hacc _]]] | [_ ->]]; [now elim (Hc u p) | apply IH].
Qed.

Lemma attempts_barren (netloc : string -> py string)
    (wl bl : option (list string)) (d : nat -> attempt_outcome)
    (q : string) (max_results retry_count : nat) (n : nat) :
  forall (k : nat) (log : list event),
  (forall attempt, k <= attempt < k + n ->
     barren netloc wl bl max_results (d attempt)) ->
  attempts netloc d q max_results retry_count wl bl (seq k n)
           ([], EmptyString) log =
    (([], EmptyString),
     log ++ flat_map (fun _ => [EvGet q; EvPause]) (seq k n)).
Proof.
  induction n as [|n IH]; intros k log Hb.
  - simpl. now rewrite app_nil_r.
  - destruct (Hb k ltac:(lia)) as [cs [Ed Hrej]].
    cbn [seq attempts flat_map]. rewrite Ed.
    rewrite (scan_all_rejected netloc wl bl max_results _ Hrej). cbn [fst].
    rewrite IH; [now rewrite <- app_assoc|].
    intros attempt Ha. apply Hb. lia.
Qed.

(** A result page without an accepted candidate is not a failure: the
    search loads the page again at once, up to [retry_count] times in
    all, without the wait of three seconds and without a warning, and
    returns nothing. *)
Theorem barren_pages_retried_at_once (netloc : string -> py string)
    (d : nat -> attempt_outcome) (description supplier brand : string)
    (max_results retry_count : nat) (wl bl : option (list string)) :
  (forall attempt, attempt < retry_count ->
     barren netloc wl bl max_results (d attempt)) ->
  search_product_images_log netloc (Some d) description supplier brand
    max_results retry_count wl bl =
  (([], EmptyString),
   flat_map (fun _ => [EvGet (build_search_string description supplier brand);
                       EvPause])
            (seq 0 retry_count)).
Proof.
  intros Hb. unfold search_product_images_log.
  rewrite (attempts_barren netloc wl bl d _ max_results retry_count retry_count 0 []).
  - simpl. now destruct max_results.
  - intros attempt Ha. apply Hb. lia.
Qed.

Lemma barren_pages_retried_at_once_witness :
  search_product_images_log Url.netloc
    (Some (fun _ => Found [NoAttr; Undecodable "Expecting value"]))
    "widget" "" "Acme" 2 2 None None =
  (([], EmptyString),
   [EvGet "Acme widget product"; EvPause;
    EvGet "Acme widget product"; EvPause]).
Proof.
  apply (barren_pages_retried_at_once Url.netloc
           (fun _ => Found [NoAttr; Undecodable "Expecting value"])
           "widget" "" "Acme" 2 2 None None).
  intros attempt _. exists [NoAttr; Undecodable "Expecting value"].
  split; [reflexivity|].
  repeat constructor; intros u p [data [E _]]; discriminate.
Defined.

Lemma attempts_same_top (netloc : string -> py string)
    (wl bl : option (list string)) (d1 d2 : nat -> attempt_outcome)
    (q : string) (max_results retry_count : nat) :
  (forall attempt, same_top (max_results * 3) (d1 attempt) (d2 attempt)) ->
  forall todo st log,
  attempts netloc d1 q max_results retry_count wl bl todo st log =
  attempts netloc d2 q max_results retry_count wl bl todo st log.
Proof.
  intros Hs. induction todo as [|attempt rest IH]; intros st log; [reflexivity|].
  cbn [attempts]. specialize (Hs attempt).
  destruct (d1 attempt) as [e1|e1|cs1], (d2 attempt) as [e2|e2|cs2];
    simpl in Hs; try contradiction; subst.
  - destruct (attempt <? retry_count - 1); apply IH.
  - destruct (attempt <? retry_count - 1); apply IH.
  - rewrite Hs.
    destruct (fst (scan netloc max_results wl bl
                        (firstn (max_results * 3) cs2) st));
      [apply IH | reflexivity].
Qed.

(** The search looks at the first [3 * max_results] results of a page and
    at no other: two browsers that fail alike and agree on these results
    at every attempt give the same urls, the same page url and the same
    log. *)
Theorem search_looks_at_top_only (netloc : string -> py string)
    (d1 d2 : nat -> attempt_outcome) (description supplier brand : string)
    (max_results retry_count : nat) (wl bl : option (list string)) :
  (forall attempt, same_top (max_results * 3) (d1 attempt) (d2 attempt)) ->
  search_product_images_log netloc (Some d1) description supplier brand
    max_results retry_count wl bl =
  search_product_images_log netloc (Some d2) description supplier brand
    max_results retry_count wl bl.
Proof.
  intros Hs. unfold search_product_images_log.
  now rewrite (attempts_same_top netloc wl bl d1 d2 _ max_results retry_count Hs).
Qed.

Lemma search_looks_at_top_only_witness :
  search_product_images_log Url.netloc
    (Some (fun _ => Found (NoAttr :: Examples.page))) "widget" "" "Acme"
    1 2 None None =
  search_product_images_log Url.netloc
    (Some (fun _ => Found (firstn 3 (NoAttr :: Examples.page)))) "widget" "" "Acme"
    1 2 None None.
Proof.
  apply (search_looks_at_top_only Url.netloc
           (fun _ => Found (NoAttr :: Examples.page))
           (fun _ => Found (firstn 3 (NoAttr :: Examples.page)))
           "widget" "" "Acme" 1 2 None None).
  intros attempt. reflexivity.
Defined.

(** ** The counters of the batch *)

Lemma count_pointwise {A B : Type} (p : A -> bool) (q : B -> bool)
    (l1 : list A) :
  forall l2 : list B,
  List.length l1 = List.length l2 ->
  (forall i x y, nth_error l1 i = Some x -> nth_error l2 i = Some y -> p x = q y) ->
  List.length (filter p l1) = List.length (filter q l2).
Proof.
  induction l1 as [|x l1 IH]; intros [|y l2] Hl Hp; simpl in Hl;
    try discriminate; [reflexivity|].
  cbn [filter]. rewrite (Hp 0 x y eq_refl eq_refl).
  assert (E : List.length (filter p l1) = List.length (filter q l2)).
  { apply IH; [lia|]. intros i x' y' Hx Hy. exact (Hp (S i) x' y' Hx Hy). }
  destruct (q y); simpl; now rewrite E.
Qed.

Lemma filter_cons_length {A : Type} (p : A -> bool) (x : A) (l : list A) :
  List.length (filter p (x :: l)) = Nat.b2n (p x) + List.length (filter p l).
Proof. simpl. now destruct (p x). Qed.

Section CounterProps.

Variable netloc : string -> py string.
Variable a : call.

Local Abbreviation out_at dfp g j :=
  (search a j%nat
     (str_or_empty (row_cell (description_col a) (g j%nat)))
     (str_or_empty (nth j%nat dfp (fun _ => None) (supplier_col' a)))
     (str_or_empty (nth j%nat dfp (fun _ => None) (brand_col' a)))).

(** One turn of the loop adds one to exactly one counter. *)
Lemma process_row_counters (dfp : list df_row) (g : nat -> result_row)
    (idx : nat) (st : run_state) :
  let st' := row_step netloc a dfp idx (g idx) st in
  success_count st' =
    success_count st + Nat.b2n (counts_success (out_at dfp g idx)) /\
  failed_count st' =
    failed_count st + Nat.b2n (counts_failed a (out_at dfp g idx)) /\
  filtered_count st' =
    filtered_count st + Nat.b2n (counts_filtered a (out_at dfp g idx)).
Proof.
  cbv zeta. unfold row_step, row_body, search_and_record.
  destruct (out_at dfp g idx) as [[[|u urls] page]|e]; simpl;
    try (destruct (truthy_list (whitelist a) || truthy_list (blacklist a)); simpl);
    repeat split; lia.
Qed.

Lemma iterrows_counters (dfp : list df_row) (g : nat -> result_row)
    (idxs : list nat) :
  forall st : run_state,
  let st' := steps netloc a dfp (map (fun i => (i, g i)) idxs) st in
  success_count st' =
    success_count st
    + List.length (filter (fun i => counts_success (out_at dfp g i)) idxs) /\
  failed_count st' =
    failed_count st
    + List.length (filter (fun i => counts_failed a (out_at dfp g i)) idxs) /\
  filtered_count st' =
    filtered_count st
    + List.length (filter (fun i => counts_filtered a (out_at dfp g i)) idxs).
Proof.
  induction idxs as [|i rest IH]; intros st; cbv zeta.
  - simpl. repeat split; lia.
  - cbn [map steps]. rewrite !filter_cons_length.
    destruct (process_row_counters dfp g i st) as [Hs [Hf Hfi]].
    destruct (IH (row_step netloc a dfp i (g i) st)) as [Hs' [Hf' Hfi']].
    cbv zeta in *. rewrite Hs', Hf', Hfi', Hs, Hf, Hfi. repeat split; lia.
Qed.

(** The counters at the end of [process_dataframe], from the answers of
    the search for the rows. *)
Lemma process_dataframe_counters (df : list df_row) (num_rows : Z) :
  let dfp := df_to_process a df num_rows in
  let st := finished_state netloc a df num_rows in
  let out i := outcome_of a i (nth i dfp (fun _ => None)) in
  let rows := seq 0 (List.length dfp) in
  success_count st = List.length (filter (fun i => counts_success (out i)) rows) /\
  failed_count st = List.length (filter (fun i => counts_failed a (out i)) rows) /\
  filtered_count st = List.length (filter (fun i => counts_filtered a (out i)) rows).
Proof.
  cbv zeta. unfold finished_state, df_to_process.
  set (dfp := map (to_process a) (head num_rows df)).
  cbn [initial_state results_df].
  pose (g := fun i => nth (i - 0) (map (initial_result a) dfp) blank_result).
  assert (Ec : combine (seq 0 (List.length (map (initial_result a) dfp)))
                       (map (initial_result a) dfp) =
               map (fun i => (i, g i)) (seq 0 (List.length dfp))).
  { rewrite (combine_seq blank_result), length_map. reflexivity. }
  rewrite Ec. clear Ec.
  destruct (iterrows_counters dfp g (seq 0 (List.length dfp))
              (initial_state a dfp)) as [Hs [Hf Hfi]].
  cbv zeta in Hs, Hf, Hfi. simpl in Hs, Hf, Hfi.
  assert (Hout : forall i, In i (seq 0 (List.length dfp)) ->
            out_at dfp g i = outcome_of a i (nth i dfp (fun _ => None))).
  { intros i Hi. apply in_seq in Hi.
    unfold outcome_of, description_of, supplier_of, brand_of, g.
    rewrite Nat.sub_0_r.
    rewrite (nth_indep _ blank_result
               (initial_result a (fun _ => None)))
      by (rewrite length_map; lia).
    now rewrite map_nth. }
  rewrite Hs, Hf, Hfi.
  repeat split; f_equal; apply filter_ext_in; intros i Hi;
    now rewrite (Hout i Hi).
Qed.

End CounterProps.

Lemma three_way_count {A : Type} (p q r : A -> bool) (l : list A) :
  (forall x, Nat.b2n (p x) + Nat.b2n (q x) + Nat.b2n (r x) = 1) ->
  List.length (filter p l) + List.length (filter q l) + List.length (filter r l)
    = List.length l.
Proof.
  intros H. induction l as [|x l IH]; [reflexivity|].
  rewrite !filter_cons_length. specialize (H x). simpl. lia.
Qed.

Lemma status_counts (netloc : string -> py string) (a : call)
    (df : list df_row) (num_rows : Z)
    (p : stats_row -> bool) (q : py (list string * string) -> bool) :
  (forall out query t r, p (record_stats netloc a out query t r) = q out) ->
  let dfp := df_to_process a df num_rows in
  Report.count_where p (snd (finished netloc a df num_rows)) =
    List.length
      (filter (fun i => q (outcome_of a i (nth i dfp (fun _ => None))))
              (seq 0 (List.length dfp))).
Proof.
  intros Hpq. cbv zeta.
  destruct (process_dataframe_rows netloc a df num_rows) as [_ [Ls Hrows]].
  cbv zeta in Ls, Hrows. unfold Report.count_where.
  apply count_pointwise; [now rewrite length_seq|].
  intros i x y Hx Hy. rewrite nth_error_seq in Hy.
  destruct (i <? List.length (df_to_process a df num_rows)) eqn:Ei;
    [|discriminate].
  injection Hy as <-. apply Nat.ltb_lt in Ei. simpl.
  assert (Hr : nth_error (df_to_process a df num_rows) i =
               Some (nth i (df_to_process a df num_rows) (fun _ => None)))
    by (now apply nth_error_nth').
  destruct (Hrows i _ Hr) as [_ Hstat]. rewrite Hstat in Hx.
  injection Hx as <-. apply Hpq.
Qed.

(** When the labels of the product id and of the description are each
    selected once, the loop of [process_dataframe] ends, and the counters
    that it displays agree with the statistics it returns: every selected
    row is counted once, as a
    success, a failure or a filtered row; the successes are the rows with
    the status [Success], the filtered rows those with the status
    [Filtered - No allowed domains], and the failures those with the
    status [Failed - No images found] or a status that starts with
    [Error: ].  Nothing is counted as filtered when no list is
    configured. *)
Theorem counters_agree_with_statuses (netloc : string -> py string) (a : call)
    (df : list df_row) (num_rows : Z) :
  labels_once a ->
  exists st,
  process_dataframe_state netloc a df num_rows = Ret st /\
  success_count st + failed_count st + filtered_count st
    = List.length (head num_rows df) /\
  success_count st = Report.total_success (stats_df st) /\
  filtered_count st =
    Report.count_where
      (fun r => String.eqb (Search_Status r) "Filtered - No allowed domains")
      (stats_df st) /\
  failed_count st =
    Report.count_where
      (fun r => String.eqb (Search_Status r) "Failed - No images found"
                || Str.starts_with "Error: " (Search_Status r))
      (stats_df st) /\
  (truthy_list (whitelist a) || truthy_list (blacklist a) = false ->
   filtered_count st = 0).
Proof.
  intros Hl. exists (finished_state netloc a df num_rows).
  split; [now apply process_dataframe_state_once|].
  destruct (process_dataframe_counters netloc a df num_rows) as [Hs [Hf Hfi]].
  cbv zeta in Hs, Hf, Hfi.
  change (stats_df (finished_state netloc a df num_rows))
    with (snd (finished netloc a df num_rows)).
  split; [|split; [|split; [|split]]].
  - rewrite Hs, Hf, Hfi, three_way_count.
    + rewrite length_seq. unfold df_to_process. apply length_map.
    + intros i. destruct (outcome_of a i _) as [[[|u urls] page]|e]; simpl;
        try reflexivity.
      now destruct (truthy_list (whitelist a) || truthy_list (blacklist a)).
  - rewrite Hs. symmetry. unfold Report.total_success.
    apply (status_counts netloc a df num_rows _ counts_success).
    intros [[[|u urls] page]|e] query t r; simpl; try reflexivity.
    now destruct (truthy_list (whitelist a) || truthy_list (blacklist a)).
  - rewrite Hfi. symmetry.
    apply (status_counts netloc a df num_rows _ (counts_filtered a)).
    intros [[[|u urls] page]|e] query t r; simpl; try reflexivity.
    now destruct (truthy_list (whitelist a) || truthy_list (blacklist a)).
  - rewrite Hf. symmetry.
    apply (status_counts netloc a df num_rows _ (counts_failed a)).
    intros [[[|u urls] page]|e] query t r; simpl; try reflexivity.
    now destruct (truthy_list (whitelist a) || truthy_list (blacklist a)).
  - intros Hno. rewrite Hfi.
    generalize (seq 0 (List.length (df_to_process a df num_rows))).
    intros l. induction l as [|i l IH]; [reflexivity|].
    rewrite filter_cons_length, IH.
    destruct (outcome_of a i _) as [[[|u urls] page]|e]; simpl;
      rewrite ?Hno; reflexivity.
Qed.

Lemma counters_agree_with_statuses_witness :
  exists st,
    process_dataframe_state Url.netloc
      (Examples.args None None Examples.finding_nothing) Examples.frame 2
      = Ret st /\
    filtered_count st = 0 /\
    success_count st + failed_count st = 2.
Proof.
  destruct (counters_agree_with_statuses Url.netloc
              (Examples.args None None Examples.finding_nothing)
              Examples.frame 2 ltac:(split; vm_compute; lia))
    as [st [Hret [Hsum [_ [_ [_ H]]]]]].
  exists st. split; [exact Hret|].
  assert (H0 : filtered_count st = 0) by (apply H; reflexivity).
  split; [exact H0|]. rewrite H0 in Hsum. simpl in Hsum. lia.
Defined.

(** ** Runs *)

Lemma long_is_truthy (u : string) : 20 < String.length u -> truthy_str u = true.
Proof. destruct u; simpl; [lia | reflexivity]. Qed.

Lemma accepts_truthy (netloc : string -> py string)
    (wl bl : option (list string)) (c : container) (u p : string) :
  accepts netloc wl bl c u p -> truthy_str u = true /\ truthy_str p = true.
Proof.
  intros [data [_ [-> [Hd [_ Hl]]]]]. split.
  - now apply long_is_truthy.
  - exact (is_domain_allowed_truthy netloc wl bl _ Hd).
Qed.

(** What a search of a run returns: nothing, or one or two urls that are
    not empty with a page url that is not empty. *)
Lemma search_shapes (netloc : string -> py string)
    (driver : option (nat -> attempt_outcome))
    (description supplier brand : string) (retry_count : nat)
    (wl bl : option (list string)) :
  let out := search_product_images netloc driver description supplier brand
               2 retry_count wl bl in
  out = ([], EmptyString) \/
  (exists u p, out = ([u], p) /\ truthy_str u = true /\ truthy_str p = true) \/
  (exists u u2 p, out = ([u; u2], p) /\ truthy_str u = true /\
                  truthy_str u2 = true /\ truthy_str p = true).
Proof.
  cbv zeta.
  destruct (search_product_images_spec netloc driver description supplier
              brand 2 retry_count wl bl)
    as [E | [d [att [cs [u [p [added [_ [_ [_ [E [Hl [Hacc _]]]]]]]]]]]]];
    [now left | right].
  destruct (Hacc u p (or_introl eq_refl)) as [c [_ Hc]].
  destruct (accepts_truthy netloc wl bl c u p Hc) as [Hu Hp].
  destruct added as [|[u2 p2] [|x added]]; [| |simpl in Hl; lia].
  - left. exists u, p. rewrite E. auto.
  - right. exists u, u2, p. rewrite E.
    destruct (Hacc u2 p2 (or_intror (or_introl eq_refl))) as [c2 [_ Hc2]].
    destruct (accepts_truthy netloc wl bl c2 u2 p2 Hc2) as [Hu2 _]. auto.
Qed.

Section RunProps.

Variable netloc : string -> py string.
Variable driver : option (nat -> nat -> attempt_outcome).
Variable now : nat -> string.
Variables pid dcol : string.
Variables scol bcol : option string.
Variables wl bl : option (list string).

Local Abbreviation the_call := (run_call netloc driver now pid dcol scol bcol wl bl).
Local Abbreviation the_run df num_rows :=
  (run netloc driver now pid dcol scol bcol wl bl df num_rows).

(** A run in which the labels of the product id and of the description
    are each selected once returns, and the two rows of a product agree
    with each other:
    [Images_Found] is the number of url slots that are filled, the status
    is [Success] exactly when the first slot is filled, the page url is
    filled exactly when the first slot is, the second slot is filled only
    when the first is, [Source_Domain] is the host of [Product_Page_URL]
    as [urlparse] gives it, and no status is an error status. *)
Theorem run_rows_consistent (df : list df_row) (num_rows : Z) (i : nat)
    (r : df_row) :
  labels_once the_call ->
  nth_error (df_to_process the_call df num_rows) i = Some r ->
  exists frames res stat,
    the_run df num_rows = Ret frames /\
    nth_error (fst frames) i = Some res /\
    nth_error (snd frames) i = Some stat /\
    Images_Found stat =
      Nat.b2n (truthy_str (Image_URL_1 res))
      + Nat.b2n (truthy_str (Image_URL_2 res)) /\
    (Search_Status stat = "Success"%string <-> Image_URL_1 res <> EmptyString) /\
    (Product_Page_URL res <> EmptyString <-> Image_URL_1 res <> EmptyString) /\
    (Image_URL_2 res <> EmptyString -> Image_URL_1 res <> EmptyString) /\
    Source_Domain stat = source_domain_of netloc (Product_Page_URL res) /\
    Str.starts_with "Error: " (Search_Status stat) = false.
Proof.
  intros Hl Hi.
  destruct (process_dataframe_rows netloc the_call df num_rows) as [_ [_ Hrows]].
  destruct (Hrows i r Hi) as [Hres Hstat].
  exists (finished netloc the_call df num_rows). eexists. eexists.
  split; [now apply run_once|].
  split; [exact Hres|]. split; [exact Hstat|].
  unfold outcome_of. cbn [search run_call]. unfold search_call.
  match goal with
  | |- context [search_product_images ?n ?d ?x ?y ?z 2 ?k ?w ?b] =>
      destruct (search_shapes n d x y z k w b)
        as [E | [[u [p [E [Hu Hp]]]] | [u [u2 [p [E [Hu [Hu2 Hp]]]]]]]];
        cbv zeta in E; rewrite E
  end.
  - simpl. destruct (truthy_list wl || truthy_list bl); simpl;
      repeat split; intros H; try discriminate; try (now elim H).
  - destruct u as [|cu u]; [discriminate|].
    destruct p as [|cp p]; [discriminate|].
    simpl. repeat split; intros H; try discriminate; try reflexivity.
  - destruct u as [|cu u]; [discriminate|].
    destruct u2 as [|cu2 u2]; [discriminate|].
    destruct p as [|cp p]; [discriminate|].
    simpl. repeat split; intros H; try discriminate; try reflexivity.
Qed.

End RunProps.

Lemma run_rows_consistent_witness :
  exists frames res stat,
    run Url.netloc (Some Examples.browser) Examples.clock
      "id" "desc" None (Some "brand"%string)
      None (Some ["pinterest"%string]) Examples.frame 2 = Ret frames /\
    nth_error (fst frames) 0 = Some res /\
    nth_error (snd frames) 0 = Some stat /\
    Images_Found stat = 2 /\
    Source_Domain stat = "shop.example.com"%string.
Proof.
  destruct (run_rows_consistent Url.netloc (Some Examples.browser)
              Examples.clock "id" "desc" None (Some "brand"%string)
              None (Some ["pinterest"%string]) Examples.frame 2 0 _
              ltac:(split; vm_compute; lia) eq_refl)
    as [frames [res [stat [Hret [Hres [Hstat [Hn [_ [_ [_ [Hd _]]]]]]]]]]].
  exists frames, res, stat.
  split; [exact Hret|]. split; [exact Hres|]. split; [exact Hstat|].
  assert (Ef : Ret frames = Ret (finished_run Url.netloc (Some Examples.browser)
                Examples.clock "id" "desc" None (Some "brand"%string)
                None (Some ["pinterest"%string]) Examples.frame 2)).
  { rewrite <- Hret. apply run_once. split; vm_compute; lia. }
  injection Ef as Ef.
  assert (E : res = nth 0 (fst frames) blank_result)
    by (symmetry; apply nth_error_nth; exact Hres).
  rewrite Hn, Hd, E, Ef. split; reflexivity.
Defined.

(** Without a browser ([get_driver()] gave [None]) a run in which the
    labels of the product id and of the description are each selected
    once still returns and fills both frames: every row has empty url slots, no image, no domain, and
    the status [Filtered - No allowed domains] when a list is configured,
    [Failed - No images found] otherwise. *)
Theorem run_without_browser (netloc : string -> py string)
    (now : nat -> string) (pid dcol : string) (scol bcol : option string)
    (wl bl : option (list string)) (df : list df_row) (num_rows : Z)
    (i : nat) (r : df_row) :
  labels_once (run_call netloc None now pid dcol scol bcol wl bl) ->
  nth_error (df_to_process
               (run_call netloc None now pid dcol scol bcol wl bl)
               df num_rows) i = Some r ->
  exists frames res stat,
    run netloc None now pid dcol scol bcol wl bl df num_rows = Ret frames /\
    nth_error (fst frames) i = Some res /\
    nth_error (snd frames) i = Some stat /\
    Image_URL_1 res = EmptyString /\ Image_URL_2 res = EmptyString /\
    Product_Page_URL res = EmptyString /\
    Images_Found stat = 0 /\ Source_Domain stat = EmptyString /\
    Search_Status stat =
      (if truthy_list wl || truthy_list bl
       then "Filtered - No allowed domains" else "Failed - No images found")%string.
Proof.
  intros Hl Hi.
  destruct (process_dataframe_rows netloc
              (run_call netloc None now pid dcol scol bcol wl bl) df num_rows)
    as [_ [_ Hrows]].
  destruct (Hrows i r Hi) as [Hres Hstat].
  exists (finished_run netloc None now pid dcol scol bcol wl bl df num_rows).
  eexists. eexists. split; [now apply run_once|].
  split; [exact Hres|]. split; [exact Hstat|].
  unfold outcome_of. cbn [search run_call]. unfold search_call. simpl.
  destruct (truthy_list wl || truthy_list bl); simpl; repeat split.
Qed.

Lemma run_without_browser_witness :
  exists frames stat,
    run Url.netloc None Examples.clock "id" "desc" None
      (Some "brand"%string) None (Some ["pinterest"%string])
      Examples.frame 2 = Ret frames /\
    nth_error (snd frames) 1 = Some stat /\
    Search_Status stat = "Filtered - No allowed domains"%string.
Proof.
  destruct (run_without_browser Url.netloc Examples.clock "id" "desc" None
              (Some "brand"%string) None (Some ["pinterest"%string])
              Examples.frame 2 1 _ ltac:(split; vm_compute; lia) eq_refl)
    as [frames [res [stat [Hret [_ [Hstat [_ [_ [_ [_ [_ Hs]]]]]]]]]]].
  exists frames, stat. split; [exact Hret|]. split; [exact Hstat | exact Hs].
Defined.

(** A run in which the labels of the product id and of the description
    are each selected once returns, and in its summary the rows counted
    as successful, as failed and
    as filtered are all the rows, each counted once, and no row is
    counted as an error. *)
Theorem run_summary_counts (netloc : string -> py string)
    (driver : option (nat -> nat -> attempt_outcome)) (now : nat -> string)
    (pid dcol : string) (scol bcol : option string)
    (wl bl : option (list string)) (df : list df_row) (num_rows : Z) :
  labels_once (run_call netloc driver now pid dcol scol bcol wl bl) ->
  exists frames,
  run netloc driver now pid dcol scol bcol wl bl df num_rows = Ret frames /\
  let stats := snd frames in
  Report.total_processed stats = List.length (head num_rows df) /\
  Report.total_success stats + Report.total_failed stats
    + Report.total_filtered stats = Report.total_processed stats /\
  Report.total_errors stats = 0.
Proof.
  intros Hl.
  exists (finished_run netloc driver now pid dcol scol bcol wl bl df num_rows).
  split; [now apply run_once|].
  cbv zeta. unfold finished_run.
  set (a := run_call netloc driver now pid dcol scol bcol wl bl).
  destruct (process_dataframe_rows netloc a df num_rows) as [_ [Ls _]].
  cbv zeta in Ls.
  assert (HL : Report.total_processed (snd (finished netloc a df num_rows))
               = List.length (head num_rows df)).
  { unfold Report.total_processed. rewrite Ls. unfold df_to_process.
    apply length_map. }
  split; [exact HL|].
  pose (q (needle : string) (out : py (list string * string)) :=
          match out with
          | Ret (_ :: _, _) => Str.contains needle "Success"
          | Ret ([], _) =>
              if truthy_list wl || truthy_list bl
              then Str.contains needle "Filtered - No allowed domains"
              else Str.contains needle "Failed - No images found"
          | Raise e => Str.contains needle ("Error: " ++ Str.take 50 e)
          end).
  assert (Hq : forall needle out query t r,
            Str.contains needle
              (Search_Status (record_stats netloc a out query t r)) = q needle out).
  { intros needle [[[|u urls] page]|e] query t r; simpl; try reflexivity.
    now destruct (truthy_list wl || truthy_list bl). }
  unfold Report.total_failed, Report.total_filtered, Report.total_errors,
    Report.total_success.
  rewrite (status_counts netloc a df num_rows _ (q "Failed"%string)
             (Hq "Failed"%string)).
  rewrite (status_counts netloc a df num_rows _ (q "Filtered"%string)
             (Hq "Filtered"%string)).
  rewrite (status_counts netloc a df num_rows _ (q "Error"%string)
             (Hq "Error"%string)).
  rewrite (status_counts netloc a df num_rows _ counts_success).
  2:{ intros [[[|u urls] page]|e] query t r; simpl; try reflexivity.
      now destruct (truthy_list wl || truthy_list bl). }
  rewrite HL. cbv zeta. split.
  - rewrite three_way_count.
    + rewrite length_seq. unfold df_to_process. apply length_map.
    + intros i. unfold outcome_of. cbn [search a run_call]. unfold search_call.
      destruct (search_product_images _ _ _ _ _ _ _ _ _) as [[|u urls] page];
        simpl; [|reflexivity].
      destruct (truthy_list wl || truthy_list bl); reflexivity.
  - generalize (seq 0 (List.length (df_to_process a df num_rows))).
    intros l. induction l as [|i l IH]; [reflexivity|].
    rewrite filter_cons_length, IH.
    unfold outcome_of. cbn [search a run_call]. unfold search_call.
    destruct (search_product_images _ _ _ _ _ _ _ _ _) as [[|u urls] page];
      simpl; [|reflexivity].
    destruct (truthy_list wl || truthy_list bl); reflexivity.
Qed.

Lemma run_summary_counts_witness :
  exists frames,
    run Url.netloc (Some Examples.browser) Examples.clock "id" "desc" None
      (Some "brand"%string) None None Examples.frame 2 = Ret frames /\
    Report.total_processed (snd frames) = 2 /\
    Report.total_errors (snd frames) = 0.
Proof.
  destruct (run_summary_counts Url.netloc (Some Examples.browser)
              Examples.clock "id" "desc" None (Some "brand"%string) None None
              Examples.frame 2 ltac:(split; vm_compute; lia))
    as [frames [Hret [Hp [_ He]]]].
  exists frames. split; [exact Hret|]. split; [exact Hp | exact He].
Defined.

(** ** Checkpoints and delays *)

Ltac divmod10 n :=
  pose proof (Nat.div_mod_eq n 10);
  pose proof (Nat.mod_upper_bound n 10 ltac:(discriminate)).

Lemma count_checkpoints_app (t1 t2 : list row_event) :
  count_checkpoints (t1 ++ t2) = count_checkpoints t1 + count_checkpoints t2.
Proof. unfold count_checkpoints. now rewrite filter_app, length_app. Qed.

Lemma delays_app (t1 t2 : list row_event) : delays (t1 ++ t2) = delays t1 ++ delays t2.
Proof. apply flat_map_app. Qed.

Section CheckpointProps.

Variable netloc : string -> py string.
Variable a : call.

(** What the loop keeps true of the checkpoint. *)
Local Abbreviation kept st :=
  ((checkpoint_data st = None <-> last_processed_index st = (-1)%Z) /\
   (forall snap, checkpoint_data st = Some snap ->
      List.length snap = List.length (results_df st)) /\
   List.length (stats_df st) = List.length (results_df st)).

Lemma search_and_record_rest (idx : nat) (d s b q : string) (st : run_state) :
  checkpoint_data (search_and_record netloc a idx d s b q st) = checkpoint_data st /\
  last_processed_index (search_and_record netloc a idx d s b q st)
    = last_processed_index st /\
  trace (search_and_record netloc a idx d s b q st) = trace st.
Proof.
  unfold search_and_record.
  destruct (search a idx d s b) as [[[|u urls] page]|e]; simpl;
    try (destruct (truthy_list (whitelist a) || truthy_list (blacklist a)));
    auto.
Qed.

Lemma process_row_checkpoint (dfp : list df_row) (idx : nat) (row : result_row)
    (st : run_state) :
  idx < List.length (results_df st) -> kept st ->
  let st' := row_step netloc a dfp idx row st in
  let hit := (idx + 1) mod 10 =? 0 in
  List.length (results_df st') = List.length (results_df st) /\
  kept st' /\
  last_processed_index st' =
    (if hit then Z.of_nat idx else last_processed_index st) /\
  count_checkpoints (trace st') = count_checkpoints (trace st) + Nat.b2n hit /\
  List.length (delays (trace st')) = S (List.length (delays (trace st))).
Proof.
  intros Hlt [Hnone [Hsnap Hlen]]. cbv zeta.
  destruct (process_row_frames netloc a dfp idx row st Hlt ltac:(lia)) as [Er Es].
  cbv zeta in Er, Es.
  assert (Lr : List.length (results_df (row_step netloc a dfp idx row st))
               = List.length (results_df st))
    by (rewrite Er; now apply at_set_length).
  assert (Ls : List.length (stats_df (row_step netloc a dfp idx row st))
               = List.length (stats_df st))
    by (rewrite Es; apply at_set_length; lia).
  split; [exact Lr|].
  revert Lr Ls. unfold row_step, row_body.
  match goal with
  | |- context [search_and_record netloc a idx ?d ?s ?b ?q st] =>
      destruct (search_and_record_rest idx d s b q st) as [Ec [El Et]];
      set (st1 := search_and_record netloc a idx d s b q st) in *
  end.
  unfold checkpoint_and_delay. cbn [results_df stats_df checkpoint_data
    last_processed_index trace]. intros Lr Ls.
  rewrite Ec, El, Et.
  destruct ((idx + 1) mod 10 =? 0).
  - split; [|split; [reflexivity|split]].
    + split; [|split].
      * split; [discriminate | lia].
      * intros snap H. now injection H as <-.
      * lia.
    + rewrite !count_checkpoints_app. unfold count_checkpoints. simpl. lia.
    + rewrite !delays_app, !length_app. simpl. lia.
  - split; [|split; [reflexivity|split]].
    + split; [exact Hnone|]. split; [|lia].
      intros snap H. rewrite (Hsnap snap H). lia.
    + rewrite !count_checkpoints_app. unfold count_checkpoints. simpl. lia.
    + rewrite !delays_app, !length_app. simpl. lia.
Qed.

Lemma iterrows_checkpoints (dfp : list df_row) (g : nat -> result_row) (n : nat) :
  forall (k : nat) (st : run_state),
  k + n <= List.length (results_df st) -> kept st ->
  let st' := steps netloc a dfp (map (fun i => (i, g i)) (seq k n)) st in
  let m := 10 * ((k + n) / 10) in
  List.length (results_df st') = List.length (results_df st) /\
  kept st' /\
  last_processed_index st' =
    (if m <=? k then last_processed_index st else Z.of_nat (m - 1)) /\
  count_checkpoints (trace st') =
    count_checkpoints (trace st) + ((k + n) / 10 - k / 10) /\
  List.length (delays (trace st')) = List.length (delays (trace st)) + n.
Proof.
  induction n as [|n IH]; intros k st Hlt Hk; cbv zeta.
  - cbn [seq map steps]. rewrite Nat.add_0_r.
    split; [reflexivity|]. split; [exact Hk|].
    divmod10 k. split; [|split; lia].
    destruct (Nat.leb_spec (10 * (k / 10)) k); [reflexivity | lia].
  - cbn [seq map steps].
    destruct (process_row_checkpoint dfp k (g k) st ltac:(lia) Hk)
      as [Lr [Hk1 [Hl1 [Hc1 Hd1]]]].
    cbv zeta in Lr, Hk1, Hl1, Hc1, Hd1.
    set (st1 := row_step netloc a dfp k (g k) st) in *.
    destruct (IH (S k) st1 ltac:(lia) Hk1) as [Lr' [Hk' [Hl' [Hc' Hd']]]].
    cbv zeta in Lr', Hk', Hl', Hc', Hd'.
    replace (S k + n) with (k + S n) in * by lia.
    split; [congruence|]. split; [exact Hk'|].
    divmod10 k. divmod10 (k + 1). divmod10 (k + S n).
    replace (S k) with (k + 1) in * by lia.
    rewrite Hl', Hc', Hd', Hl1, Hc1, Hd1.
    destruct (Nat.eqb_spec ((k + 1) mod 10) 0) as [E|E]; simpl Nat.b2n;
      destruct (Nat.leb_spec (10 * ((k + S n) / 10)) (k + 1));
      destruct (Nat.leb_spec (10 * ((k + S n) / 10)) k);
      repeat split; lia.
Qed.

End CheckpointProps.

(** When the labels of the product id and of the description are each
    selected once, the loop ends; a checkpoint is taken after every tenth
    row and one delay follows every row: over [L] selected rows there are [L / 10] checkpoints and
    [L] delays.  With ten rows or more, the checkpoint index at the end
    is that of the last row whose number is a multiple of ten, and the
    frame saved has [L] rows; with fewer than ten rows the checkpoint is
    left as it was before the loop. *)
Theorem checkpoints_every_ten (netloc : string -> py string) (a : call)
    (df : list df_row) (num_rows : Z) :
  labels_once a ->
  let before := initial_state a (df_to_process a df num_rows) in
  let L := List.length (head num_rows df) in
  exists st,
  process_dataframe_state netloc a df num_rows = Ret st /\
  count_checkpoints (trace st) = L / 10 /\
  List.length (delays (trace st)) = L /\
  (10 <= L ->
   last_processed_index st = Z.of_nat (10 * (L / 10) - 1) /\
   exists snap, checkpoint_data st = Some snap /\ List.length snap = L) /\
  (L < 10 ->
   last_processed_index st = last_processed_index before /\
   checkpoint_data st = checkpoint_data before).
Proof.
  intros Hl0. cbv zeta. exists (finished_state netloc a df num_rows).
  split; [now apply process_dataframe_state_once|].
  unfold finished_state, df_to_process.
  set (dfp := map (to_process a) (head num_rows df)).
  assert (EL : List.length dfp = List.length (head num_rows df))
    by apply length_map.
  cbn [initial_state results_df checkpoint_data last_processed_index].
  pose (g := fun i => nth (i - 0) (map (initial_result a) dfp) blank_result).
  assert (Ec : combine (seq 0 (List.length (map (initial_result a) dfp)))
                       (map (initial_result a) dfp) =
               map (fun i => (i, g i)) (seq 0 (List.length dfp))).
  { rewrite (combine_seq blank_result), length_map. reflexivity. }
  rewrite Ec. clear Ec.
  destruct (iterrows_checkpoints netloc a dfp g (List.length dfp) 0
              (initial_state a dfp)) as [Lr [[Hnone [Hsnap _]] [Hl [Hc Hd]]]].
  { simpl. rewrite length_map. lia. }
  { simpl. rewrite !length_map. repeat split; auto. discriminate. }
  cbv zeta in Lr, Hnone, Hsnap, Hl, Hc, Hd.
  cbn [initial_state results_df trace last_processed_index] in Lr, Hl, Hc, Hd.
  rewrite length_map in Lr.
  change (0 + List.length dfp) with (List.length dfp) in Hl, Hc.
  change (0 / 10) with 0 in Hc.
  change (count_checkpoints []) with 0 in Hc.
  change (List.length (delays [])) with 0 in Hd.
  rewrite EL in *.
  set (L := List.length (head num_rows df)) in *.
  divmod10 L.
  split; [rewrite Hc; lia|]. split; [exact Hd|].
  assert (Hlast : last_processed_index
            (steps netloc a dfp (map (fun i => (i, g i)) (seq 0 L))
                      (initial_state a dfp)) =
          (if L <? 10 then (-1)%Z else Z.of_nat (10 * (L / 10) - 1))).
  { rewrite Hl. destruct (Nat.leb_spec (10 * (L / 10)) 0), (Nat.ltb_spec L 10);
      try reflexivity; lia. }
  split.
  - intros HL. destruct (Nat.ltb_spec L 10); [lia|]. split; [exact Hlast|].
    destruct (checkpoint_data _) as [snap|] eqn:Ecd.
    + exists snap. split; [reflexivity|]. rewrite (Hsnap snap eq_refl). exact Lr.
    + destruct Hnone as [Hn _]. specialize (Hn eq_refl). rewrite Hlast in Hn. lia.
  - intros HL. destruct (Nat.ltb_spec L 10); [|lia]. split; [exact Hlast|].
    apply Hnone. exact Hlast.
Qed.

Lemma checkpoints_every_ten_witness :
  exists st,
    process_dataframe_state Url.netloc
      (Examples.args None None Examples.finding_nothing) Examples.frame 2
      = Ret st /\
    checkpoint_data st = None.
Proof.
  destruct (checkpoints_every_ten Url.netloc
              (Examples.args None None Examples.finding_nothing)
              Examples.frame 2 ltac:(split; vm_compute; lia))
    as [st [Hret [_ [_ [_ H]]]]].
  exists st. split; [exact Hret|].
  destruct H as [_ H]; [simpl; lia | exact H].
Defined.

(** ** The counts of the summary *)

Lemma mem_In (x : string) (l : list string) : Report.mem x l = true <-> In x l.
Proof.
  unfold Report.mem. rewrite existsb_exists. split.
  - intros [y [Hy E]]. apply String.eqb_eq in E. now subst.
  - intros H. exists x. split; [exact H | apply String.eqb_refl].
Qed.

Lemma distinct_from_spec (l : list string) :
  forall seen,
  NoDup (Report.distinct_from seen l) /\
  forall x, In x (Report.distinct_from seen l) <-> In x l /\ ~ In x seen.
Proof.
  induction l as [|x0 l IH]; intros seen; simpl.
  - split; [constructor | intros x; tauto].
  - destruct (Report.mem x0 seen) eqn:E.
    + apply mem_In in E. destruct (IH seen) as [Hn Hi]. split; [exact Hn|].
      intros x. rewrite Hi. split; [tauto|].
      intros [[<- | Hx] Hs]; [contradiction | tauto].
    + assert (Hx0 : ~ In x0 seen).
      { intros H. apply mem_In in H. congruence. }
      destruct (IH (x0 :: seen)) as [Hn Hi]. split.
      * constructor; [|exact Hn]. rewrite Hi. simpl. tauto.
      * intros x. simpl. rewrite Hi. simpl.
        destruct (string_dec x0 x) as [<-|Hne]; tauto.
Qed.

Lemma distinct_spec (l : list string) :
  NoDup (Report.distinct l) /\ forall x, In x (Report.distinct l) <-> In x l.
Proof.
  destruct (distinct_from_spec l []) as [Hn Hi]. split; [exact Hn|].
  intros x. unfold Report.distinct. rewrite Hi. simpl. tauto.
Qed.

Lemma insert_by_count_perm (e : string * nat) (l : list (string * nat)) :
  Permutation (Report.insert_by_count e l) (e :: l).
Proof.
  induction l as [|e' l IH]; simpl; [reflexivity|].
  destruct (snd e' <? snd e); [reflexivity|].
  rewrite IH. apply perm_swap.
Qed.

Lemma insert_by_count_sorted (e : string * nat) (l : list (string * nat)) :
  Sorted falling l -> Sorted falling (Report.insert_by_count e l).
Proof.
  induction l as [|e' l IH]; intros Hs; simpl.
  - repeat constructor.
  - destruct (Nat.ltb_spec (snd e') (snd e)) as [Hlt|Hge].
    + constructor; [exact Hs|]. constructor. unfold falling. lia.
    + inversion Hs as [|? ? Hs' Hhd]; subst. constructor; [now apply IH|].
      destruct l as [|e'' l]; simpl.
      * constructor. exact Hge.
      * destruct (snd e'' <? snd e); constructor;
          [exact Hge | now inversion Hhd].
Qed.

Lemma value_counts_perm (l : list string) :
  Permutation (Report.value_counts l)
              (map (fun x => (x, Report.occurrences x l)) (Report.distinct l)).
Proof.
  unfold Report.value_counts.
  induction (map (fun x => (x, Report.occurrences x l)) (Report.distinct l))
    as [|e es IH]; simpl; [reflexivity|].
  rewrite insert_by_count_perm. now constructor.
Qed.

Lemma value_counts_sorted (l : list string) : Sorted falling (Report.value_counts l).
Proof.
  unfold Report.value_counts.
  induction (map (fun x => (x, Report.occurrences x l)) (Report.distinct l))
    as [|e es IH]; simpl; [constructor | now apply insert_by_count_sorted].
Qed.

Lemma occurrences_pos (x : string) (l : list string) :
  In x l -> 1 <= Report.occurrences x l.
Proof.
  unfold Report.occurrences. induction l as [|y l IH]; intros H; [destruct H|].
  simpl. destruct (String.eqb_spec x y) as [->|Hne]; simpl; [lia|].
  destruct H as [H|H]; [congruence | auto].
Qed.

Lemma filter_length_le {A : Type} (p : A -> bool) (l : list A) :
  List.length (filter p l) <= List.length l.
Proof. induction l as [|x l IH]; simpl; [lia|]. destruct (p x); simpl; lia. Qed.

Lemma occurrences_nonempty (d : string) (stats_df : list stats_row) :
  d <> EmptyString ->
  Report.occurrences d
    (filter (fun d => negb (String.eqb d "")) (map Source_Domain stats_df)) =
  Report.count_where (fun r => String.eqb d (Source_Domain r)) stats_df.
Proof.
  intros Hne. unfold Report.occurrences, Report.count_where.
  induction stats_df as [|r rs IH]; [reflexivity|]. simpl.
  destruct (String.eqb_spec (Source_Domain r) "") as [E|E]; simpl.
  - rewrite E. destruct (String.eqb_spec d ""); [contradiction | exact IH].
  - destruct (d =? Source_Domain r)%string; simpl; now rewrite IH.
Qed.

(** The domain counts of the summary: every domain that some row has,
    once, never the empty one, with the number of rows that have it;
    most frequent first. *)
Theorem domain_counts_spec (stats_df : list stats_row) :
  NoDup (map fst (Report.domain_counts stats_df)) /\
  (forall d c, In (d, c) (Report.domain_counts stats_df) <->
     d <> EmptyString /\ In d (map Source_Domain stats_df) /\
     c = Report.count_where (fun r => String.eqb d (Source_Domain r)) stats_df) /\
  Sorted falling (Report.domain_counts stats_df) /\
  (forall d c, In (d, c) (Report.domain_counts stats_df) ->
     1 <= c <= Report.total_processed stats_df).
Proof.
  unfold Report.domain_counts.
  set (l := filter (fun d => negb (String.eqb d "")) (map Source_Domain stats_df)).
  pose proof (value_counts_perm l) as Hp.
  destruct (distinct_spec l) as [Hnd Hin].
  assert (Hocc : forall d, Report.occurrences d l =
            Report.count_where (fun r => String.eqb d (Source_Domain r)) stats_df
            \/ d = EmptyString).
  { intros d. destruct (string_dec d EmptyString) as [->|Hne]; [now right|left].
    now apply occurrences_nonempty. }
  assert (Hl : forall d, In d l <-> d <> EmptyString /\ In d (map Source_Domain stats_df)).
  { intros d. unfold l. rewrite filter_In, negb_true_iff, String.eqb_neq. tauto. }
  assert (Hmem : forall d c, In (d, c) (Report.value_counts l) <->
            In d l /\ c = Report.occurrences d l).
  { intros d c. split.
    - intros H. apply (Permutation_in _ Hp) in H. apply in_map_iff in H.
      destruct H as [x [E Hx]]. injection E as <- <-. split; [now apply Hin | reflexivity].
    - intros [Hd ->]. apply (Permutation_in _ (Permutation_sym Hp)).
      apply in_map_iff. exists d. split; [reflexivity | now apply Hin]. }
  split; [|split; [|split]].
  - apply (Permutation_NoDup (Permutation_sym (Permutation_map fst Hp))).
    rewrite map_map. simpl. now rewrite map_id.
  - intros d c. rewrite Hmem, Hl. split.
    + intros [[Hne Hd] ->]. repeat split; auto.
      destruct (Hocc d) as [E|E]; [exact E | contradiction].
    + intros [Hne [Hd ->]]. repeat split; auto.
      destruct (Hocc d) as [E|E]; [now rewrite E | contradiction].
  - apply value_counts_sorted.
  - intros d c H. apply Hmem in H. destruct H as [Hd ->]. split.
    + now apply occurrences_pos.
    + unfold Report.occurrences, Report.total_processed, l.
      etransitivity; [apply filter_length_le|].
      etransitivity; [apply filter_length_le|]. now rewrite length_map.
Qed.

Lemma domain_counts_spec_witness :
  In ("shop.example.com"%string, 1) (Report.domain_counts Examples.stats) /\
  1 <= 1 <= Report.total_processed Examples.stats.
Proof.
  assert (H : In ("shop.example.com"%string, 1)
                 (Report.domain_counts Examples.stats)) by (left; reflexivity).
  split; [exact H|].
  destruct (domain_counts_spec Examples.stats) as [_ [_ [_ Hb]]].
  exact (Hb _ _ H).
Defined.

Lemma value_counts_length (l : list string) :
  List.length (Report.value_counts l) = List.length (Report.distinct l).
Proof.
  rewrite (Permutation_length (value_counts_perm l)). apply length_map.
Qed.

(** The number of unique domains that the summary reports counts the
    empty [Source_Domain] of the rows without a page url as one domain:
    it is the number of domains counted, plus one when some row has no
    domain. *)
Theorem source_diversity_counts_blank (stats_df : list stats_row) :
  Report.nunique (map Source_Domain stats_df) =
    List.length (Report.domain_counts stats_df)
    + Nat.b2n (Report.mem "" (map Source_Domain stats_df)).
Proof.
  unfold Report.nunique, Report.domain_counts. rewrite value_counts_length.
  set (l := map Source_Domain stats_df).
  set (l' := filter (fun d => negb (String.eqb d "")) l).
  destruct (distinct_spec l) as [Hn Hi].
  destruct (distinct_spec l') as [Hn' Hi'].
  assert (Hl' : forall x, In x l' <-> In x l /\ x <> EmptyString).
  { intros x. unfold l'. rewrite filter_In, negb_true_iff, String.eqb_neq. tauto. }
  destruct (Report.mem "" l) eqn:E; simpl.
  - apply mem_In in E.
    assert (P : Permutation (Report.distinct l) (EmptyString :: Report.distinct l')).
    { apply NoDup_Permutation; [exact Hn | |].
      - constructor; [|exact Hn']. rewrite Hi', Hl'. tauto.
      - intros x. simpl. rewrite Hi, Hi', Hl'.
        destruct (string_dec EmptyString x) as [<-|Hne]; [tauto|].
        split; [intros H; right; split; [exact H | congruence] | tauto]. }
    rewrite (Permutation_length P). simpl. lia.
  - assert (Hno : ~ In EmptyString l) by (intros H; apply mem_In in H; congruence).
    assert (P : Permutation (Report.distinct l) (Report.distinct l')).
    { apply NoDup_Permutation; [exact Hn | exact Hn' |].
      intros x. rewrite Hi, Hi', Hl'. split; [|tauto].
      intros H. split; [exact H|]. intros ->. contradiction. }
    rewrite (Permutation_length P). lia.
Qed.

Section SummaryShape.

Import Report.

Local Abbreviation aligned s := (List.length (Metric s) = List.length (Value s)).
Local Abbreviation lines_of s := (combine (Metric s) (Value s)).

Lemma add_top_domains_top_lines (top : list (string * nat)) :
  forall (i total : nat) (s : summary_data),
  aligned s ->
  lines_of (add_top_domains i total top s) = lines_of s ++ top_lines i total top /\
  aligned (add_top_domains i total top s).
Proof.
  induction top as [|[domain count] top IH]; intros i total s Hs;
    cbn [add_top_domains top_lines].
  - now rewrite app_nil_r.
  - destruct (extend_lines s
                [("#" ++ Str.of_nat i ++ " - " ++ domain)%string]
                [VShare count total] Hs eq_refl) as [El Ha].
    destruct (IH (S i) total _ Ha) as [E Ha'].
    rewrite E, El, <- app_assoc. split; [reflexivity | exact Ha'].
Qed.

(** The rows of the summary, all of them. *)
Lemma summary_lines_explicit (stats_df : list stats_row) :
  aligned (summary stats_df) /\
  summary_lines stats_df =
    [("Total Products Processed"%string, VCount (total_processed stats_df));
     ("Successful Searches"%string, VCount (total_success stats_df));
     ("Failed Searches"%string, VCount (total_failed stats_df));
     ("Filtered (Domain Rules)"%string, VCount (total_filtered stats_df));
     ("Errors"%string, VCount (total_errors stats_df));
     ("Success Rate (%)"%string,
      VRate (total_success stats_df) (total_processed stats_df));
     (EmptyString, VText ""); ("TOP 3 SOURCE DOMAINS"%string, VText "")]
    ++ top_lines 1 (total_processed stats_df)
                 (firstn 3 (domain_counts stats_df))
    ++ [(EmptyString, VText ""); ("NOTABLE FINDINGS"%string, VText "")]
    ++ (if 3 * total_processed stats_df <? 10 * total_filtered stats_df
        then [(high_filter_rate,
               VText (Str.of_nat (total_filtered stats_df)
                      ++ " products filtered - consider relaxing domain rules"))]
        else [])
    ++ (if 2 * total_processed stats_df <? 10 * total_failed stats_df
        then [(high_failure_rate,
               VText (Str.of_nat (total_failed stats_df)
                      ++ " products failed - check search query quality"))]
        else [])
    ++ [("Source Diversity"%string,
         VText (Str.of_nat (nunique (map Source_Domain stats_df))
                ++ " unique domains found"))]
    ++ (if (nunique (map Source_Domain stats_df) <? 5)
           && (10 <? total_success stats_df)
        then [(low_domain_diversity,
               VText "Results concentrated in few sources - may indicate bias")]
        else []).
Proof.
  unfold summary_lines, summary. cbv zeta.
  match goal with
  | |- context [add_top_domains 1 ?t ?top ?s0] =>
      destruct (add_top_domains_top_lines top 1 t s0 eq_refl) as [E0 A0];
      set (s1 := add_top_domains 1 t top s0) in *
  end.
  destruct (extend_lines s1 [EmptyString; "NOTABLE FINDINGS"%string]
              [VText ""; VText ""] A0 eq_refl) as [E1 A1].
  set (s2 := extend s1 _ _) in *.
  match goal with
  | |- context [if ?c then extend s2 [?m] [?v] else s2] =>
      destruct (extend_if_lines c s2 m v A1) as [E2 A2];
      set (s3 := if c then extend s2 [m] [v] else s2) in *
  end.
  match goal with
  | |- context [if ?c then extend s3 [?m] [?v] else s3] =>
      destruct (extend_if_lines c s3 m v A2) as [E3 A3];
      set (s4 := if c then extend s3 [m] [v] else s3) in *
  end.
  match goal with
  | |- context [extend s4 [?m] [?v]] =>
      destruct (extend_lines s4 [m] [v] A3 eq_refl) as [E4 A4];
      set (s5 := extend s4 [m] [v]) in *
  end.
  match goal with
  | |- context [if ?c then extend s5 [?m] [?v] else s5] =>
      destruct (extend_if_lines c s5 m v A4) as [E5 A5]
  end.
  split; [exact A5|].
  rewrite E5, E4, E3, E2, E1, E0. simpl combine.
  rewrite <- !app_assoc. reflexivity.
Qed.

End SummaryShape.

Lemma top_lines_length (i total : nat) (top : list (string * nat)) :
  List.length (top_lines i total top) = List.length top.
Proof.
  revert i. induction top as [|[d c] top IH]; intros i; simpl; [reflexivity|].
  now rewrite IH.
Qed.

Lemma top_lines_In (m : string) (v : Report.value) (total : nat)
    (top : list (string * nat)) :
  forall i, In (m, v) (top_lines i total top) ->
  exists d c, In (d, c) top /\ v = Report.VShare c total.
Proof.
  induction top as [|[d c] top IH]; intros i H; simpl in H; [destruct H|].
  destruct H as [H|H].
  - injection H as _ <-. exists d, c. split; [now left | reflexivity].
  - destruct (IH _ H) as [d' [c' [Hin E]]]. exists d', c'. split; [now right | exact E].
Qed.

(** The two columns of the summary have the same length, so that the
    sheet can be made, and the sheet has between 11 and 17 rows: the 11
    that are always there, one for each of the up to three most frequent
    domains, and one for each advisory line. *)
Theorem summary_rows (stats_df : list stats_row) :
  List.length (Report.Metric (Report.summary stats_df)) =
    List.length (Report.Value (Report.summary stats_df)) /\
  List.length (Report.summary_lines stats_df) =
    11 + Nat.min 3 (List.length (Report.domain_counts stats_df))
    + Nat.b2n (3 * Report.total_processed stats_df
               <? 10 * Report.total_filtered stats_df)
    + Nat.b2n (2 * Report.total_processed stats_df
               <? 10 * Report.total_failed stats_df)
    + Nat.b2n ((Report.nunique (map Source_Domain stats_df) <? 5)
               && (10 <? Report.total_success stats_df)) /\
  11 <= List.length (Report.summary_lines stats_df) <= 17.
Proof.
  destruct (summary_lines_explicit stats_df) as [Ha E].
  split; [exact Ha|].
  assert (El : List.length (Report.summary_lines stats_df) =
    11 + Nat.min 3 (List.length (Report.domain_counts stats_df))
    + Nat.b2n (3 * Report.total_processed stats_df
               <? 10 * Report.total_filtered stats_df)
    + Nat.b2n (2 * Report.total_processed stats_df
               <? 10 * Report.total_failed stats_df)
    + Nat.b2n ((Report.nunique (map Source_Domain stats_df) <? 5)
               && (10 <? Report.total_success stats_df))).
  { rewrite E. rewrite !length_app, top_lines_length, length_firstn.
    generalize (Nat.min 3 (List.length (Report.domain_counts stats_df))).
    intros k.
    destruct (3 * _ <? 10 * _), (2 * _ <? 10 * _), (_ && _); simpl; lia. }
  split; [exact El|]. rewrite El.
  pose proof (Nat.le_min_l 3 (List.length (Report.domain_counts stats_df))) as Hk.
  revert Hk.
  generalize (Nat.min 3 (List.length (Report.domain_counts stats_df))).
  intros k Hk.
  destruct (3 * _ <? 10 * _), (2 * _ <? 10 * _), (_ && _); simpl; lia.
Qed.

(** The share of a domain is never a division by zero: a row of the
    summary that shows a share is one of at most three, its total is the
    number of rows of the statistics and is not zero, and its count is
    the number of rows with one domain that is not empty, at least 1 and
    at most the total. *)
Theorem domain_shares_defined (stats_df : list stats_row) :
  (forall m c t, In (m, Report.VShare c t) (Report.summary_lines stats_df) ->
     t = Report.total_processed stats_df /\ 0 < t /\ 1 <= c <= t /\
     exists d, d <> EmptyString /\
       c = Report.count_where (fun r => String.eqb d (Source_Domain r)) stats_df) /\
  List.length
    (filter (fun l => match snd l with Report.VShare _ _ => true | _ => false end)
            (Report.summary_lines stats_df)) <= 3.
Proof.
  destruct (summary_lines_explicit stats_df) as [_ E]. rewrite E. clear E.
  destruct (domain_counts_spec stats_df) as [_ [Hin [_ Hb]]].
  split.
  - intros m c t H.
    assert (Htop : In (m, Report.VShare c t)
                      (top_lines 1 (Report.total_processed stats_df)
                         (firstn 3 (Report.domain_counts stats_df)))).
    { line_cases H; try discriminate H; exact H. }
    destruct (top_lines_In _ _ _ _ _ Htop) as [d [c' [Hd Ev]]].
    injection Ev as -> ->.
    assert (Hd' : In (d, c') (Report.domain_counts stats_df)).
    { rewrite <- (firstn_skipn 3 (Report.domain_counts stats_df)).
      apply in_or_app. now left. }
    pose proof (Hb d c' Hd') as Hc. apply Hin in Hd'.
    destruct Hd' as [Hne [_ Ec]].
    split; [reflexivity|]. split; [lia|]. split; [exact Hc|].
    exists d. split; [exact Hne | exact Ec].
  - rewrite !filter_app.
    assert (Hf : forall i total top,
      List.length
        (filter (fun l => match snd l with Report.VShare _ _ => true | _ => false end)
                (top_lines i total top)) <= List.length top).
    { intros i total top. etransitivity; [apply filter_length_le|].
      now rewrite top_lines_length. }
    rewrite !length_app.
    specialize (Hf 1 (Report.total_processed stats_df)
                  (firstn 3 (Report.domain_counts stats_df))).
    rewrite length_firstn in Hf.
    pose proof (Nat.le_min_l 3 (List.length (Report.domain_counts stats_df))) as Hk.
    revert Hf Hk.
    generalize (Nat.min 3 (List.length (Report.domain_counts stats_df))).
    match goal with
    | |- forall k, ?x <= k -> _ => generalize x
    end.
    intros n k Hf Hk.
    destruct (3 * _ <? 10 * _), (2 * _ <? 10 * _), (_ && _); simpl; lia.
Qed.

Lemma domain_shares_defined_witness :
  0 < Report.total_processed Examples.stats /\
  In ("#1 - shop.example.com"%string, Report.VShare 1 3)
     (Report.summary_lines Examples.stats).
Proof.
  assert (H : In ("#1 - shop.example.com"%string, Report.VShare 1 3)
                 (Report.summary_lines Examples.stats))
    by (vm_compute; tauto).
  destruct (domain_shares_defined Examples.stats) as [Hs _].
  destruct (Hs _ _ _ H) as [_ [Hpos _]].
  split; [|exact H]. simpl. lia.
Defined.

(** ** The two queries *)

Lemma append_assoc (a b c : string) : ((a ++ b) ++ c)%string = (a ++ b ++ c)%string.
Proof. induction a as [|x a IH]; simpl; [reflexivity | now rewrite IH]. Qed.

Lemma join_snoc (sep x : string) (l : list string) :
  l <> [] -> Str.join sep (l ++ [x]) = (Str.join sep l ++ sep ++ x)%string.
Proof.
  induction l as [|p l IH]; intros Hne; [now elim Hne|].
  destruct l as [|q l]; [reflexivity|].
  change (Str.join sep ((p :: q :: l) ++ [x]))
    with (p ++ sep ++ Str.join sep ((q :: l) ++ [x]))%string.
  rewrite IH by discriminate.
  change (Str.join sep (p :: q :: l)) with (p ++ sep ++ Str.join sep (q :: l))%string.
  now rewrite !append_assoc.
Qed.

Lemma join_truthy (sep : string) (l : list string) :
  l <> [] -> Forall (fun p => truthy_str p = true) l ->
  truthy_str (Str.join sep l) = true.
Proof.
  intros Hne Hf. destruct l as [|p l]; [now elim Hne|].
  inversion Hf as [|? ? Hp _]; subst.
  destruct p as [|c p]; [discriminate|]. now destruct l.
Qed.

(** For fields without white space at either end, the query that is
    searched is the query shown in the statistics followed by the token
    [product]; it is [product] alone when the query shown is empty. *)
Theorem search_string_extends_display_query (description supplier brand : string) :
  Str.strip description = description -> Str.strip supplier = supplier ->
  Str.strip brand = brand ->
  build_search_string description supplier brand =
    match display_query description supplier brand with
    | EmptyString => "product"%string
    | String c q => (String c q ++ " product")%string
    end.
Proof.
  intros Hd Hs Hb.
  assert (E1 : build_search_string description supplier brand =
    Str.join " " (filter truthy_str [brand; supplier; description]
                  ++ ["product"%string])).
  { unfold build_search_string. rewrite !strip_truthy, Hd, Hs, Hb. simpl.
    destruct (truthy_str brand), (truthy_str supplier), (truthy_str description);
      reflexivity. }
  assert (E2 : display_query description supplier brand =
    Str.join " " (filter truthy_str [brand; supplier; description])).
  { unfold display_query. simpl. now rewrite Hd, Hs, Hb. }
  rewrite E1, E2.
  assert (Hf : Forall (fun p => truthy_str p = true)
                      (filter truthy_str [brand; supplier; description])).
  { apply Forall_forall. intros p Hp. apply filter_In in Hp. tauto. }
  destruct (filter truthy_str [brand; supplier; description]) as [|p ps];
    [reflexivity|].
  rewrite join_snoc by discriminate.
  pose proof (join_truthy " " (p :: ps) ltac:(discriminate) Hf) as Ht.
  destruct (Str.join " " (p :: ps)); [discriminate | reflexivity].
Qed.

Lemma search_string_extends_display_query_witness :
  build_search_string "blue widget" "" "Acme" = "Acme blue widget product"%string /\
  display_query "blue widget" "" "Acme" = "Acme blue widget"%string.
Proof.
  split; [|reflexivity].
  rewrite (search_string_extends_display_query "blue widget" "" "Acme");
    reflexivity.
Defined.

(** ** Columns and rows of the input *)

(** A supplier column that is not chosen ([(None)] in the form), that has
    the empty name or that is named [_temp_supplier] is not used: the
    results have no supplier column and the supplier of every row that is
    processed is empty. *)
Theorem unselected_supplier (a : call) (r : df_row) :
  supplier_col a = None \/ supplier_col a = Some EmptyString \/
  supplier_col a = Some "_temp_supplier"%string ->
  supplier_of a (to_process a r) = EmptyString /\
  selected_cols a =
    [product_id_col a; description_col a]
    ++ (if use_col (brand_col a) "_temp_brand"
        then [str_or_empty (brand_col a)] else []).
Proof.
  intros H.
  assert (E : use_col (supplier_col a) "_temp_supplier" = false)
    by (destruct H as [-> | [-> | ->]]; reflexivity).
  unfold supplier_of, supplier_col', selected_cols, to_process. rewrite E.
  split; [|reflexivity].
  destruct (use_col (brand_col a) "_temp_brand"); reflexivity.
Qed.

Lemma unselected_supplier_witness :
  form_column "(None)" = None /\
  supplier_of (Examples.args None None Examples.finding_nothing)
    (to_process (Examples.args None None Examples.finding_nothing)
                (set_col "_temp_supplier" (Some "ACME Ltd"%string)
                         (Examples.row "P1" "widget" "Acme"))) = EmptyString.
Proof.
  split; [reflexivity|].
  apply (unselected_supplier (Examples.args None None Examples.finding_nothing)).
  left. reflexivity.
Defined.

(** When the labels of the product id and of the description are each
    selected once, [process_dataframe] returns and has processed the
    first [num_rows] rows and no more than the frame has: for [num_rows]
    that is not negative both frames have [min num_rows (len df)] rows; an empty frame gives two empty
    frames. *)
Theorem process_dataframe_selects (netloc : string -> py string) (a : call)
    (df : list df_row) (num_rows : Z) :
  labels_once a ->
  (0 <= num_rows)%Z ->
  exists out,
  process_dataframe netloc a df num_rows = Ret out /\
  List.length (fst out) = Nat.min (Z.to_nat num_rows) (List.length df) /\
  List.length (snd out) = Nat.min (Z.to_nat num_rows) (List.length df) /\
  (df = [] -> out = ([], [])).
Proof.
  intros Hl Hn. exists (finished netloc a df num_rows).
  split; [now apply process_dataframe_once|].
  destruct (process_dataframe_rows netloc a df num_rows) as [Lr [Ls _]].
  cbv zeta in Lr, Ls. unfold df_to_process in Lr, Ls.
  rewrite length_map in Lr, Ls.
  assert (Eh : head num_rows df = firstn (Z.to_nat num_rows) df).
  { unfold head. destruct (Z.leb_spec 0 num_rows); [reflexivity | lia]. }
  rewrite Eh, length_firstn in Lr, Ls.
  split; [exact Lr|]. split; [exact Ls|].
  intros ->. change (List.length (@nil df_row)) with 0 in Lr, Ls.
  rewrite Nat.min_0_r in Lr, Ls.
  destruct (finished netloc a [] num_rows) as [[|x xs] [|y ys]];
    try reflexivity; discriminate.
Qed.

Lemma process_dataframe_selects_witness :
  exists out,
    process_dataframe Url.netloc
      (Examples.args None None Examples.finding_nothing) Examples.frame 5
      = Ret out /\
    List.length (fst out) = 2.
Proof.
  destruct (process_dataframe_selects Url.netloc
              (Examples.args None None Examples.finding_nothing)
              Examples.frame 5 ltac:(split; vm_compute; lia) ltac:(lia))
    as [out [Hret [H _]]].
  exists out. split; [exact Hret | exact H].
Defined.

(** ** A search that succeeds *)

Lemma scan_grows (netloc : string -> py string) (wl bl : option (list string))
    (max_results : nat) (cs : list container) :
  forall urls src,
  urls <> [] \/
  (0 < max_results /\ exists c u p, In c cs /\ accepts netloc wl bl c u p) ->
  fst (scan netloc max_results wl bl cs (urls, src)) <> [].
Proof.
  induction cs as [|c cs IH]; intros urls src H.
  - destruct H as [H | [_ [c [u [p [[] _]]]]]]. exact H.
  - cbn [scan fst]. destruct (Nat.leb_spec max_results (List.length urls)) as [Hm|Hm].
    + simpl. destruct H as [H | [Hpos _]]; [exact H|].
      destruct urls; [simpl in Hm; lia | discriminate].
    + destruct (scan_one_cases netloc wl bl c urls src)
        as [[u [p [_ ->]]] | [Hrej ->]].
      * apply IH. left. now destruct urls.
      * apply IH. destruct H as [H | [Hpos [c' [u [p [[<- | Hin] Hacc]]]]]].
        -- now left.
        -- now elim (Hrej u p).
        -- right. split; [exact Hpos|]. now exists c', u, p.
Qed.

(** When the first page holds an accepted candidate among the results
    that the loop looks at, the search loads the page once, returns at
    least one url and does not retry, wait or warn. *)
Theorem success_stops_retrying (netloc : string -> py string)
    (d : nat -> attempt_outcome) (description supplier brand : string)
    (max_results retry_count : nat) (wl bl : option (list string))
    (cs : list container) :
  0 < retry_count -> 0 < max_results -> d 0 = Found cs ->
  (exists c u p, In c (firstn (max_results * 3) cs) /\
                 accepts netloc wl bl c u p) ->
  snd (search_product_images_log netloc (Some d) description supplier brand
         max_results retry_count wl bl) =
    [EvGet (build_search_string description supplier brand); EvPause] /\
  fst (fst (search_product_images_log netloc (Some d) description supplier
              brand max_results retry_count wl bl)) <> [].
Proof.
  intros Hr Hm Hd Hacc. unfold search_product_images_log.
  destruct retry_count as [|n]; [lia|]. cbn [seq attempts]. rewrite Hd.
  pose proof (scan_grows netloc wl bl max_results (firstn (max_results * 3) cs)
                [] EmptyString (or_intror (conj Hm Hacc))) as Hne.
  destruct (scan netloc max_results wl bl (firstn (max_results * 3) cs)
                 ([], EmptyString)) as [[|u urls] src] eqn:Es;
    [now elim Hne|].
  cbn [fst snd]. split; [reflexivity|].
  destruct max_results; [lia | discriminate].
Qed.

Lemma success_stops_retrying_witness :
  snd (search_product_images_log Url.netloc (Some (fun _ => Found Examples.page))
         "widget" "" "Acme" 2 2 None (Some ["pinterest"%string])) =
    [EvGet "Acme widget product"; EvPause].
Proof.
  destruct (success_stops_retrying Url.netloc (fun _ => Found Examples.page)
              "widget" "" "Acme" 2 2 None (Some ["pinterest"%string])
              Examples.page ltac:(lia) ltac:(lia) eq_refl) as [H _].
  - eexists. exists "https://cdn.example.org/images/3.jpg"%string,
      "https://store.example.org/p/3"%string.
    split; [do 4 right; left; reflexivity|].
    eexists. repeat split; simpl; lia.
  - exact H.
Defined.

Lemma create_hyperlink_formula_faithful_witness :
  create_hyperlink_formula "" "View" = EmptyString.
Proof.
  destruct (create_hyperlink_formula_faithful "View") as [H _].
  apply H. reflexivity.
Defined.
